(** * ERW: state estimation, Monte Carlo simulation and result summaries

    A shallow embedding of the numerical core of the ERW back end:

    - [app/services/model_state_service.py]: [update_state] and the
      Extended Kalman Filter nested in it;
    - [app/services/simulation_service.py]: [simulate];
    - [app/services/results_service.py]: [summarize], [list_results] and
      [count_results];
    - [app/routes/results.py]: the routes that list and summarize results.

    Python floats are modelled as real numbers: the arithmetic is exact, and
    rounding, overflow and NaN are outside the model.  Where a property turns
    on rounding, the code is modelled a second time in IEEE 754 binary64, the
    arithmetic of the program itself ([Binary64]).  Database queries are
    modelled by their results, database writes by the rows a call commits,
    and an exception caught by a service's [try]/[except] by [None] in the
    computation that raises it. *)

From Stdlib Require Import Floats.
From Stdlib Require Import Reals Lra Lia ZArith.
From stdpp Require Import base option list gmap strings pretty sorting.

Open Scope R_scope.

(** ** Service responses

    Every service method returns a dictionary whose ["status"] is either
    ["success"] or ["error"]; an error carries a ["message"]. *)

Inductive Response (A : Type) : Type :=
  | Success (payload : A)
  | Error (message : string).

Arguments Success {A} payload.
Arguments Error {A} message.

Definition is_success {A} (r : Response A) : bool :=
  match r with Success _ => true | Error _ => false end.

(** ** Database rows ([app/models]) *)

Module Models.

(** [Configuration]: the columns the services read. *)
Record Configuration := mkConfiguration {
  cfg_config_id : string;
  application_rate_t_ha : option R;
  chemistry_factor_K : option R
}.

Record LabRecord := mkLabRecord {
  lab_config_id : string;
  time_months : R;
  co2_uptake_t_per_t : R
}.

Record FieldRecord := mkFieldRecord {
  field_config_id : string;
  window_start : Z;
  window_end : Z;
  co2_removed_t_ha : R
}.

(** [StatePosterior]: every numeric column is nullable. *)
Record StatePosterior := mkStatePosterior {
  sp_config_id : string;
  eta_r0_mean : option R;
  eta_r0_var : option R;
  eta_phi0_mean : option R;
  eta_phi0_var : option R;
  alpha_r : option R;
  alpha_phi : option R;
  sigma_r : option R;
  sigma_phi : option R
}.

Record SimulationResult := mkSimulationResult {
  sr_config_id : string;
  n_total : option R;
  run_index : option nat
}.

(** The JSON value found under the risk multipliers: an array of numbers,
    an object of numbers, or a number.  Leaves that are not numbers make
    the arithmetic of [simulate] raise and are not represented. *)
Inductive RiskMultipliers :=
  | RiskList (l : list R)
  | RiskDict (d : gmap string R)
  | RiskScalar (x : R).

(** [RiskProfile.parameters], a JSON object: either it has a
    ["multipliers"] key, or it is itself the object of multipliers.  A
    value that is not an object (an array, a string or a number that is
    neither empty nor zero) makes [risk.parameters.get] raise and is not
    represented: what is proved of a call with a risk profile is proved of
    the profiles of this type. *)
Inductive RiskParameters :=
  | WithMultipliersKey (m : RiskMultipliers)
  | PlainDict (d : gmap string R).

Record RiskProfile := mkRiskProfile {
  risk_id : string;
  parameters : option RiskParameters
}.

(** The numeric columns of a posterior row. *)
Definition posterior_columns (row : StatePosterior) : list (option R) :=
  [eta_r0_mean row; eta_r0_var row; eta_phi0_mean row; eta_phi0_var row;
   alpha_r row; alpha_phi row; sigma_r row; sigma_phi row].

End Models.

(** ** NumPy reductions used by the services *)

Module Np.

Global Instance Rle_decision : RelDecision Rle := Rle_dec.
Global Instance Rlt_decision : RelDecision Rlt := Rlt_dec.

(** [np.sum] *)
Definition sum (a : list R) : R := foldr Rplus 0 a.

(** [np.mean] *)
Definition mean (a : list R) : R := sum a / INR (length a).

(** [np.std]: the population standard deviation (ddof = 0). *)
Definition std (a : list R) : R :=
  sqrt (mean (map (fun x => Rabs (x - mean a) ^ 2) a)).

(** [np.min] and [np.max] raise [ValueError] on an empty array. *)
Definition amin (a : list R) : option R :=
  match a with
  | [] => None
  | x :: rest => Some (foldl Rmin x rest)
  end.

Definition amax (a : list R) : option R :=
  match a with
  | [] => None
  | x :: rest => Some (foldl Rmax x rest)
  end.

(** NumPy's linear interpolation between two neighbours. *)
Definition lerp (a b t : R) : R := a + (b - a) * t.

(** [np.percentile a q] with the default ["linear"] method: the sorted
    array is read at the virtual index [(n - 1) * q / 100], interpolating
    between the two neighbouring order statistics. *)
Definition percentile (a : list R) (q : R) : option R :=
  let arr := merge_sort Rle a in
  let n := length arr in
  let virtual_index := INR (n - 1) * (q / 100) in
  let previous_index := Z.to_nat (Int_part virtual_index) in
  let next_index := Nat.min (previous_index + 1) (n - 1) in
  let gamma := virtual_index - INR previous_index in
  match arr !! previous_index, arr !! next_index with
  | Some lo, Some hi => Some (lerp lo hi gamma)
  | _, _ => None
  end.

(** [np.mean(a >= target)]: the mean of the comparison's booleans. *)
Definition ge_indicator (target x : R) : R :=
  if decide (target <= x) then 1 else 0.

Definition fraction_ge (a : list R) (target : R) : R :=
  mean (map (ge_indicator target) a).

(** [scipy.special.expit] *)
Definition expit (x : R) : R := 1 / (1 + exp (- x)).

(** *** The percentile as the spec words it

    Linear interpolation between order statistics: in the sorted ensemble of
    [n] values, percentile [q] sits at position [q * (n - 1) / 100], between
    the values at the indices just below and just above it. *)
Definition spec_percentile (sorted : list R) (q : nat) : option R :=
  let n := length sorted in
  let position := ((n - 1) * q)%nat in
  let below := (position / 100)%nat in
  let above := Nat.min (below + 1) (n - 1) in
  let fraction := INR (position mod 100) / 100 in
  lo ← sorted !! below;
  hi ← sorted !! above;
  Some (lo + (hi - lo) * fraction).

End Np.

(** ** [ModelStateService] ([app/services/model_state_service.py]) *)

Module ModelStateService.
Import Models.

(** The parameter vector [[alpha_r, alpha_phi, sigma_r, sigma_phi,
    sigma_lab]], an array of length five. *)
Record Params := mkParams {
  p_alpha_r : R;
  p_alpha_phi : R;
  p_sigma_r : R;
  p_sigma_phi : R;
  p_sigma_lab : R
}.

(** The variables the filter's loop updates. *)
Record EkfState := mkEkfState {
  eta_r : R;
  eta_phi : R;
  P_r : R;
  P_phi : R;
  log_likelihood : R
}.

(** What [extended_kalman_filter] returns: the negative log-likelihood,
    or with [return_final_state] the tuple that also has the final state. *)
Inductive EkfReturn :=
  | NegLL (neg_ll : R)
  | FinalState (neg_ll eta_r_final eta_phi_final P_r_final P_phi_final : R).

(** The body of [for i in range(n)], given [y_lab[i]]. *)
Definition ekf_body (alpha_r alpha_phi sigma_r sigma_phi sigma_lab : R)
    (st : EkfState) (y_i : R) : EkfState :=
  let eta_r_pred := eta_r st + alpha_r in
  let eta_phi_pred := eta_phi st + alpha_phi in
  let P_r_pred := P_r st + sigma_r ^ 2 in
  let P_phi_pred := P_phi st + sigma_phi ^ 2 in
  let h := exp eta_r_pred in
  let H := h in
  let y_pred := h in
  let innovation := y_i - y_pred in
  let S := H ^ 2 * P_r_pred + sigma_lab ^ 2 in
  let K := (H * P_r_pred) / S in
  {| eta_r := eta_r_pred + K * innovation;
     P_r := (1 - K * H) * P_r_pred;
     eta_phi := eta_phi_pred;
     P_phi := P_phi_pred;
     log_likelihood :=
       log_likelihood st + - 0.5 * (ln (2 * PI * S) + innovation ^ 2 / S) |}.

(** The loop over the indices; [y_lab[i]] raises [IndexError] when [i] is
    out of range. *)
Fixpoint ekf_loop (body : EkfState -> R -> EkfState) (y_lab : list R)
    (indices : list nat) (st : EkfState) : option EkfState :=
  match indices with
  | [] => Some st
  | i :: rest =>
      match y_lab !! i with
      | Some y_i => ekf_loop body y_lab rest (body st y_i)
      | None => None
      end
  end.

Definition extended_kalman_filter (params : Params) (times y_lab : list R)
    (eta_r0_mean eta_r0_var eta_phi0_mean eta_phi0_var : R)
    (return_final_state : bool) : option EkfReturn :=
  let alpha_r := p_alpha_r params in
  let alpha_phi := p_alpha_phi params in
  let sigma_r := Rmax (p_sigma_r params) 1e-6 in
  let sigma_phi := Rmax (p_sigma_phi params) 1e-6 in
  let sigma_lab := Rmax (p_sigma_lab params) 1e-6 in
  let n := length times in
  let init := {| eta_r := eta_r0_mean; eta_phi := eta_phi0_mean;
                 P_r := eta_r0_var; P_phi := eta_phi0_var;
                 log_likelihood := 0 |} in
  st ← ekf_loop (ekf_body alpha_r alpha_phi sigma_r sigma_phi sigma_lab)
         y_lab (seq 0 n) init;
  if return_final_state
  then Some (FinalState (- log_likelihood st)
               (eta_r st) (eta_phi st) (P_r st) (P_phi st))
  else Some (NegLL (- log_likelihood st)).

(** The loop's variables once the filter has read all of [y_lab]: the body
    folded over the observations from the initial state. *)
Definition ekf_run (params : Params)
    (eta_r0_mean eta_r0_var eta_phi0_mean eta_phi0_var : R)
    (y_lab : list R) : EkfState :=
  foldl
    (ekf_body (p_alpha_r params) (p_alpha_phi params)
       (Rmax (p_sigma_r params) 1e-6) (Rmax (p_sigma_phi params) 1e-6)
       (Rmax (p_sigma_lab params) 1e-6))
    {| eta_r := eta_r0_mean; eta_phi := eta_phi0_mean;
       P_r := eta_r0_var; P_phi := eta_phi0_var;
       log_likelihood := 0 |}
    y_lab.

(** [scipy.optimize.OptimizeResult]: the attributes [update_state] reads. *)
Record OptimizeResult := mkOptimizeResult {
  success : bool;
  message : string;
  x : Params;
  nit : nat
}.

(** The payload of a successful [update_state]. *)
Record Optimization := mkOptimization {
  opt_success : bool;
  negative_log_likelihood : R;
  iterations : nat
}.

Record DataSummary := mkDataSummary {
  n_lab_records : nat;
  n_field_records : nat
}.

Record UpdateStateOk := mkUpdateStateOk {
  us_config_id : string;
  posterior : gmap string R;
  optimization : Optimization;
  data_summary : DataSummary
}.

(** What a call does besides returning: the calls it makes to the
    optimizer and to the filter (the final pass), and the posterior row its
    commit leaves in the table. *)
Inductive Call := CallMinimize | CallFinalEkf.

Record Outcome := mkOutcome {
  response : Response UpdateStateOk;
  calls : list Call;
  committed : option StatePosterior
}.

Definition initial_params (y_lab : list R) : Params :=
  {| p_alpha_r := 0.0; p_alpha_phi := 0.0;
     p_sigma_r := 0.1; p_sigma_phi := 0.1;
     p_sigma_lab := Np.std y_lab * 0.1 |}.

Definition bounds : list (R * R) :=
  [(-1.0, 1.0); (-1.0, 1.0); (1e-6, 10.0); (1e-6, 10.0); (1e-6, 10.0)].

(** The ["posterior"] dictionary of the response. *)
Definition posterior_dict (eta_r0_mean eta_r0_var eta_phi0_mean eta_phi0_var
    alpha_r_fit alpha_phi_fit sigma_r_fit sigma_phi_fit : R) : gmap string R :=
  <["eta_r0_mean" := eta_r0_mean]> (
  <["eta_r0_var" := eta_r0_var]> (
  <["eta_phi0_mean" := eta_phi0_mean]> (
  <["eta_phi0_var" := eta_phi0_var]> (
  <["alpha_r" := alpha_r_fit]> (
  <["alpha_phi" := alpha_phi_fit]> (
  <["sigma_r" := sigma_r_fit]> (
  <["sigma_phi" := sigma_phi_fit]> ∅))))))).

Definition generic_error : string :=
  "An error occurred while updating model state".

(** Step 2 (lines 116-126): the prior means [update_state] computes from
    the first lab uptake and from the field records; both prior variances
    are [1.0]. *)
Definition prior_eta_r0_mean (first_uptake : R) : R :=
  ln (Rmax first_uptake 1e-6).

Definition prior_eta_phi0_mean (field_records : list FieldRecord) : R :=
  match field_records with
  | _ :: _ => ln (Rmax (Np.mean (map co2_removed_t_ha field_records)) 1e-6)
  | [] => 0.0
  end.

(** The objective [update_state] hands to the optimizer. *)
Definition objective (lab_records : list LabRecord)
    (field_records : list FieldRecord) (first_uptake : R)
    (params : Params) : option EkfReturn :=
  extended_kalman_filter params
    (map time_months lab_records) (map co2_uptake_t_per_t lab_records)
    (prior_eta_r0_mean first_uptake) 1.0
    (prior_eta_phi0_mean field_records) 1.0 false.

(** An optimizer that reports [result] whatever it is given: it stands for
    the black box in the examples. *)
Definition constant_minimize (result : OptimizeResult)
    : (Params -> option EkfReturn) -> Params -> string -> list (R * R) -> nat ->
      option OptimizeResult :=
  fun _ _ _ _ _ => Some result.

(** Inputs of the examples: a configuration, the two lab records of the
    spec's Example 1, and two results of the optimizer. *)
Definition cfg0 : Configuration := mkConfiguration "cfg" (Some 10) (Some 0.5).

Definition lab1 : LabRecord := mkLabRecord "cfg" 1 0.010.

Definition lab2 : LabRecord := mkLabRecord "cfg" 2 0.018.

Definition fit0 : OptimizeResult :=
  mkOptimizeResult true "CONVERGENCE" (mkParams 0 0 0.1 0.1 0.1) 3.

Definition fit5 : OptimizeResult :=
  mkOptimizeResult true "CONVERGENCE" (mkParams 0 0 0.1 0.1 5) 3.

Definition fit_failed : OptimizeResult :=
  mkOptimizeResult false "ABNORMAL_TERMINATION_IN_LNSRCH"
    (mkParams 0 0 0.1 0.1 0.1) 7.

Section UpdateState.

(** [scipy.optimize.minimize], a black box: it receives the objective,
    the initial guess, the method, the bounds and [maxiter]; [None] is an
    exception raised inside it. *)
Variable minimize :
  (Params -> option EkfReturn) -> Params -> string -> list (R * R) -> nat ->
  option OptimizeResult.

(** [update_state config_id], given the results of its four queries:
    the configuration, the lab records ordered by time, the field records
    ordered by window start, and the posterior row already stored. *)
Definition update_state (config_id : string)
    (config : option Configuration)
    (lab_records : list LabRecord) (field_records : list FieldRecord)
    (existing_posterior : option StatePosterior) : Outcome :=
  match config with
  | None =>
      mkOutcome (Error ("Configuration " +:+ config_id +:+ " not found")) [] None
  | Some _ =>
  match lab_records with
  | [] =>
      mkOutcome
        (Error ("No lab records found for configuration " +:+ config_id))
        [] None
  | first_record :: _ =>
      let times := map time_months lab_records in
      let y_lab := map co2_uptake_t_per_t lab_records in
      let eta_r0_mean := ln (Rmax (co2_uptake_t_per_t first_record) 1e-6) in
      let eta_r0_var := 1.0 in
      let eta_phi0_mean :=
        match field_records with
        | _ :: _ =>
            let field_rates := map co2_removed_t_ha field_records in
            ln (Rmax (Np.mean field_rates) 1e-6)
        | [] => 0.0
        end in
      let eta_phi0_var := 1.0 in
      match minimize
              (fun params =>
                 extended_kalman_filter params times y_lab
                   eta_r0_mean eta_r0_var eta_phi0_mean eta_phi0_var false)
              (initial_params y_lab) "L-BFGS-B" bounds 1000%nat with
      | None => mkOutcome (Error generic_error) [CallMinimize] None
      | Some result =>
          if negb (success result)
          then mkOutcome
                 (Error ("Optimization failed: " +:+ message result))
                 [CallMinimize] None
          else
            let alpha_r_fit := p_alpha_r (x result) in
            let alpha_phi_fit := p_alpha_phi (x result) in
            let sigma_r_fit := p_sigma_r (x result) in
            let sigma_phi_fit := p_sigma_phi (x result) in
            let sigma_lab_fit := p_sigma_lab (x result) in
            match extended_kalman_filter (x result) times y_lab
                    eta_r0_mean eta_r0_var eta_phi0_mean eta_phi0_var true with
            | Some (FinalState final_neg_ll eta_r_final eta_phi_final
                      P_r_final P_phi_final) =>
                let eta_r0_mean := eta_r_final in
                let eta_r0_var := P_r_final in
                let eta_phi0_mean := eta_phi_final in
                let eta_phi0_var := P_phi_final in
                let row :=
                  {| sp_config_id := config_id;
                     Models.eta_r0_mean := Some eta_r0_mean;
                     Models.eta_r0_var := Some eta_r0_var;
                     Models.eta_phi0_mean := Some eta_phi0_mean;
                     Models.eta_phi0_var := Some eta_phi0_var;
                     alpha_r := Some alpha_r_fit;
                     alpha_phi := Some alpha_phi_fit;
                     sigma_r := Some sigma_r_fit;
                     sigma_phi := Some sigma_phi_fit |} in
                let posterior :=
                  match existing_posterior with
                  | Some existing =>
                      {| sp_config_id := sp_config_id existing;
                         Models.eta_r0_mean := Models.eta_r0_mean row;
                         Models.eta_r0_var := Models.eta_r0_var row;
                         Models.eta_phi0_mean := Models.eta_phi0_mean row;
                         Models.eta_phi0_var := Models.eta_phi0_var row;
                         alpha_r := alpha_r row;
                         alpha_phi := alpha_phi row;
                         sigma_r := sigma_r row;
                         sigma_phi := sigma_phi row |}
                  | None => row
                  end in
                mkOutcome
                  (Success
                     {| us_config_id := config_id;
                        posterior :=
                          posterior_dict eta_r0_mean eta_r0_var
                            eta_phi0_mean eta_phi0_var alpha_r_fit
                            alpha_phi_fit sigma_r_fit sigma_phi_fit;
                        optimization :=
                          {| opt_success := success result;
                             negative_log_likelihood := final_neg_ll;
                             iterations := nit result |};
                        data_summary :=
                          {| n_lab_records := length lab_records;
                             n_field_records := length field_records |} |})
                  [CallMinimize; CallFinalEkf]
                  (Some posterior)
            | _ => mkOutcome (Error generic_error)
                     [CallMinimize; CallFinalEkf] None
            end
      end
  end
  end.

End UpdateState.

End ModelStateService.


(** ** The filter in binary64

    [extended_kalman_filter] (lines 129-203) once more, in the arithmetic
    the program runs in: every number is an IEEE 754 binary64 float and
    every operation rounds to nearest.  [np.exp] and [np.log] are those of
    the platform's mathematical library and are parameters here. *)

Module Binary64.

#[local] Set Warnings "-inexact-float".

Record Params := mkParams {
  p_alpha_r : float;
  p_alpha_phi : float;
  p_sigma_r : float;
  p_sigma_phi : float;
  p_sigma_lab : float
}.

Record EkfState := mkEkfState {
  eta_r : float;
  eta_phi : float;
  P_r : float;
  P_phi : float;
  log_likelihood : float
}.

Inductive EkfReturn :=
  | NegLL (neg_ll : float)
  | FinalState (neg_ll eta_r_final eta_phi_final P_r_final P_phi_final : float).

(** Python's [max(a, b)]: [b] when [b > a], else [a]. *)
Definition max (a b : float) : float := if PrimFloat.ltb a b then b else a.

(** [x**2]: the square, rounded once. *)
Definition square (x : float) : float := (x * x)%float.

(** [np.pi] *)
Definition pi : float := 0x1.921fb54442d18p+1%float.

Section Filter.

Variables np_exp np_log : float -> float.

(** The body of [for i in range(n)], given [y_lab[i]]. *)
Definition ekf_body (alpha_r alpha_phi sigma_r sigma_phi sigma_lab : float)
    (st : EkfState) (y_i : float) : EkfState :=
  (let eta_r_pred := eta_r st + alpha_r in
   let eta_phi_pred := eta_phi st + alpha_phi in
   let P_r_pred := P_r st + square sigma_r in
   let P_phi_pred := P_phi st + square sigma_phi in
   let h := np_exp eta_r_pred in
   let H := h in
   let y_pred := h in
   let innovation := y_i - y_pred in
   let S := square H * P_r_pred + square sigma_lab in
   let K := (H * P_r_pred) / S in
   {| eta_r := eta_r_pred + K * innovation;
      P_r := (1 - K * H) * P_r_pred;
      eta_phi := eta_phi_pred;
      P_phi := P_phi_pred;
      log_likelihood :=
        log_likelihood st
        + (-0.5) * (np_log (2 * pi * S) + square innovation / S) |})%float.

Fixpoint ekf_loop (body : EkfState -> float -> EkfState) (y_lab : list float)
    (indices : list nat) (st : EkfState) : option EkfState :=
  match indices with
  | [] => Some st
  | i :: rest =>
      match y_lab !! i with
      | Some y_i => ekf_loop body y_lab rest (body st y_i)
      | None => None
      end
  end.

Definition extended_kalman_filter (params : Params) (times y_lab : list float)
    (eta_r0_mean eta_r0_var eta_phi0_mean eta_phi0_var : float)
    (return_final_state : bool) : option EkfReturn :=
  let alpha_r := p_alpha_r params in
  let alpha_phi := p_alpha_phi params in
  let sigma_r := max (p_sigma_r params) 1e-6%float in
  let sigma_phi := max (p_sigma_phi params) 1e-6%float in
  let sigma_lab := max (p_sigma_lab params) 1e-6%float in
  let n := length times in
  let init := {| eta_r := eta_r0_mean; eta_phi := eta_phi0_mean;
                 P_r := eta_r0_var; P_phi := eta_phi0_var;
                 log_likelihood := 0%float |} in
  st ← ekf_loop (ekf_body alpha_r alpha_phi sigma_r sigma_phi sigma_lab)
         y_lab (seq 0 n) init;
  if return_final_state
  then Some (FinalState (- log_likelihood st)%float
               (eta_r st) (eta_phi st) (P_r st) (P_phi st))
  else Some (NegLL (- log_likelihood st)%float).

End Filter.

(** *** Inputs of the example

    One lab record with an uptake of [200.0], and the parameter vector
    [[0, 0, 0.1, 0.1, 1e-6]], which lies within [bounds].  [update_state]
    starts the filter at [np.log(200.0)], the double [5.298317366548036],
    where the exponential, rounded to nearest, is [199.99999999999991]. *)

Definition params_in_bounds : Params := mkParams 0 0 0.1 0.1 1e-6.

Definition log_200 : float := 0x1.5317a1b949c53p+2%float.

Definition exp_log_200 : float := 0x1.8fffffffffffdp+7%float.

End Binary64.


(** ** [SimulationService] ([app/services/simulation_service.py]) *)

Module SimulationService.
Import Models.

(** Modelled from the spec: [app/constants.py] is not among the sources; the
    spec fixes the horizon [SIMULATION_MONTHS] to 120 months. *)
Definition SIMULATION_MONTHS : nat := 120.

(** The ["summary"] dictionary of the response. *)
Record Summary := mkSummary {
  sum_mean : R;
  sum_std : R;
  sum_min : R;
  sum_max : R;
  sum_p5 : R;
  sum_p50 : R;
  sum_p95 : R
}.

(** The payload of a successful [simulate]. *)
Record SimulateOk := mkSimulateOk {
  sim_config_id : string;
  sim_n_runs : nat;
  n_totals : list R;
  summary : Summary;
  sim_risk_profile : option string
}.

Definition generic_error : string :=
  "An error occurred while running simulation".

(** The multiplier of month [t] (lines 206-218): the [t]-th element of a
    list, or its last element past the end, or [1.0] when it is empty; the
    entry of a dictionary under [str(t)], else under ["default"], else [1.0];
    a scalar itself. *)
Definition risk_multiplier (risk_multipliers : RiskMultipliers) (t : nat) : R :=
  match risk_multipliers with
  | RiskList l =>
      match l !! t with
      | Some m => m
      | None => match last l with Some m => m | None => 1.0 end
      end
  | RiskDict d =>
      match d !! pretty t with
      | Some m => m
      | None => match d !! "default" with Some m => m | None => 1.0 end
      end
  | RiskScalar x => x
  end.

(** What [risk_multipliers] holds after the profile is loaded (lines
    141-147): nothing when [parameters] is null or an empty object, the value
    under ["multipliers"] when there is one, else the whole object. *)
Definition load_risk_multipliers (risk : RiskProfile) : option RiskMultipliers :=
  match parameters risk with
  | None => None
  | Some (WithMultipliersKey m) => Some m
  | Some (PlainDict d) =>
      if decide (d = ∅) then None
      else match d !! "multipliers" with
           | Some x => Some (RiskScalar x)
           | None => Some (RiskDict d)
           end
  end.

(** Python's truth value of an [Optional[str]]. *)
Definition truthy (s : option string) : bool :=
  match s with
  | Some s => negb (String.eqb s "")
  | None => false
  end.

(** Lines 128-147: [risk_multipliers] stays [None] without a risk profile
    id; with one, the profile must exist ([None] here is the "not found"
    error) and gives its multipliers. *)
Definition load_risk (risk_profile : option string) (risk : option RiskProfile)
    : option (option RiskMultipliers) :=
  if truthy risk_profile then
    match risk with
    | None => None
    | Some risk => Some (load_risk_multipliers risk)
    end
  else Some None.

(** The inputs with which a call can succeed: a configuration with both
    parameters, a posterior without nulls, a risk profile that exists when
    one is asked for, nonnegative noise scales and at least one run. *)
Definition can_succeed (n_runs : nat) (risk_profile : option string)
    (config : option Configuration) (posterior : option StatePosterior)
    (risk : option RiskProfile) : Prop :=
  exists cid1 cid2 A K e0 v0 p0 pv0 ar aphi sr sphi rm,
    config = Some (mkConfiguration cid1 (Some A) (Some K))
    /\ posterior
       = Some (mkStatePosterior cid2 (Some e0) (Some v0) (Some p0) (Some pv0)
                 (Some ar) (Some aphi) (Some sr) (Some sphi))
    /\ load_risk risk_profile risk = Some rm
    /\ 0 <= sr /\ 0 <= sphi /\ (0 < n_runs)%nat.

(** *** One run as the spec words it

    The trajectory of a run written month by month over the sequence [z] of
    standard normal variates the run draws: [z 0] and [z 1] for the initial
    state, [z (2 + 2 * t)] and [z (3 + 2 * t)] for the two channels in month
    [t]. *)

Section SpecTrajectory.

Variables A K eta_r0_mean eta_r0_var eta_phi0_mean eta_phi0_var : R.
Variables alpha_r alpha_phi sigma_r sigma_phi : R.
Variable risk_multipliers : option RiskMultipliers.
Variable z : nat -> R.

(** [eta_r] and [eta_phi] after [months] months: the sampled initial state
    advanced by the drift and Gaussian noise of every month. *)
Fixpoint spec_eta_r (months : nat) : R :=
  match months with
  | O => eta_r0_mean + sqrt eta_r0_var * z 0
  | S m => spec_eta_r m + alpha_r + sigma_r * z (2 + 2 * m)
  end.

Fixpoint spec_eta_phi (months : nat) : R :=
  match months with
  | O => eta_phi0_mean + sqrt eta_phi0_var * z 1
  | S m => spec_eta_phi m + alpha_phi + sigma_phi * z (3 + 2 * m)
  end.

(** The removal of month [t] before the risk multiplier, and with it. *)
Definition spec_base_N (t : nat) : R :=
  A * K * exp (spec_eta_r (S t)) * Np.expit (spec_eta_phi (S t)).

Definition spec_N (t : nat) : R :=
  match risk_multipliers with
  | Some rm => spec_base_N t * risk_multiplier rm t
  | None => spec_base_N t
  end.

(** The total of the run: the sum of [N_t] over the months. *)
Definition spec_total (n_months : nat) : R :=
  Np.sum (map spec_N (seq 0 n_months)).

End SpecTrajectory.

(** The number of variates a run draws. *)
Definition draws_per_run (n_months : nat) : nat := 2 + 2 * n_months.

Section Simulate.

(** NumPy's global generator: its state, and the draw of one standard normal
    variate, which returns the variate and the state that follows. *)
Variable RandomState : Type.
Variable standard_normal : RandomState -> R * RandomState.

(** A computation that reads and advances the generator and may raise. *)
Definition Sampler (A : Type) : Type := RandomState -> option A * RandomState.

#[local] Instance Sampler_ret : MRet Sampler := fun A a g => (Some a, g).

#[local] Instance Sampler_bind : MBind Sampler := fun A B f m g =>
  match m g with
  | (Some a, g') => f a g'
  | (None, g') => (None, g')
  end.

Definition raise {A} : Sampler A := fun g => (None, g).

(** [np.random.normal(loc, scale)]: [ValueError] for a negative scale, else
    [loc + scale * z] for the next standard normal [z]. *)
Definition np_random_normal (loc scale : R) : Sampler R := fun g =>
  if decide (scale < 0) then (None, g)
  else let '(z, g') := standard_normal g in (Some (loc + scale * z), g').

(** The generator's state after [k] draws, and the variate of draw number
    [k] (from 0) out of state [g]. *)
Fixpoint advance (k : nat) (g : RandomState) : RandomState :=
  match k with
  | O => g
  | S k => advance k (standard_normal g).2
  end.

Definition draw (g : RandomState) (k : nat) : R :=
  (standard_normal (advance k g)).1.

(** The variates of run [i] of a call that starts in state [g]: the draws
    from number [draws_per_run n_months * i] on. *)
Definition run_variates (n_months : nat) (g : RandomState) (i : nat)
    : nat -> R :=
  fun j => draw g (draws_per_run n_months * i + j).

(** A [for] loop over [items] that threads the loop's variables. *)
Fixpoint for_each {A S} (items : list A) (body : S -> A -> Sampler S) (s : S)
    : Sampler S :=
  match items with
  | [] => mret s
  | item :: rest => s' ← body s item; for_each rest body s'
  end.

(** One month of a run (lines 190-222); the loop's variables are [eta_r],
    [eta_phi] and the array [N]. *)
Definition month_body (A K alpha_r alpha_phi sigma_r sigma_phi : R)
    (risk_multipliers : option RiskMultipliers)
    (vars : R * R * list R) (t : nat) : Sampler (R * R * list R) :=
  let '(eta_r, eta_phi, N) := vars in
  eps_r ← np_random_normal 0 sigma_r;
  let eta_r := eta_r + alpha_r + eps_r in
  eps_phi ← np_random_normal 0 sigma_phi;
  let eta_phi := eta_phi + alpha_phi + eps_phi in
  let r_t := exp eta_r in
  let phi_t := Np.expit eta_phi in
  let N_t := A * K * r_t * phi_t in
  let N_t :=
    match risk_multipliers with
    | Some rm => let multiplier := risk_multiplier rm t in N_t * multiplier
    | None => N_t
    end in
  mret (eta_r, eta_phi, <[t := N_t]> N).

(** One run (lines 182-225): its total [n_total].  [np.sqrt] of a negative
    variance is NaN, while [sqrt] is [0] there: a property of the totals'
    values is stated for variances that are not negative. *)
Definition run_body (n_months : nat)
    (A K eta_r0_mean eta_r0_var eta_phi0_mean eta_phi0_var
     alpha_r alpha_phi sigma_r sigma_phi : R)
    (risk_multipliers : option RiskMultipliers) : Sampler R :=
  eta_r ← np_random_normal eta_r0_mean (sqrt eta_r0_var);
  eta_phi ← np_random_normal eta_phi0_mean (sqrt eta_phi0_var);
  let N := replicate n_months 0 in
  vars ← for_each (seq 0 n_months)
           (month_body A K alpha_r alpha_phi sigma_r sigma_phi risk_multipliers)
           (eta_r, eta_phi, N);
  mret (Np.sum vars.2).

(** The outer loop (lines 181-234); its variables are [n_totals] and
    [simulation_results]. *)
Definition runs_body (config_id : string) (run : Sampler R)
    (vars : list R * list SimulationResult) (run_i : nat)
    : Sampler (list R * list SimulationResult) :=
  let '(n_totals, simulation_results) := vars in
  n_total ← run;
  let sim_result :=
    {| sr_config_id := config_id;
       n_total := Some n_total;
       run_index := Some run_i |} in
  mret (n_totals ++ [n_total], simulation_results ++ [sim_result]).

(** The summary of the response (lines 245-253); [np.min] raises on an empty
    list of totals. *)
Definition summarize_totals (n_totals : list R) : option Summary :=
  let mean := Np.mean n_totals in
  let std := Np.std n_totals in
  mn ← Np.amin n_totals;
  mx ← Np.amax n_totals;
  p5 ← Np.percentile n_totals 5;
  p50 ← Np.percentile n_totals 50;
  p95 ← Np.percentile n_totals 95;
  Some {| sum_mean := mean; sum_std := std; sum_min := mn; sum_max := mx;
          sum_p5 := p5; sum_p50 := p50; sum_p95 := p95 |}.

(** What a call returns: the response, the rows its commit adds to the
    results table, and the generator's state afterwards. *)
Record Outcome := mkOutcome {
  response : Response SimulateOk;
  committed : list SimulationResult;
  generator : RandomState
}.

(** [simulate config_id n_runs risk_profile], given the results of its three
    queries (the configuration, the most recent posterior, and the risk
    profile with id [risk_profile]) and the generator's state. *)
Definition simulate (config_id : string) (n_runs : nat)
    (risk_profile : option string)
    (config : option Configuration) (posterior : option StatePosterior)
    (risk : option RiskProfile) (g : RandomState) : Outcome :=
  match config with
  | None => mkOutcome (Error ("Configuration " +:+ config_id +:+ " not found")) [] g
  | Some config =>
  match posterior with
  | None =>
      mkOutcome
        (Error ("No posterior found for configuration " +:+ config_id
                +:+ ". Run update_state first.")) [] g
  | Some posterior =>
  match load_risk risk_profile risk with
  | None =>
      mkOutcome
        (Error ("Risk profile " +:+ default "" risk_profile +:+ " not found")) [] g
  | Some risk_multipliers =>
  match application_rate_t_ha config, chemistry_factor_K config with
  | Some A, Some K =>
      match eta_r0_mean posterior, eta_r0_var posterior,
            eta_phi0_mean posterior, eta_phi0_var posterior,
            alpha_r posterior, alpha_phi posterior,
            sigma_r posterior, sigma_phi posterior with
      | Some eta_r0_mean, Some eta_r0_var, Some eta_phi0_mean,
        Some eta_phi0_var, Some alpha_r, Some alpha_phi,
        Some sigma_r, Some sigma_phi =>
          let n_months := SIMULATION_MONTHS in
          let run :=
            run_body n_months A K eta_r0_mean eta_r0_var eta_phi0_mean
              eta_phi0_var alpha_r alpha_phi sigma_r sigma_phi
              risk_multipliers in
          match for_each (seq 0 n_runs) (runs_body config_id run) ([], []) g with
          | (Some (n_totals, simulation_results), g') =>
              match summarize_totals n_totals with
              | Some summary =>
                  mkOutcome
                    (Success
                       {| sim_config_id := config_id;
                          sim_n_runs := n_runs;
                          n_totals := n_totals;
                          summary := summary;
                          sim_risk_profile :=
                            if truthy risk_profile then risk_profile else None |})
                    simulation_results g'
              | None => mkOutcome (Error generic_error) simulation_results g'
              end
          | (None, g') => mkOutcome (Error generic_error) [] g'
          end
      | _, _, _, _, _, _, _, _ =>
          mkOutcome
            (Error ("Posterior for " +:+ config_id +:+ " has missing parameters"))
            [] g
      end
  | _, _ =>
      mkOutcome
        (Error ("Configuration " +:+ config_id
                +:+ " missing required parameters (application_rate_t_ha or chemistry_factor_K)"))
        [] g
  end
  end
  end
  end.

End Simulate.

(** *** Inputs of the examples *)

(** A generator that counts its draws; every variate is [0]. *)
Definition counting_normal (k : nat) : R * nat := (0, S k).

(** The mapping of the spec's Example 4. *)
Definition example4_multipliers : gmap string R :=
  <["0" := 2.0]> (<["default" := 1.0]> ∅).

Definition storm : RiskProfile :=
  mkRiskProfile "storm" (Some (PlainDict example4_multipliers)).

(** The configuration and the posterior of the spec's Example 3. *)
Definition cfg0 : Configuration := mkConfiguration "cfg" (Some 10) (Some 0.5).

Definition post0 : StatePosterior :=
  mkStatePosterior "cfg" (Some (-2)) (Some 0.01) (Some 0) (Some 1)
    (Some 0) (Some 0) (Some 1e-6) (Some 0.1).

End SimulationService.


(** ** [ResultsService] ([app/services/results_service.py]) *)

Module ResultsService.
Import Models.

(** The ["statistics"] dictionary of the response. *)
Record Statistics := mkStatistics {
  st_mean : R;
  st_p5 : R;
  st_p50 : R;
  st_p95 : R;
  st_std : R;
  st_min : R;
  st_max : R;
  st_count : nat
}.

(** The payload of a successful [summarize]. *)
Record SummarizeOk := mkSummarizeOk {
  res_config_id : string;
  statistics : Statistics;
  res_target : R;
  p_hit : R;
  res_n_runs : nat
}.

Definition generic_error : string :=
  "An error occurred while summarizing results".

Definition no_valid_results (config_id : string) : string :=
  "No valid simulation results for " +:+ config_id.

(** [[result.n_total for result in existing_results if result.n_total is
    not None]] *)
Definition non_null_totals (existing_results : list SimulationResult) : list R :=
  omap n_total existing_results.

Section Summarize.

(** [app/constants.py] is not among the sources: its two constants are
    parameters. *)
Variable DEFAULT_TARGET_MULTIPLIER : R.
Variable DEFAULT_TARGET_FALLBACK : R.

(** The target when none is given (lines 202-217). *)
Definition default_target (config : option Configuration) : R :=
  match config with
  | Some config =>
      match application_rate_t_ha config with
      | Some rate => rate * DEFAULT_TARGET_MULTIPLIER
      | None => DEFAULT_TARGET_FALLBACK
      end
  | None => DEFAULT_TARGET_FALLBACK
  end.

(** Steps 2 to 4 (lines 188-239), on the ensemble [n_totals]. *)
Definition summarize_totals (config_id : string) (target : option R)
    (config : option Configuration) (n_totals : list R)
    : Response SummarizeOk :=
  if decide (length n_totals = 0%nat)
  then Error (no_valid_results config_id)
  else
    let mean := Np.mean n_totals in
    match Np.percentile n_totals 5, Np.percentile n_totals 50,
          Np.percentile n_totals 95 with
    | Some p5, Some p50, Some p95 =>
        let target :=
          match target with
          | Some target => target
          | None => default_target config
          end in
        let p_hit := Np.fraction_ge n_totals target in
        match Np.amin n_totals, Np.amax n_totals with
        | Some mn, Some mx =>
            Success
              {| res_config_id := config_id;
                 statistics :=
                   {| st_mean := mean; st_p5 := p5; st_p50 := p50;
                      st_p95 := p95; st_std := Np.std n_totals;
                      st_min := mn; st_max := mx;
                      st_count := length n_totals |};
                 res_target := target;
                 p_hit := p_hit;
                 res_n_runs := length n_totals |}
        | _, _ => Error generic_error
        end
    | _, _, _ => Error generic_error
    end.

Variable RandomState : Type.
Variable standard_normal : RandomState -> R * RandomState.

(** What a call returns: the response, the rows a simulation it ran has
    committed, and the generator's state afterwards. *)
Record Outcome := mkOutcome {
  response : Response SummarizeOk;
  committed : list SimulationResult;
  generator : RandomState
}.

(** [summarize config_id target n_runs risk_profile], given the stored
    results of the configuration, the results of the queries of [simulate],
    and the generator's state. *)
Definition summarize (config_id : string) (target : option R)
    (n_runs : option nat) (risk_profile : option string)
    (existing_results : list SimulationResult)
    (config : option Configuration) (posterior : option StatePosterior)
    (risk : option RiskProfile) (g : RandomState) : Outcome :=
  match existing_results, n_runs with
  | [], Some n_runs =>
      let sim :=
        SimulationService.simulate RandomState standard_normal
          config_id n_runs risk_profile config posterior risk g in
      match SimulationService.response _ sim with
      | Error message =>
          mkOutcome (Error ("Failed to run simulation: " +:+ message))
            (SimulationService.committed _ sim)
            (SimulationService.generator _ sim)
      | Success sim_result =>
          mkOutcome
            (summarize_totals config_id target config
               (SimulationService.n_totals sim_result))
            (SimulationService.committed _ sim)
            (SimulationService.generator _ sim)
      end
  | _ :: _, _ =>
      mkOutcome
        (summarize_totals config_id target config
           (non_null_totals existing_results))
        [] g
  | [], None =>
      mkOutcome
        (Error ("No simulation results found for " +:+ config_id
                +:+ " and n_runs not provided"))
        [] g
  end.

End Summarize.

(** *** Listing and counting (lines 50-101)

    The results table is the list of its rows in the order in which the
    listing query yields them; the queries have no [ORDER BY], so this order
    is the database's choice, and the properties proved below do not depend
    on it.  The filter dictionaries the routes build have at most the key
    ["config_id"]; [offset] and [limit] are not negative and fit the
    database's integers. *)

Record Filters := mkFilters {
  filter_config_id : option string
}.

(** [if filters:] holds for a dictionary that is given and has a key. *)
Definition filters_given (filters : option Filters) : bool :=
  match filters with
  | Some filters => bool_decide (is_Some (filter_config_id filters))
  | None => false
  end.

(** The query of both functions (lines 63-68 and 94-99): all rows, narrowed
    by [SimulationResult.config_id == value] when the key is given. *)
Definition filtered_query (table : list SimulationResult)
    (filters : option Filters) : list SimulationResult :=
  if filters_given filters then
    match filters ≫= filter_config_id with
    | Some value => filter (fun r => sr_config_id r = value) table
    | None => table
    end
  else table.

(** [query.offset(offset).limit(limit).all()]; the dictionaries returned
    copy the rows field by field. *)
Definition list_results (table : list SimulationResult)
    (filters : option Filters) (offset limit : nat) : list SimulationResult :=
  take limit (drop offset (filtered_query table filters)).

Definition count_results (table : list SimulationResult)
    (filters : option Filters) : nat :=
  length (filtered_query table filters).

(** *** Inputs of the examples *)

(** The stored results of the spec's Example 5. *)
Definition example5_results : list SimulationResult :=
  [mkSimulationResult "cfg" (Some 10) (Some 0%nat);
   mkSimulationResult "cfg" (Some 20) (Some 1%nat);
   mkSimulationResult "cfg" (Some 30) (Some 2%nat);
   mkSimulationResult "cfg" (Some 40) (Some 3%nat);
   mkSimulationResult "cfg" (Some 50) (Some 4%nat)].

(** A stored row without a total. *)
Definition null_row : SimulationResult :=
  mkSimulationResult "cfg" None (Some 7%nat).

End ResultsService.


(** ** The results routes ([app/routes/results.py]) *)

Module ResultsRoutes.
Import Models ResultsService.

(** What a route answers: the body it returns, an [HTTPException] with its
    status code and detail, or the 422 of the framework when a query
    parameter is outside the bounds declared for it. *)
Inductive HttpResponse (A : Type) : Type :=
  | Ok (body : A)
  | HTTPException (status_code : Z) (detail : string)
  | RequestValidationError.
Arguments Ok {A} body.
Arguments HTTPException {A} status_code detail.
Arguments RequestValidationError {A}.

(** The result of a service as the routes pass it on: a result whose status
    is ["error"] becomes a 400 with the message as detail. *)
Definition raise_on_error {A} (result : Response A) : HttpResponse A :=
  match result with
  | Error message => HTTPException 400 message
  | Success body => Ok body
  end.

(** The ["pagination"] dictionary of a listing. *)
Record Pagination := mkPagination {
  page : Z;
  page_size : Z;
  total : Z;
  total_pages : Z;
  has_next : bool;
  has_prev : bool
}.

Record Listing := mkListing {
  items : list SimulationResult;
  pagination : Pagination
}.

(** The filters the listing passes to the service (lines 75-77 and 82-83):
    the key ["config_id"] when the parameter is given and not blank, and
    [None] instead of an empty dictionary. *)
Definition route_filters (config_id : option string) : option Filters :=
  let filters :=
    if SimulationService.truthy config_id then mkFilters config_id
    else mkFilters None in
  if filters_given (Some filters) then Some filters else None.

(** The greatest integer the database takes for [OFFSET]: it is a signed
    64-bit integer there, while [page] is a Python integer without bound. *)
Definition INT64_MAX : Z := (2 ^ 63 - 1)%Z.

(** [GET /] (lines 63-98) over the results table.  An offset beyond
    [INT64_MAX] makes the query of [service.list_results] raise, which the
    route answers with a 500 (lines 96-98). *)
Definition list_results (table : list SimulationResult)
    (config_id : option string) (page page_size : Z) : HttpResponse Listing :=
  if decide (1 <= page /\ 1 <= page_size <= 500)%Z then
    let filters := route_filters config_id in
    let offset := ((page - 1) * page_size)%Z in
    if decide (offset <= INT64_MAX)%Z then
      let results :=
        ResultsService.list_results table filters (Z.to_nat offset)
          (Z.to_nat page_size) in
      let total_count :=
        Z.of_nat (ResultsService.count_results table filters) in
      Ok {| items := results;
            pagination :=
              {| page := page;
                 page_size := page_size;
                 total := total_count;
                 total_pages :=
                   if decide (total_count > 0)%Z
                   then ((total_count + page_size - 1) / page_size)%Z
                   else 0%Z;
                 has_next := bool_decide (offset + page_size < total_count)%Z;
                 has_prev := bool_decide (page > 1)%Z |} |}
    else HTTPException 500 "An error occurred while listing results"
  else RequestValidationError.

Section Summaries.

Variables DEFAULT_TARGET_MULTIPLIER DEFAULT_TARGET_FALLBACK : R.
Variable RandomState : Type.
Variable standard_normal : RandomState -> R * RandomState.

(** What a summarizing route has done: its answer, the rows committed, and
    the generator's state afterwards. *)
Record RouteOutcome := mkRouteOutcome {
  answer : HttpResponse SummarizeOk;
  route_committed : list SimulationResult;
  route_generator : RandomState
}.

Definition route_outcome (out : ResultsService.Outcome RandomState)
    : RouteOutcome :=
  {| answer := raise_on_error (ResultsService.response _ out);
     route_committed := ResultsService.committed _ out;
     route_generator := ResultsService.generator _ out |}.

(** [GET /summarize/{config_id}] (lines 39-60). *)
Definition summarize (config_id : string) (target : option R)
    (n_runs : option nat) (risk_profile : option string)
    (existing_results : list SimulationResult)
    (config : option Configuration) (posterior : option StatePosterior)
    (risk : option RiskProfile) (g : RandomState) : RouteOutcome :=
  route_outcome
    (ResultsService.summarize DEFAULT_TARGET_MULTIPLIER DEFAULT_TARGET_FALLBACK
       RandomState standard_normal config_id target n_runs risk_profile
       existing_results config posterior risk g).

(** [GET /{config_id}] (lines 101-119): [service.summarize(config_id)], with
    the defaults of the other arguments. *)
Definition get_results (config_id : string)
    (existing_results : list SimulationResult)
    (config : option Configuration) (posterior : option StatePosterior)
    (risk : option RiskProfile) (g : RandomState) : RouteOutcome :=
  route_outcome
    (ResultsService.summarize DEFAULT_TARGET_MULTIPLIER DEFAULT_TARGET_FALLBACK
       RandomState standard_normal config_id None None None
       existing_results config posterior risk g).

End Summaries.

End ResultsRoutes.


(** * Properties *)

(** ** The Extended Kalman Filter *)

Section EkfProperties.
Import ModelStateService.

Lemma ekf_loop_app body y_lab idx1 idx2 st :
  ekf_loop body y_lab (idx1 ++ idx2) st
  = ekf_loop body y_lab idx1 st ≫= ekf_loop body y_lab idx2.
Proof.
  revert st. induction idx1 as [|i idx1 IH]; intros st; simpl; [done|].
  destruct (y_lab !! i); simpl; [apply IH | done].
Qed.

(** When the indices stay in range the loop is a left fold of its body over
    the observations it reads. *)
Lemma ekf_loop_seq body y_lab n st :
  (n <= length y_lab)%nat ->
  ekf_loop body y_lab (seq 0 n) st = Some (foldl body st (take n y_lab)).
Proof.
  induction n as [|n IH]; intros Hn.
  - by rewrite take_0.
  - rewrite seq_S, ekf_loop_app, IH by lia. simpl.
    destruct (lookup_lt_is_Some_2 y_lab n) as [y Hy]; [lia|].
    rewrite Hy. by rewrite (take_S_r _ _ _ Hy), foldl_app.
Qed.

Lemma ekf_final_state params times y_lab e0 v0 p0 pv0 :
  length times = length y_lab ->
  extended_kalman_filter params times y_lab e0 v0 p0 pv0 true
  = Some (let st := ekf_run params e0 v0 p0 pv0 y_lab in
          FinalState (- log_likelihood st)
            (eta_r st) (eta_phi st) (P_r st) (P_phi st)).
Proof.
  intros Hlen. unfold extended_kalman_filter.
  rewrite ekf_loop_seq by lia. rewrite Hlen, firstn_all. done.
Qed.

Lemma ekf_objective params times y_lab e0 v0 p0 pv0 :
  length times = length y_lab ->
  extended_kalman_filter params times y_lab e0 v0 p0 pv0 false
  = Some (NegLL (- log_likelihood (ekf_run params e0 v0 p0 pv0 y_lab))).
Proof.
  intros Hlen. unfold extended_kalman_filter.
  rewrite ekf_loop_seq by lia. rewrite Hlen, firstn_all. done.
Qed.

Lemma ekf_run_snoc params e0 v0 p0 pv0 y_lab y :
  ekf_run params e0 v0 p0 pv0 (y_lab ++ [y])
  = ekf_body (p_alpha_r params) (p_alpha_phi params)
      (Rmax (p_sigma_r params) 1e-6) (Rmax (p_sigma_phi params) 1e-6)
      (Rmax (p_sigma_lab params) 1e-6)
      (ekf_run params e0 v0 p0 pv0 y_lab) y.
Proof. unfold ekf_run. by rewrite foldl_app. Qed.

(** C1. Each step of the forward pass is the spec's predict / linearize /
    innovate / correct / accumulate step: with no observation read the filter
    returns the prior and a zero log-likelihood; and reading observation
    [k], [y_obs], takes the state after [k] observations to
    [eta_r_pred + K * v], [(1 - K * H) * P_r_pred] (the phi channel is only
    predicted), where [eta_r_pred = eta_r + alpha_r],
    [P_r_pred = P_r + sigma_r ^ 2], [h = H = exp eta_r_pred],
    [v = y_obs - h], [S = H ^ 2 * P_r_pred + sigma_obs ^ 2] and
    [K = H * P_r_pred / S], with the sigmas floored at [1e-6]; the returned
    objective is the negated sum of the contributions
    [- 0.5 * (ln (2 * PI * S) + v ^ 2 / S)]. *)
Theorem ekf_step_equations params times y_lab e0 v0 p0 pv0 :
  length times = length y_lab ->
  let alpha_r := p_alpha_r params in
  let alpha_phi := p_alpha_phi params in
  let sigma_r := Rmax (p_sigma_r params) 1e-6 in
  let sigma_phi := Rmax (p_sigma_phi params) 1e-6 in
  let sigma_obs := Rmax (p_sigma_lab params) 1e-6 in
  extended_kalman_filter params [] [] e0 v0 p0 pv0 true
    = Some (FinalState 0 e0 p0 v0 pv0)
  /\ forall k y_obs,
      y_lab !! k = Some y_obs ->
      exists neg_ll eta_r eta_phi P_r P_phi,
        extended_kalman_filter params (take k times) (take k y_lab)
          e0 v0 p0 pv0 true
        = Some (FinalState neg_ll eta_r eta_phi P_r P_phi)
        /\ let eta_r_pred := eta_r + alpha_r in
           let P_r_pred := P_r + sigma_r ^ 2 in
           let eta_phi_pred := eta_phi + alpha_phi in
           let P_phi_pred := P_phi + sigma_phi ^ 2 in
           let h := exp eta_r_pred in
           let H := h in
           let v := y_obs - h in
           let S := H ^ 2 * P_r_pred + sigma_obs ^ 2 in
           let K := H * P_r_pred / S in
           let contribution := - 0.5 * (ln (2 * PI * S) + v ^ 2 / S) in
           extended_kalman_filter params (take (k + 1) times) (take (k + 1) y_lab)
             e0 v0 p0 pv0 true
           = Some (FinalState (neg_ll - contribution)
                     (eta_r_pred + K * v) eta_phi_pred
                     ((1 - K * H) * P_r_pred) P_phi_pred)
           /\ extended_kalman_filter params (take (k + 1) times)
                (take (k + 1) y_lab) e0 v0 p0 pv0 false
              = Some (NegLL (neg_ll - contribution)).
Proof.
  intros Hlen alpha_r alpha_phi sigma_r sigma_phi sigma_obs. split.
  - rewrite ekf_final_state by done. simpl. by rewrite Ropp_0.
  - intros k y_obs Hk.
    assert (Hlenk : forall j, length (take j times) = length (take j y_lab)).
    { intros j. rewrite !length_take. lia. }
    set (st := ekf_run params e0 v0 p0 pv0 (take k y_lab)).
    exists (- log_likelihood st), (eta_r st), (eta_phi st), (P_r st), (P_phi st).
    split; [by rewrite ekf_final_state|].
    rewrite Nat.add_1_r, ekf_final_state, ekf_objective by done.
    rewrite (take_S_r _ _ _ Hk), ekf_run_snoc. fold st.
    unfold ekf_body. simpl.
    fold alpha_r alpha_phi sigma_r sigma_phi sigma_obs.
    split; do 2 f_equal; lra.
Qed.

(** The filter run on the spec's Example 1, [(1, 0.010), (2, 0.018)]. *)
Lemma ekf_step_equations_witness :
  exists neg_ll,
    ModelStateService.extended_kalman_filter
      (ModelStateService.mkParams 0 0 0.1 0.1 0.1) [1; 2] [0.010; 0.018]
      (ln 0.010) 1 0 1 false
    = Some (ModelStateService.NegLL neg_ll).
Proof.
  destruct (ekf_step_equations (ModelStateService.mkParams 0 0 0.1 0.1 0.1)
              [1; 2] [0.010; 0.018] (ln 0.010) 1 0 1 eq_refl) as [_ Hstep].
  destruct (Hstep 1%nat 0.018 eq_refl)
    as (neg_ll & eta_r & eta_phi & P_r & P_phi & _ & _ & Hobj).
  eexists. exact Hobj.
Defined.

(** One step keeps both variances nonnegative: the corrected variance is
    [sigma_lab ^ 2 * P_r_pred / S]. *)
Lemma ekf_body_variances alpha_r alpha_phi sigma_r sigma_phi sigma_lab st y :
  0 < sigma_lab -> 0 <= P_r st -> 0 <= P_phi st ->
  let st' := ekf_body alpha_r alpha_phi sigma_r sigma_phi sigma_lab st y in
  0 <= P_r st' /\ 0 <= P_phi st'.
Proof.
  intros Hlab Hr Hphi. unfold ekf_body. cbn [P_r P_phi].
  set (Pp := P_r st + sigma_r ^ 2).
  set (H := exp (eta_r st + alpha_r)).
  assert (HPp : 0 <= Pp) by (unfold Pp; nra).
  assert (HS : 0 < H ^ 2 * Pp + sigma_lab ^ 2) by nra.
  split; [|nra].
  replace ((1 - H * Pp / (H ^ 2 * Pp + sigma_lab ^ 2) * H) * Pp)
    with (sigma_lab ^ 2 * Pp / (H ^ 2 * Pp + sigma_lab ^ 2)) by (field; lra).
  apply Rmult_le_pos; [apply Rmult_le_pos; [apply pow2_ge_0|done]|].
  left. by apply Rinv_0_lt_compat.
Qed.

Lemma ekf_run_variances params e0 v0 p0 pv0 y_lab :
  0 <= v0 -> 0 <= pv0 ->
  let st := ekf_run params e0 v0 p0 pv0 y_lab in
  0 <= P_r st /\ 0 <= P_phi st.
Proof.
  intros Hv Hpv. induction y_lab as [|y y_lab IH] using rev_ind.
  - by simpl.
  - rewrite ekf_run_snoc. destruct IH as [IHr IHphi].
    apply ekf_body_variances; [|done..].
    pose proof (Rmax_r (p_sigma_lab params) 1e-6). lra.
Qed.

(** In exact arithmetic the variances stay nonnegative: with nonnegative
    initial variances, after any number [k] of observations the filter
    returns variances [P_r] and [P_phi] that are [>= 0].  The corrected
    variance is [sigma_lab ^ 2 * P_r_pred / S]; the code computes it as
    [(1 - K * H) * P_r_pred], which is the same number only without
    rounding. *)
Lemma ekf_variances_nonneg params times y_lab e0 v0 p0 pv0 (k : nat) :
  length times = length y_lab ->
  0 <= v0 -> 0 <= pv0 ->
  exists neg_ll eta_r eta_phi P_r P_phi,
    extended_kalman_filter params (take k times) (take k y_lab)
      e0 v0 p0 pv0 true
    = Some (FinalState neg_ll eta_r eta_phi P_r P_phi)
    /\ 0 <= P_r /\ 0 <= P_phi.
Proof.
  intros Hlen Hv Hpv.
  rewrite ekf_final_state by (rewrite !length_take; lia).
  do 5 eexists. split; [done|].
  by apply ekf_run_variances.
Qed.

(** C6. In the program's arithmetic the claim fails.  With the parameter
    vector [[0, 0, 0.1, 0.1, 1e-6]], within the bounds, the initial variances
    [1.0] and the single observation [200.0], on a platform whose
    exponential is rounded to nearest at [np.log(200.0)], the product
    [K * H] rounds to [1.0000000000000002], and the filter, which computes
    the corrected variance as [(1 - K * H) * P_r_pred], returns
    [P_r = -2.242650509742816e-16 < 0] after its first step. *)
Theorem ekf_variance_negative_in_binary64 (np_exp np_log : float -> float) :
  np_exp Binary64.log_200 = Binary64.exp_log_200 ->
  exists neg_ll eta_r eta_phi P_r P_phi,
    Binary64.extended_kalman_filter np_exp np_log Binary64.params_in_bounds
      [1%float] [200%float] Binary64.log_200 1%float 0%float 1%float true
    = Some (Binary64.FinalState neg_ll eta_r eta_phi P_r P_phi)
    /\ P_r = (-0x1.028f5c28f5c29p-52)%float
    /\ PrimFloat.ltb P_r 0%float = true
    /\ PrimFloat.leb 0%float P_phi = true.
Proof.
  intros Hexp. unfold Binary64.log_200, Binary64.exp_log_200 in Hexp.
  do 5 eexists. split.
  - vm_compute. rewrite Hexp. vm_compute. reflexivity.
  - vm_compute. done.
Qed.

(** A mathematical library that answers [199.99999999999991] at
    [np.log(200.0)]. *)
Lemma ekf_variance_negative_in_binary64_witness :
  exists neg_ll eta_r eta_phi P_r P_phi,
    Binary64.extended_kalman_filter
      (fun _ => Binary64.exp_log_200) (fun x => x) Binary64.params_in_bounds
      [1%float] [200%float] Binary64.log_200 1%float 0%float 1%float true
    = Some (Binary64.FinalState neg_ll eta_r eta_phi P_r P_phi)
    /\ PrimFloat.ltb P_r 0%float = true.
Proof.
  destruct (ekf_variance_negative_in_binary64
              (fun _ => Binary64.exp_log_200) (fun x => x) eq_refl)
    as (neg_ll & eta_r & eta_phi & P_r & P_phi & Hrun & _ & Hneg & _).
  exists neg_ll, eta_r, eta_phi, P_r, P_phi. split; assumption.
Defined.

(** The phi channel is driven by the drift and the process noise alone. *)
Lemma ekf_run_phi params e0 v0 p0 pv0 y_lab :
  let st := ekf_run params e0 v0 p0 pv0 y_lab in
  eta_phi st = p0 + INR (length y_lab) * p_alpha_phi params
  /\ P_phi st = pv0 + INR (length y_lab) * Rmax (p_sigma_phi params) 1e-6 ^ 2.
Proof.
  induction y_lab as [|y y_lab IH] using rev_ind.
  - simpl. lra.
  - rewrite ekf_run_snoc. destruct IH as [IHm IHv]. simpl.
    rewrite IHm, IHv, length_app, plus_INR. simpl. lra.
Qed.

(** C7. The phi channel is never corrected: for two observation sequences
    of the same length [n] the forward pass ends with the same [eta_phi] and
    [P_phi], namely [eta_phi0_mean + n * alpha_phi] and
    [eta_phi0_var + n * max(sigma_phi, 1e-6) ^ 2]. *)
Theorem ekf_phi_channel_uncorrected params times y_lab1 y_lab2 e0 v0 p0 pv0 :
  length y_lab1 = length times ->
  length y_lab2 = length times ->
  let n := INR (length times) in
  let eta_phi_final := p0 + n * p_alpha_phi params in
  let P_phi_final := pv0 + n * Rmax (p_sigma_phi params) 1e-6 ^ 2 in
  exists neg_ll1 eta_r1 P_r1 neg_ll2 eta_r2 P_r2,
    extended_kalman_filter params times y_lab1 e0 v0 p0 pv0 true
    = Some (FinalState neg_ll1 eta_r1 eta_phi_final P_r1 P_phi_final)
    /\ extended_kalman_filter params times y_lab2 e0 v0 p0 pv0 true
       = Some (FinalState neg_ll2 eta_r2 eta_phi_final P_r2 P_phi_final).
Proof.
  intros H1 H2 n eta_phi_final P_phi_final.
  rewrite !ekf_final_state by done.
  destruct (ekf_run_phi params e0 v0 p0 pv0 y_lab1) as [Hm1 Hv1].
  destruct (ekf_run_phi params e0 v0 p0 pv0 y_lab2) as [Hm2 Hv2].
  do 6 eexists. simpl.
  rewrite Hm1, Hv1, Hm2, Hv2, H1, H2. done.
Qed.

(** Two different series of two observations. *)
Lemma ekf_phi_channel_uncorrected_witness :
  exists neg_ll1 eta_r1 P_r1 neg_ll2 eta_r2 P_r2,
    ModelStateService.extended_kalman_filter
      (ModelStateService.mkParams 0 0.5 0.1 0.1 0.1) [1; 2] [0.010; 0.018]
      (ln 0.010) 1 0 1 true
    = Some (ModelStateService.FinalState neg_ll1 eta_r1
              (0 + INR 2 * 0.5) P_r1 (1 + INR 2 * Rmax 0.1 1e-6 ^ 2))
    /\ ModelStateService.extended_kalman_filter
         (ModelStateService.mkParams 0 0.5 0.1 0.1 0.1) [1; 2] [0.5; 7]
         (ln 0.010) 1 0 1 true
       = Some (ModelStateService.FinalState neg_ll2 eta_r2
                 (0 + INR 2 * 0.5) P_r2 (1 + INR 2 * Rmax 0.1 1e-6 ^ 2)).
Proof.
  exact (ekf_phi_channel_uncorrected
           (ModelStateService.mkParams 0 0.5 0.1 0.1 0.1)
           [1; 2] [0.010; 0.018] [0.5; 7] (ln 0.010) 1 0 1 eq_refl eq_refl).
Defined.

End EkfProperties.

(** ** [update_state] *)

Section UpdateStateProperties.
Import Models ModelStateService.

Variable minimize :
  (Params -> option EkfReturn) -> Params -> string -> list (R * R) -> nat ->
  option OptimizeResult.

(** What a successful call has done: the optimizer has reported success at
    [result], and the response and the committed row hold the final state
    of the filter at [x result] and the first four fitted parameters. *)
Lemma update_state_success_inv config_id config lab_records field_records
    existing ok :
  response (update_state minimize config_id config lab_records field_records
              existing) = Success ok ->
  exists first_record rest result st row,
    lab_records = first_record :: rest
    /\ minimize
         (objective lab_records field_records (co2_uptake_t_per_t first_record))
         (initial_params (map co2_uptake_t_per_t lab_records))
         "L-BFGS-B" bounds 1000%nat = Some result
    /\ success result = true
    /\ st = ekf_run (x result)
              (prior_eta_r0_mean (co2_uptake_t_per_t first_record)) 1.0
              (prior_eta_phi0_mean field_records) 1.0
              (map co2_uptake_t_per_t lab_records)
    /\ posterior ok
       = posterior_dict (eta_r st) (P_r st) (eta_phi st) (P_phi st)
           (p_alpha_r (x result)) (p_alpha_phi (x result))
           (p_sigma_r (x result)) (p_sigma_phi (x result))
    /\ committed (update_state minimize config_id config lab_records
                    field_records existing) = Some row
    /\ Models.eta_r0_mean row = Some (eta_r st)
    /\ Models.eta_r0_var row = Some (P_r st)
    /\ Models.eta_phi0_mean row = Some (eta_phi st)
    /\ Models.eta_phi0_var row = Some (P_phi st)
    /\ alpha_r row = Some (p_alpha_r (x result))
    /\ alpha_phi row = Some (p_alpha_phi (x result))
    /\ sigma_r row = Some (p_sigma_r (x result))
    /\ sigma_phi row = Some (p_sigma_phi (x result)).
Proof.
  unfold update_state.
  destruct config as [cfg|]; [|done].
  destruct lab_records as [|first_record rest]; [done|].
  set (lab_records := first_record :: rest).
  fold (prior_eta_r0_mean (co2_uptake_t_per_t first_record)).
  fold (prior_eta_phi0_mean field_records).
  fold (objective lab_records field_records (co2_uptake_t_per_t first_record)).
  destruct (minimize _ _ _ _ _) as [result|] eqn:Hmin; [|done].
  destruct (success result) eqn:Hsucc; simpl; [|done].
  rewrite ekf_final_state by (simpl; by rewrite !length_map).
  cbv zeta. intros [= <-]. simpl.
  exists first_record, rest, result. eexists. eexists.
  split; [done|]. split; [done|]. split; [done|]. split; [done|].
  split; [done|]. split; [done|].
  by destruct existing.
Qed.

(** Conversely, with a configuration, at least one lab record and an
    optimizer that reports success, the call succeeds after one call to the
    optimizer and the final pass of the filter. *)
Lemma update_state_succeeds config_id cfg first_record rest field_records
    existing result :
  minimize
    (objective (first_record :: rest) field_records
       (co2_uptake_t_per_t first_record))
    (initial_params (map co2_uptake_t_per_t (first_record :: rest)))
    "L-BFGS-B" bounds 1000%nat = Some result ->
  success result = true ->
  let out := update_state minimize config_id (Some cfg) (first_record :: rest)
               field_records existing in
  is_success (response out) = true
  /\ calls out = [CallMinimize; CallFinalEkf].
Proof.
  intros Hmin Hsucc. unfold update_state.
  fold (prior_eta_r0_mean (co2_uptake_t_per_t first_record)).
  fold (prior_eta_phi0_mean field_records).
  fold (objective (first_record :: rest) field_records
          (co2_uptake_t_per_t first_record)).
  rewrite Hmin, Hsucc. simpl negb. cbv iota.
  rewrite ekf_final_state by (simpl; by rewrite !length_map).
  done.
Qed.

(** The posterior a successful call stores has nonnegative variances. *)
Lemma update_state_variances_nonneg config_id config lab_records
    field_records existing ok :
  response (update_state minimize config_id config lab_records field_records
              existing) = Success ok ->
  exists row v_r v_phi,
    committed (update_state minimize config_id config lab_records
                 field_records existing) = Some row
    /\ Models.eta_r0_var row = Some v_r /\ 0 <= v_r
    /\ Models.eta_phi0_var row = Some v_phi /\ 0 <= v_phi.
Proof.
  intros Hok.
  destruct (update_state_success_inv _ _ _ _ _ _ Hok)
    as (first_record & rest & result & st & row & _ & _ & _ & Hst & _ & Hrow
        & _ & Hvr & _ & Hvphi & _).
  exists row, (P_r st), (P_phi st).
  destruct (ekf_run_variances (x result)
              (prior_eta_r0_mean (co2_uptake_t_per_t first_record)) 1.0
              (prior_eta_phi0_mean field_records) 1.0
              (map co2_uptake_t_per_t lab_records)) as [Hr Hphi]; [lra..|].
  rewrite <- Hst in Hr, Hphi. done.
Qed.

(** C9. With an empty lab sequence the call returns the "no lab records"
    error, calls neither the optimizer nor the filter, and stores nothing,
    whatever the optimizer is; with lab records and no field record the call
    succeeds as soon as the optimizer, run from the prior [eta_phi0_mean =
    0.0], reports success. *)
Theorem update_state_no_lab_records config_id cfg field_records existing :
  (let out := update_state minimize config_id (Some cfg) [] field_records
                existing in
   response out
     = Error ("No lab records found for configuration " +:+ config_id)
   /\ calls out = []
   /\ committed out = None)
  /\ prior_eta_phi0_mean [] = 0.0
  /\ forall first_record rest result,
       minimize
         (objective (first_record :: rest) [] (co2_uptake_t_per_t first_record))
         (initial_params (map co2_uptake_t_per_t (first_record :: rest)))
         "L-BFGS-B" bounds 1000%nat = Some result ->
       success result = true ->
       let out := update_state minimize config_id (Some cfg)
                    (first_record :: rest) [] existing in
       is_success (response out) = true
       /\ calls out = [CallMinimize; CallFinalEkf].
Proof.
  split; [done|]. split; [done|].
  intros first_record rest result Hmin Hsucc.
  by apply (update_state_succeeds _ _ _ _ _ _ result).
Qed.

(** C8, as the code has it. On every successful fit the posterior holds
    the four latent-state fields, which are the final state of the filter at
    the fitted parameters, and the fitted [alpha_r], [alpha_phi], [sigma_r]
    and [sigma_phi], in the response and in the stored row alike; these
    eight are all its fields, so the fitted [sigma_lab] is not among them. *)
Theorem update_state_posterior_fields config_id config lab_records
    field_records existing ok :
  response (update_state minimize config_id config lab_records field_records
              existing) = Success ok ->
  exists first_record rest result st row,
    lab_records = first_record :: rest
    /\ minimize
         (objective lab_records field_records (co2_uptake_t_per_t first_record))
         (initial_params (map co2_uptake_t_per_t lab_records))
         "L-BFGS-B" bounds 1000%nat = Some result
    /\ st = ekf_run (x result)
              (prior_eta_r0_mean (co2_uptake_t_per_t first_record)) 1.0
              (prior_eta_phi0_mean field_records) 1.0
              (map co2_uptake_t_per_t lab_records)
    /\ committed (update_state minimize config_id config lab_records
                    field_records existing) = Some row
    /\ (posterior ok !! "eta_r0_mean" = Some (eta_r st)
        /\ Models.eta_r0_mean row = Some (eta_r st))
    /\ (posterior ok !! "eta_r0_var" = Some (P_r st)
        /\ Models.eta_r0_var row = Some (P_r st))
    /\ (posterior ok !! "eta_phi0_mean" = Some (eta_phi st)
        /\ Models.eta_phi0_mean row = Some (eta_phi st))
    /\ (posterior ok !! "eta_phi0_var" = Some (P_phi st)
        /\ Models.eta_phi0_var row = Some (P_phi st))
    /\ (posterior ok !! "alpha_r" = Some (p_alpha_r (x result))
        /\ alpha_r row = Some (p_alpha_r (x result)))
    /\ (posterior ok !! "alpha_phi" = Some (p_alpha_phi (x result))
        /\ alpha_phi row = Some (p_alpha_phi (x result)))
    /\ (posterior ok !! "sigma_r" = Some (p_sigma_r (x result))
        /\ sigma_r row = Some (p_sigma_r (x result)))
    /\ (posterior ok !! "sigma_phi" = Some (p_sigma_phi (x result))
        /\ sigma_phi row = Some (p_sigma_phi (x result)))
    /\ dom (posterior ok)
       = list_to_set ["eta_r0_mean"; "eta_r0_var"; "eta_phi0_mean";
                      "eta_phi0_var"; "alpha_r"; "alpha_phi"; "sigma_r";
                      "sigma_phi"].
Proof.
  intros Hok.
  destruct (update_state_success_inv _ _ _ _ _ _ Hok)
    as (first_record & rest & result & st & row & Hlab & Hmin & _ & Hst
        & Hdict & Hrow & H1 & H2 & H3 & H4 & H5 & H6 & H7 & H8).
  exists first_record, rest, result, st, row.
  rewrite Hdict. unfold posterior_dict.
  repeat (split; [done|]).
  rewrite !dom_insert_L, dom_empty_L. set_solver.
Qed.

End UpdateStateProperties.

Section UpdateStateExamples.
Import Models ModelStateService.

(** The spec's Example 1: two lab records, no field data, a converging
    optimizer. *)
Lemma update_state_no_lab_records_witness :
  is_success
    (response (update_state (constant_minimize fit0) "cfg" (Some cfg0)
                 [lab1; lab2] [] None)) = true.
Proof.
  destruct (update_state_no_lab_records (constant_minimize fit0) "cfg" cfg0
              [] None) as (_ & _ & Hfit).
  exact (proj1 (Hfit lab1 [lab2] fit0 eq_refl eq_refl)).
Defined.

Lemma update_state_posterior_fields_witness :
  exists ok,
    response (update_state (constant_minimize fit0) "cfg" (Some cfg0)
                [lab1; lab2] [] None) = Success ok
    /\ dom (posterior ok)
       = list_to_set ["eta_r0_mean"; "eta_r0_var"; "eta_phi0_mean";
                      "eta_phi0_var"; "alpha_r"; "alpha_phi"; "sigma_r";
                      "sigma_phi"].
Proof.
  destruct (response (update_state (constant_minimize fit0) "cfg" (Some cfg0)
                        [lab1; lab2] [] None)) as [ok|msg] eqn:Hresp.
  - exists ok. split; [reflexivity|].
    destruct (update_state_posterior_fields _ _ _ _ _ _ _ Hresp)
      as (? & ? & ? & ? & ? & Hfields).
    apply Hfields.
  - pose proof (proj1 (update_state_succeeds (constant_minimize fit0) "cfg"
                         cfg0 lab1 [lab2] [] None fit0 eq_refl eq_refl)) as Hs.
    rewrite Hresp in Hs. discriminate Hs.
Defined.

(** C8 fails as stated: a fit whose optimizer returns [sigma_lab = 5]
    succeeds, and its posterior has no ["sigma_obs"] or ["sigma_lab"] entry
    and holds the value 5 nowhere, neither in the response nor in the stored
    row. *)
Lemma posterior_lacks_sigma_obs :
  let out := update_state (constant_minimize fit5) "cfg" (Some cfg0)
               [lab1] [] None in
  exists ok row,
    response out = Success ok
    /\ committed out = Some row
    /\ p_sigma_lab (x fit5) = 5
    /\ posterior ok !! "sigma_obs" = None
    /\ posterior ok !! "sigma_lab" = None
    /\ (forall key v, posterior ok !! key = Some v -> v <> 5)
    /\ Some 5 ∉ posterior_columns row.
Proof.
  intros out.
  destruct (response out) as [ok|msg] eqn:Hresp.
  2:{ pose proof (proj1 (update_state_succeeds (constant_minimize fit5) "cfg"
                         cfg0 lab1 [] [] None fit5 eq_refl eq_refl)) as Hs.
      fold out in Hs. rewrite Hresp in Hs. discriminate Hs. }
  destruct (update_state_success_inv _ _ _ _ _ _ _ Hresp)
    as (first_record & rest & result & st & row & Hlab & Hmin & _ & Hst
        & Hdict & Hrow & H1 & H2 & H3 & H4 & H5 & H6 & H7 & H8).
  injection Hlab as <- <-. injection Hmin as <-.
  exists ok, row.
  assert (Hfloor : forall s, 1e-6 <= s -> Rmax s 1e-6 = s)
    by (intros s Hs; by apply Rmax_left).
  assert (Hst' : eta_r st < 0 /\ P_r st < 5 /\ eta_phi st = 0 /\ P_phi st = 1.01).
  { rewrite Hst. unfold ekf_run, prior_eta_r0_mean, prior_eta_phi0_mean.
    simpl foldl. unfold ekf_body.
    cbn -[Rmax exp ln pow Rplus Rmult Rminus Rdiv PI].
    rewrite !Hfloor by lra. rewrite Rplus_0_r, exp_ln by lra.
    pose proof (ln_increasing 0.010 1 ltac:(lra) ltac:(lra)) as Hln.
    rewrite ln_1 in Hln.
    repeat split; lra. }
  destruct Hst' as (Her & HPr & Hephi & HPphi).
  split; [done|]. split; [done|]. split; [done|].
  rewrite Hdict. unfold posterior_dict.
  split; [done|]. split; [done|]. split.
  - intros key v. rewrite !lookup_insert_Some, lookup_empty. simpl.
    intros Hv ->.
    repeat (destruct Hv as [[_ Hv]|[_ Hv]]; [lra|]). done.
  - unfold posterior_columns. rewrite H1, H2, H3, H4, H5, H6, H7, H8. simpl.
    rewrite !not_elem_of_cons.
    repeat split; try (intros [= Hx]; lra). apply not_elem_of_nil.
Qed.

End UpdateStateExamples.

(** ** NumPy reductions *)

Section NpProperties.

Lemma sum_app a b : Np.sum (a ++ b) = Np.sum a + Np.sum b.
Proof.
  unfold Np.sum. induction a as [|x a IH]; simpl; [lra|]. rewrite IH. lra.
Qed.

Lemma foldl_Rmin_le x a : foldl Rmin x a <= x.
Proof.
  revert x. induction a as [|y a IH]; intros x; simpl; [lra|].
  etrans; [apply IH|]. apply Rmin_l.
Qed.

Lemma foldl_Rmin_lower x a y : y ∈ a -> foldl Rmin x a <= y.
Proof.
  revert x. induction a as [|y' a IH]; intros x Hy; [by apply elem_of_nil in Hy|].
  apply elem_of_cons in Hy as [->|Hy]; simpl.
  - etrans; [apply foldl_Rmin_le|]. apply Rmin_r.
  - by apply IH.
Qed.

Lemma foldl_Rmin_elem x a : foldl Rmin x a ∈ x :: a.
Proof.
  revert x. induction a as [|y a IH]; intros x; simpl.
  - rewrite elem_of_cons. by left.
  - specialize (IH (Rmin x y)). rewrite !elem_of_cons in *.
    assert (Rmin x y = x \/ Rmin x y = y) as Hm by (apply Rmin_case; auto).
    destruct IH as [IH|IH]; [rewrite IH; tauto | tauto].
Qed.

Lemma foldl_Rmax_ge x a : x <= foldl Rmax x a.
Proof.
  revert x. induction a as [|y a IH]; intros x; simpl; [lra|].
  etrans; [|apply IH]. apply Rmax_l.
Qed.

Lemma foldl_Rmax_upper x a y : y ∈ a -> y <= foldl Rmax x a.
Proof.
  revert x. induction a as [|y' a IH]; intros x Hy; [by apply elem_of_nil in Hy|].
  apply elem_of_cons in Hy as [->|Hy]; simpl.
  - etrans; [|apply foldl_Rmax_ge]. apply Rmax_r.
  - by apply IH.
Qed.

Lemma foldl_Rmax_elem x a : foldl Rmax x a ∈ x :: a.
Proof.
  revert x. induction a as [|y a IH]; intros x; simpl.
  - rewrite elem_of_cons. by left.
  - specialize (IH (Rmax x y)). rewrite !elem_of_cons in *.
    assert (Rmax x y = x \/ Rmax x y = y) as Hm by (apply Rmax_case; auto).
    destruct IH as [IH|IH]; [rewrite IH; tauto | tauto].
Qed.

(** [np.min] returns the least element and [np.max] the greatest. *)
Lemma amin_spec a m :
  Np.amin a = Some m -> m ∈ a /\ forall y, y ∈ a -> m <= y.
Proof.
  destruct a as [|x a]; [done|]. intros [= <-]. split.
  - apply foldl_Rmin_elem.
  - intros y [->|Hy]%elem_of_cons;
      [apply foldl_Rmin_le | by apply foldl_Rmin_lower].
Qed.

Lemma amax_spec a m :
  Np.amax a = Some m -> m ∈ a /\ forall y, y ∈ a -> y <= m.
Proof.
  destruct a as [|x a]; [done|]. intros [= <-]. split.
  - apply foldl_Rmax_elem.
  - intros y [->|Hy]%elem_of_cons;
      [apply foldl_Rmax_ge | by apply foldl_Rmax_upper].
Qed.

#[global] Instance Rle_total : Total Rle.
Proof. intros x y. destruct (Rle_dec x y); [by left|right; lra]. Qed.

#[global] Instance Rle_transitive : Transitive Rle.
Proof. intros x y z. apply Rle_trans. Qed.

#[global] Instance Rle_antisymm : AntiSymm (=) Rle.
Proof. intros x y. apply Rle_antisym. Qed.

Lemma merge_sort_length a : length (merge_sort Rle a) = length a.
Proof. apply Permutation_length, merge_sort_Permutation. Qed.

(** A sorted list is its own sorted copy. *)
Lemma merge_sort_sorted a : StronglySorted Rle a -> merge_sort Rle a = a.
Proof.
  intros Ha. apply (StronglySorted_unique Rle); [|done|].
  - apply StronglySorted_merge_sort; apply _.
  - apply merge_sort_Permutation.
Qed.

(** The integer part of a hundredth of a natural number is its quotient. *)
Lemma Int_part_hundredth (a : nat) :
  Int_part (INR a / 100) = Z.of_nat (a / 100).
Proof.
  symmetry. apply Int_part_spec. rewrite <- INR_IZR_INZ.
  pose proof (Nat.div_mod_eq a 100) as Hdm.
  pose proof (Nat.mod_upper_bound a 100 ltac:(lia)) as Hlt.
  apply lt_INR in Hlt. pose proof (pos_INR (a mod 100)) as Hpos.
  apply (f_equal INR) in Hdm. rewrite plus_INR, mult_INR in Hdm.
  replace (INR 100) with 100 in * by (simpl; lra).
  lra.
Qed.

(** [np.percentile] at an integer percentage is the linear interpolation
    between the order statistics of the sorted array. *)
Lemma percentile_spec a (q : nat) :
  Np.percentile a (INR q) = Np.spec_percentile (merge_sort Rle a) q.
Proof.
  unfold Np.percentile, Np.spec_percentile, Np.lerp.
  set (arr := merge_sort Rle a). set (n := length arr).
  replace (INR (n - 1) * (INR q / 100)) with (INR ((n - 1) * q) / 100)
    by (rewrite mult_INR; lra).
  rewrite Int_part_hundredth, Nat2Z.id.
  set (position := ((n - 1) * q)%nat).
  replace (INR position / 100 - INR (position / 100))
    with (INR (position mod 100) / 100).
  - destruct (arr !! (position / 100)%nat); [|done]. simpl.
    by destruct (arr !! _).
  - pose proof (Nat.div_mod_eq position 100) as Hdm.
    apply (f_equal INR) in Hdm. rewrite plus_INR, mult_INR in Hdm.
    replace (INR 100) with 100 in * by (simpl; lra). lra.
Qed.

(** On a nonempty array and a percentage up to 100 it returns a value. *)
Lemma spec_percentile_is_Some sorted (q : nat) :
  sorted <> [] -> (q <= 100)%nat -> is_Some (Np.spec_percentile sorted q).
Proof.
  intros Hne Hq. unfold Np.spec_percentile.
  assert (0 < length sorted)%nat as Hlen
    by (destruct sorted; [done | simpl; lia]).
  assert ((length sorted - 1) * q / 100 < length sorted)%nat as Hbelow.
  { apply Nat.Div0.div_lt_upper_bound. nia. }
  destruct (lookup_lt_is_Some_2 sorted _ Hbelow) as [lo ->].
  destruct (lookup_lt_is_Some_2 sorted
              (Nat.min ((length sorted - 1) * q / 100 + 1) (length sorted - 1)))
    as [hi ->]; [lia|].
  by eexists.
Qed.

Lemma percentile_is_Some a (q : nat) :
  a <> [] -> (q <= 100)%nat -> is_Some (Np.percentile a (IZR (Z.of_nat q))).
Proof.
  intros Ha Hq. rewrite <- INR_IZR_INZ, percentile_spec.
  apply spec_percentile_is_Some; [|done].
  intros Hnil. apply (f_equal length) in Hnil.
  rewrite merge_sort_length in Hnil. by destruct a.
Qed.

Lemma INR_length_pos {A} (a : list A) : a <> [] -> 0 < INR (length a).
Proof. destruct a; [done|]. intros _. apply lt_0_INR. simpl. lia. Qed.

(** [np.mean]: the sum divided by the count. *)
Lemma mean_spec a : a <> [] -> Np.mean a * INR (length a) = Np.sum a.
Proof.
  intros Ha. pose proof (INR_length_pos a Ha). unfold Np.mean. field. lra.
Qed.

Lemma sum_nonneg a : Forall (fun x => 0 <= x) a -> 0 <= Np.sum a.
Proof. unfold Np.sum. induction 1; simpl; lra. Qed.

Lemma squares_nonneg mu a :
  Forall (fun y => 0 <= y) (map (fun x => (x - mu) ^ 2) a).
Proof. induction a; simpl; constructor; [apply pow2_ge_0 | done]. Qed.

(** [np.std]: the nonnegative root of the mean squared deviation. *)
Lemma std_spec a :
  a <> [] ->
  0 <= Np.std a
  /\ Np.std a ^ 2 * INR (length a)
     = Np.sum (map (fun x => (x - Np.mean a) ^ 2) a).
Proof.
  intros Ha. unfold Np.std. split; [apply sqrt_pos|].
  set (dev := map (fun x => Rabs (x - Np.mean a) ^ 2) a).
  assert (dev = map (fun x => (x - Np.mean a) ^ 2) a) as Hdev.
  { apply map_ext. intros x. apply pow2_abs. }
  assert (0 <= Np.mean dev) as Hpos.
  { unfold Np.mean. apply Rmult_le_pos.
    - apply sum_nonneg. rewrite Hdev. apply squares_nonneg.
    - left. apply Rinv_0_lt_compat. unfold dev. rewrite length_map.
      by apply INR_length_pos. }
  replace (sqrt (Np.mean dev) ^ 2) with (Np.mean dev)
    by (simpl; rewrite Rmult_1_r, sqrt_sqrt; done).
  rewrite <- Hdev. replace (length a) with (length dev)
    by (unfold dev; apply length_map).
  apply mean_spec. unfold dev. by destruct a.
Qed.

(** [np.mean(a >= target)]: the fraction of the values that reach the
    target. *)
Lemma fraction_ge_spec a target :
  a <> [] ->
  Np.fraction_ge a target * INR (length a)
  = INR (length (filter (fun x => target <= x) a)).
Proof.
  intros Ha. unfold Np.fraction_ge.
  replace (length a) with (length (map (Np.ge_indicator target) a))
    by apply length_map.
  rewrite mean_spec by (by destruct a).
  clear Ha. unfold Np.sum. induction a as [|x a IH]; [done|].
  rewrite filter_cons. cbn [map foldr]. rewrite IH. unfold Np.ge_indicator.
  destruct (decide (target <= x)); [|lra].
  cbn [length]. rewrite S_INR. lra.
Qed.

End NpProperties.

(** ** The trajectory of a run *)

Section SpecTrajectoryProperties.
Import Models SimulationService.

Variables A K eta_r0_mean eta_r0_var eta_phi0_mean eta_phi0_var : R.
Variables alpha_r alpha_phi sigma_r sigma_phi : R.
Variable risk_multipliers : option RiskMultipliers.

(** The state after [m] months reads the variates below [2 + 2 * m] only. *)
Lemma spec_eta_r_ext z z' m :
  (forall j, (j < draws_per_run m)%nat -> z j = z' j) ->
  spec_eta_r eta_r0_mean eta_r0_var alpha_r sigma_r z m
  = spec_eta_r eta_r0_mean eta_r0_var alpha_r sigma_r z' m.
Proof.
  unfold draws_per_run. induction m as [|m IH]; intros Hz; simpl.
  - by rewrite (Hz 0%nat) by lia.
  - rewrite IH by (intros j Hj; apply Hz; lia).
    by rewrite (Hz (S (S (m + (m + 0))))) by lia.
Qed.

Lemma spec_eta_phi_ext z z' m :
  (forall j, (j < draws_per_run m)%nat -> z j = z' j) ->
  spec_eta_phi eta_phi0_mean eta_phi0_var alpha_phi sigma_phi z m
  = spec_eta_phi eta_phi0_mean eta_phi0_var alpha_phi sigma_phi z' m.
Proof.
  unfold draws_per_run. induction m as [|m IH]; intros Hz; simpl.
  - by rewrite (Hz 1%nat) by lia.
  - rewrite IH by (intros j Hj; apply Hz; lia).
    by rewrite (Hz (S (S (S (m + (m + 0)))))) by lia.
Qed.

(** The total of a run over [n_months] months reads its first
    [draws_per_run n_months] variates only. *)
Lemma spec_total_ext z z' n_months :
  (forall j, (j < draws_per_run n_months)%nat -> z j = z' j) ->
  spec_total A K eta_r0_mean eta_r0_var eta_phi0_mean eta_phi0_var
    alpha_r alpha_phi sigma_r sigma_phi risk_multipliers z n_months
  = spec_total A K eta_r0_mean eta_r0_var eta_phi0_mean eta_phi0_var
      alpha_r alpha_phi sigma_r sigma_phi risk_multipliers z' n_months.
Proof.
  intros Hz. unfold spec_total. f_equal. apply map_ext_in.
  intros t [_ Ht]%in_seq. unfold spec_N, spec_base_N.
  assert (forall j, (j < draws_per_run (S t))%nat -> z j = z' j) as Hz'
    by (intros j Hj; apply Hz; unfold draws_per_run in *; lia).
  by rewrite (spec_eta_r_ext z z' (S t)), (spec_eta_phi_ext z z' (S t)).
Qed.

End SpecTrajectoryProperties.

(** ** [simulate] *)

Section SimulateProperties.
Import Models SimulationService.

Context {RandomState : Type}.
Variable standard_normal : RandomState -> R * RandomState.

#[local] Abbreviation normal := (np_random_normal RandomState standard_normal).
#[local] Abbreviation adv := (advance RandomState standard_normal).
#[local] Abbreviation drw := (draw RandomState standard_normal).

Lemma advance_S_r k g : adv (S k) g = (standard_normal (adv k g)).2.
Proof. revert g. induction k as [|k IH]; intros g; [done|]. simpl. by rewrite <- IH. Qed.

Lemma advance_add a b g : adv (a + b) g = adv b (adv a g).
Proof. revert g. induction a as [|a IH]; intros g; [done|]. simpl. apply IH. Qed.

Lemma draw_advance a g j : drw (adv a g) j = drw g (a + j).
Proof. unfold draw. by rewrite advance_add. Qed.

(** A draw with a nonnegative scale never raises: it takes the next variate
    of the generator. *)
Lemma normal_draw loc scale g k :
  0 <= scale ->
  normal loc scale (adv k g) = (Some (loc + scale * drw g k), adv (S k) g).
Proof.
  intros Hscale. unfold np_random_normal, draw.
  destruct (decide (scale < 0)) as [Hneg|_]; [lra|].
  rewrite advance_S_r. by destruct (standard_normal (adv k g)).
Qed.

Lemma for_each_app {A S} (items1 items2 : list A)
    (body : S -> A -> Sampler RandomState S) (s : S) (g : RandomState) :
  for_each RandomState (items1 ++ items2) body s g
  = match for_each RandomState items1 body s g with
    | (Some s', g') => for_each RandomState items2 body s' g'
    | (None, g') => (None, g')
    end.
Proof.
  revert s g. induction items1 as [|item items1 IH]; intros s g; [done|].
  simpl. unfold mbind, Sampler_bind.
  destruct (body s item g) as [[s'|] g']; [apply IH | done].
Qed.

Section Run.

Variables A K eta_r0_mean eta_r0_var eta_phi0_mean eta_phi0_var : R.
Variables alpha_r alpha_phi sigma_r sigma_phi : R.
Variable risk_multipliers : option RiskMultipliers.
Hypothesis sigma_r_nonneg : 0 <= sigma_r.
Hypothesis sigma_phi_nonneg : 0 <= sigma_phi.

#[local] Abbreviation eta_r_of z := (spec_eta_r eta_r0_mean eta_r0_var alpha_r sigma_r z).
#[local] Abbreviation eta_phi_of z :=
  (spec_eta_phi eta_phi0_mean eta_phi0_var alpha_phi sigma_phi z).
#[local] Abbreviation N_of z :=
  (spec_N A K eta_r0_mean eta_r0_var eta_phi0_mean eta_phi0_var
     alpha_r alpha_phi sigma_r sigma_phi risk_multipliers z).
#[local] Abbreviation month :=
  (month_body RandomState standard_normal A K alpha_r alpha_phi sigma_r
     sigma_phi risk_multipliers).

(** Month [t] of a run that started in state [g]: it takes draws [2 + 2 t]
    and [3 + 2 t] and stores [N_t] at index [t]. *)
Lemma month_body_spec g t N :
  month (eta_r_of (drw g) t, eta_phi_of (drw g) t, N) t (adv (2 + 2 * t) g)
  = (Some (eta_r_of (drw g) (S t), eta_phi_of (drw g) (S t),
           <[t := N_of (drw g) t]> N),
     adv (2 + 2 * S t) g).
Proof.
  unfold month_body, mbind, Sampler_bind.
  rewrite normal_draw by done. rewrite normal_draw by done.
  unfold mret, Sampler_ret.
  replace (2 + 2 * S t)%nat with (S (S (2 + 2 * t))) by lia.
  f_equal. unfold spec_N, spec_base_N.
  cbn [spec_eta_r spec_eta_phi].
  replace (S (2 + 2 * t)) with (3 + 2 * t)%nat by lia.
  rewrite !Rplus_0_l. by destruct risk_multipliers.
Qed.

Lemma months_loop_spec g m t N :
  for_each RandomState (seq t m) month
    (eta_r_of (drw g) t, eta_phi_of (drw g) t, N) (adv (2 + 2 * t) g)
  = (Some (eta_r_of (drw g) (t + m), eta_phi_of (drw g) (t + m),
           foldl (fun N t' => <[t' := N_of (drw g) t']> N) N (seq t m)),
     adv (2 + 2 * (t + m)) g).
Proof.
  revert t N. induction m as [|m IH]; intros t N.
  - cbn [seq for_each foldl]. by rewrite Nat.add_0_r.
  - cbn [seq for_each]. unfold mbind, Sampler_bind.
    rewrite month_body_spec, IH.
    by replace (S t + m)%nat with (t + S m)%nat by lia.
Qed.

(** Filling the array [N] month by month leaves the list of the [N_t]. *)
Lemma fill_array (f : nat -> R) m t :
  foldl (fun N t' => <[t' := f t']> N)
    (map f (seq 0 t) ++ replicate m 0) (seq t m)
  = map f (seq 0 (t + m)).
Proof.
  revert t. induction m as [|m IH]; intros t.
  - cbn [seq foldl replicate]. by rewrite app_nil_r, Nat.add_0_r.
  - cbn [seq foldl replicate].
    rewrite insert_app_r_alt by (rewrite length_map, length_seq; lia).
    rewrite length_map, length_seq, Nat.sub_diag. cbn [insert list_insert].
    replace (map f (seq 0 t) ++ f t :: replicate m 0)
      with (map f (seq 0 (S t)) ++ replicate m 0)
      by (rewrite seq_S, map_app, <- app_assoc; done).
    rewrite IH. by replace (S t + m)%nat with (t + S m)%nat by lia.
Qed.

(** A run that starts in state [g] returns the spec's total over the
    variates [draw g 0], [draw g 1], ..., and leaves the generator
    [draws_per_run n_months] draws further. *)
Lemma run_body_spec n_months g :
  run_body RandomState standard_normal n_months A K eta_r0_mean eta_r0_var
    eta_phi0_mean eta_phi0_var alpha_r alpha_phi sigma_r sigma_phi
    risk_multipliers g
  = (Some (spec_total A K eta_r0_mean eta_r0_var eta_phi0_mean eta_phi0_var
             alpha_r alpha_phi sigma_r sigma_phi risk_multipliers (drw g)
             n_months),
     adv (draws_per_run n_months) g).
Proof.
  unfold run_body, mbind, Sampler_bind.
  rewrite (normal_draw _ _ g 0) by apply sqrt_pos.
  rewrite (normal_draw _ _ g 1) by apply sqrt_pos.
  pose proof (months_loop_spec g n_months 0 (replicate n_months 0)) as Hloop.
  cbn [spec_eta_r spec_eta_phi] in Hloop.
  change (2 + 2 * 0)%nat with 2%nat in Hloop.
  rewrite Hloop. unfold mret, Sampler_ret. cbn [snd].
  pose proof (fill_array (N_of (drw g)) n_months 0) as Hfill.
  cbn [seq map app] in Hfill. rewrite Hfill. done.
Qed.

End Run.

(** The outer loop: run [i] draws the variates [run_variates n_months g i],
    its own block of [draws_per_run n_months] draws, and is recorded with
    its index. *)
Lemma runs_loop_spec config_id n_months A K e0 v0 p0 pv0 ar aphi sr sphi rm
    n g :
  0 <= sr -> 0 <= sphi ->
  let total := fun i =>
    spec_total A K e0 v0 p0 pv0 ar aphi sr sphi rm
      (run_variates RandomState standard_normal n_months g i) n_months in
  for_each RandomState (seq 0 n)
    (runs_body RandomState config_id
       (run_body RandomState standard_normal n_months A K e0 v0 p0 pv0
          ar aphi sr sphi rm))
    ([], []) g
  = (Some (map total (seq 0 n),
           map (fun i => mkSimulationResult config_id (Some (total i)) (Some i))
             (seq 0 n)),
     adv (draws_per_run n_months * n) g).
Proof.
  intros Hsr Hsphi total. induction n as [|n IH].
  - cbn [seq for_each map]. by rewrite Nat.mul_0_r.
  - rewrite seq_S, for_each_app, IH. cbn [for_each Nat.add].
    unfold mbind, Sampler_bind, runs_body at 1.
    unfold mbind, Sampler_bind.
    rewrite run_body_spec by done.
    unfold mret, Sampler_ret. rewrite !map_app. cbn [map].
    rewrite <- advance_add.
    replace (draws_per_run n_months * n + draws_per_run n_months)%nat
      with (draws_per_run n_months * S n)%nat by lia.
    assert (spec_total A K e0 v0 p0 pv0 ar aphi sr sphi rm
              (drw (adv (draws_per_run n_months * n) g)) n_months = total n)
      as ->; [|done].
    apply spec_total_ext. intros j _. apply draw_advance.
Qed.

(** The summary of a nonempty ensemble is defined. *)
Lemma sim_summarize_totals_is_Some (n_totals : list R) :
  n_totals <> [] -> is_Some (SimulationService.summarize_totals n_totals).
Proof.
  intros Hne. unfold SimulationService.summarize_totals.
  destruct n_totals as [|total rest]; [done|]. cbn [Np.amin Np.amax mbind option_bind].
  destruct (percentile_is_Some (total :: rest) 5) as [p5 H5]; [done|lia|].
  destruct (percentile_is_Some (total :: rest) 50) as [p50 H50]; [done|lia|].
  destruct (percentile_is_Some (total :: rest) 95) as [p95 H95]; [done|lia|].
  change (IZR (Z.of_nat 5)) with 5 in H5.
  change (IZR (Z.of_nat 50)) with 50 in H50.
  change (IZR (Z.of_nat 95)) with 95 in H95.
  rewrite H5, H50, H95. by eexists.
Qed.

(** A call with a complete configuration and posterior, nonnegative noise
    scales and at least one run succeeds: it returns the totals of the runs,
    commits one row per run, and leaves the generator
    [draws_per_run SIMULATION_MONTHS] draws further per run. *)
Lemma simulate_success config_id n_runs risk_profile cid1 cid2 A K
    e0 v0 p0 pv0 ar aphi sr sphi risk rm g :
  load_risk risk_profile risk = Some rm ->
  0 <= sr -> 0 <= sphi -> (0 < n_runs)%nat ->
  let total := fun i =>
    spec_total A K e0 v0 p0 pv0 ar aphi sr sphi rm
      (run_variates RandomState standard_normal SIMULATION_MONTHS g i)
      SIMULATION_MONTHS in
  exists summary,
    SimulationService.summarize_totals (map total (seq 0 n_runs))
      = Some summary
    /\ simulate RandomState standard_normal config_id n_runs risk_profile
         (Some (mkConfiguration cid1 (Some A) (Some K)))
         (Some (mkStatePosterior cid2 (Some e0) (Some v0) (Some p0) (Some pv0)
                  (Some ar) (Some aphi) (Some sr) (Some sphi)))
         risk g
       = SimulationService.mkOutcome RandomState
           (Success
              {| sim_config_id := config_id;
                 sim_n_runs := n_runs;
                 n_totals := map total (seq 0 n_runs);
                 summary := summary;
                 sim_risk_profile :=
                   if truthy risk_profile then risk_profile else None |})
           (map (fun i => mkSimulationResult config_id (Some (total i)) (Some i))
              (seq 0 n_runs))
           (adv (draws_per_run SIMULATION_MONTHS * n_runs) g).
Proof.
  intros Hload Hsr Hsphi Hn total.
  destruct (sim_summarize_totals_is_Some (map total (seq 0 n_runs)))
    as [summary Hsummary].
  { destruct n_runs; [lia|]. by rewrite seq_S, map_app; destruct (map _ _). }
  exists summary. split; [done|].
  unfold simulate. rewrite Hload.
  cbn [application_rate_t_ha chemistry_factor_K Models.eta_r0_mean
       Models.eta_r0_var Models.eta_phi0_mean Models.eta_phi0_var
       alpha_r alpha_phi sigma_r sigma_phi].
  rewrite runs_loop_spec by done. fold total. by rewrite Hsummary.
Qed.

(** With a negative noise scale the first month of the first run raises. *)
Lemma run_body_raises m A K e0 v0 p0 pv0 ar aphi sr sphi rm g :
  sr < 0 \/ sphi < 0 ->
  (run_body RandomState standard_normal (S m) A K e0 v0 p0 pv0
     ar aphi sr sphi rm g).1 = None.
Proof.
  intros Hneg. unfold run_body, mbind, Sampler_bind.
  rewrite (normal_draw _ _ g 0) by apply sqrt_pos.
  rewrite (normal_draw _ _ g 1) by apply sqrt_pos.
  cbn [seq for_each]. unfold mbind, Sampler_bind, month_body.
  unfold mbind, Sampler_bind.
  destruct (decide (sr < 0)) as [Hsr|Hsr].
  - unfold np_random_normal at 1. by rewrite decide_True.
  - rewrite (normal_draw _ _ g 2) by lra.
    unfold np_random_normal at 1. rewrite decide_True by lra. done.
Qed.

Lemma runs_loop_raises config_id m A K e0 v0 p0 pv0 ar aphi sr sphi rm n g :
  sr < 0 \/ sphi < 0 ->
  (for_each RandomState (seq 0 (S n))
     (runs_body RandomState config_id
        (run_body RandomState standard_normal (S m) A K e0 v0 p0 pv0
           ar aphi sr sphi rm))
     ([], []) g).1 = None.
Proof.
  intros Hneg. cbn [seq for_each]. unfold mbind, Sampler_bind, runs_body at 1.
  unfold mbind, Sampler_bind.
  pose proof (run_body_raises m A K e0 v0 p0 pv0 ar aphi sr sphi rm g Hneg)
    as Hrun.
  destruct (run_body _ _ _ _ _ _ _ _ _ _ _ _ _ _ g) as [[total|] g']; done.
Qed.

(** Every other call fails with an error that does not depend on the
    generator, and commits nothing. *)
Lemma simulate_cases config_id n_runs risk_profile config posterior risk :
  can_succeed n_runs risk_profile config posterior risk
  \/ exists message, forall g,
       let out := simulate RandomState standard_normal config_id n_runs
                    risk_profile config posterior risk g in
       SimulationService.response _ out = Error message
       /\ SimulationService.committed _ out = [].
Proof.
  destruct config as [[cid1 [A|] [K|]]|];
    try (right; eexists; intros g; split; reflexivity).
  all: destruct posterior as [[cid2 e0 v0 p0 pv0 ar aphi sr sphi]|];
    try (right; eexists; intros g; split; reflexivity).
  all: destruct (load_risk risk_profile risk) as [rm|] eqn:Hload;
    try (right; eexists; intros g; unfold simulate; rewrite Hload;
         split; reflexivity).
  destruct e0 as [e0|], v0 as [v0|], p0 as [p0|], pv0 as [pv0|],
    ar as [ar|], aphi as [aphi|], sr as [sr|], sphi as [sphi|];
    try (right; eexists; intros g; unfold simulate; rewrite Hload;
         split; reflexivity).
  destruct n_runs as [|n].
  { right. eexists. intros g. unfold simulate. rewrite Hload.
    split; reflexivity. }
  destruct (decide (sr < 0 \/ sphi < 0)) as [Hneg|Hpos].
  - right. exists SimulationService.generic_error. intros g.
    unfold simulate. rewrite Hload.
    cbn [application_rate_t_ha chemistry_factor_K Models.eta_r0_mean
         Models.eta_r0_var Models.eta_phi0_mean Models.eta_phi0_var
         alpha_r alpha_phi sigma_r sigma_phi].
    pose proof (runs_loop_raises config_id 119 A K e0 v0 p0 pv0 ar aphi
                  sr sphi rm n g Hneg) as Hraise.
    change (S 119) with SIMULATION_MONTHS in Hraise.
    destruct (for_each _ _ _ _ g) as [[vars|] g']; [done|].
    split; reflexivity.
  - left. exists cid1, cid2, A, K, e0, v0, p0, pv0, ar, aphi, sr, sphi, rm.
    repeat split; try done; lra || lia.
Qed.

(** What a successful call has done. *)
Lemma simulate_success_inv config_id n_runs risk_profile config posterior
    risk g ok :
  let out := simulate RandomState standard_normal config_id n_runs
               risk_profile config posterior risk g in
  SimulationService.response _ out = Success ok ->
  exists cid1 cid2 A K e0 v0 p0 pv0 ar aphi sr sphi rm,
    config = Some (mkConfiguration cid1 (Some A) (Some K))
    /\ posterior
       = Some (mkStatePosterior cid2 (Some e0) (Some v0) (Some p0) (Some pv0)
                 (Some ar) (Some aphi) (Some sr) (Some sphi))
    /\ load_risk risk_profile risk = Some rm
    /\ 0 <= sr /\ 0 <= sphi /\ (0 < n_runs)%nat
    /\ let total := fun i =>
         spec_total A K e0 v0 p0 pv0 ar aphi sr sphi rm
           (run_variates RandomState standard_normal SIMULATION_MONTHS g i)
           SIMULATION_MONTHS in
       n_totals ok = map total (seq 0 n_runs)
       /\ SimulationService.summarize_totals (n_totals ok)
          = Some (summary ok)
       /\ SimulationService.committed _ out
          = map (fun i => mkSimulationResult config_id (Some (total i)) (Some i))
              (seq 0 n_runs)
       /\ SimulationService.generator _ out
          = adv (draws_per_run SIMULATION_MONTHS * n_runs) g.
Proof.
  intros out Hok.
  destruct (simulate_cases config_id n_runs risk_profile config posterior risk)
    as [Hcan|[message Herr]].
  2:{ destruct (Herr g) as [Hresp _]. fold out in Hresp. congruence. }
  destruct Hcan as (cid1 & cid2 & A & K & e0 & v0 & p0 & pv0 & ar & aphi & sr
                    & sphi & rm & -> & -> & Hload & Hsr & Hsphi & Hn).
  exists cid1, cid2, A, K, e0, v0, p0, pv0, ar, aphi, sr, sphi, rm.
  do 6 (split; [done|]).
  destruct (simulate_success config_id n_runs risk_profile cid1 cid2 A K
              e0 v0 p0 pv0 ar aphi sr sphi risk rm g Hload Hsr Hsphi Hn)
    as (summary & Hsummary & Hsim).
  subst out. rewrite Hsim in Hok |- *. cbn in Hok. injection Hok as <-.
  done.
Qed.

(** C3. A call with a complete configuration and posterior, nonnegative
    variances and noise scales and [n_runs >= 1] succeeds, and run [i] is
    recorded, with its index [i], with the total [sum of N_t for t = 0..119],
    where over the run's variates both channels start from the sampled
    posterior and advance each month by drift plus Gaussian noise
    ([spec_eta_r], [spec_eta_phi]) and
    [N_t = A * K * exp eta_r * expit eta_phi], times the month's risk
    multiplier when there is a risk source ([spec_N]). *)
Theorem simulate_totals config_id n_runs risk_profile cid1 cid2 A K
    e0 v0 p0 pv0 ar aphi sr sphi risk rm g :
  load_risk risk_profile risk = Some rm ->
  0 <= v0 -> 0 <= pv0 -> 0 <= sr -> 0 <= sphi -> (1 <= n_runs)%nat ->
  let out :=
    simulate RandomState standard_normal config_id n_runs risk_profile
      (Some (mkConfiguration cid1 (Some A) (Some K)))
      (Some (mkStatePosterior cid2 (Some e0) (Some v0) (Some p0) (Some pv0)
               (Some ar) (Some aphi) (Some sr) (Some sphi)))
      risk g in
  exists ok,
    SimulationService.response _ out = Success ok
    /\ length (n_totals ok) = n_runs
    /\ length (SimulationService.committed _ out) = n_runs
    /\ forall i, (i < n_runs)%nat ->
       let z := run_variates RandomState standard_normal SIMULATION_MONTHS g i in
       let N := spec_N A K e0 v0 p0 pv0 ar aphi sr sphi rm z in
       let total := Np.sum (map N (seq 0 120)) in
       n_totals ok !! i = Some total
       /\ SimulationService.committed _ out !! i
          = Some (mkSimulationResult config_id (Some total) (Some i)).
Proof.
  intros Hload _ _ Hsr Hsphi Hn out.
  destruct (simulate_success config_id n_runs risk_profile cid1 cid2 A K
              e0 v0 p0 pv0 ar aphi sr sphi risk rm g Hload Hsr Hsphi)
    as (summary & _ & Hsim); [lia|].
  subst out. rewrite Hsim. eexists. split; [reflexivity|].
  cbn [n_totals SimulationService.committed].
  rewrite !length_map, length_seq. split; [done|]. split; [done|].
  intros i Hi.
  rewrite !list_lookup_fmap, lookup_seq_lt by done. done.
Qed.

(** C2. [simulate] takes no seed: it draws from NumPy's global generator,
    whose state [g] is what a seed fixes.  Two calls with the same inputs
    whose generators yield the same variates (as when started from the same
    seed) return the same response and commit the same rows.  On a complete
    configuration and posterior with nonnegative variances and noise
    scales and [n_runs >= 1] both calls succeed; a call consumes exactly
    [draws_per_run SIMULATION_MONTHS] variates per run and leaves the
    generator that much further; the total of run [i] is the total of the
    trajectory over block [i] of the draws, the draws numbered
    [block * i] to [block * i + block - 1], and it is the same in two calls
    whose generators agree on that block.  No draw belongs to two runs. *)
Theorem simulate_reproducible config_id n_runs risk_profile config posterior
    risk g1 g2 :
  let block := draws_per_run SIMULATION_MONTHS in
  let out1 := simulate RandomState standard_normal config_id n_runs
                risk_profile config posterior risk g1 in
  let out2 := simulate RandomState standard_normal config_id n_runs
                risk_profile config posterior risk g2 in
  ((forall k, (k < block * n_runs)%nat -> drw g1 k = drw g2 k) ->
   SimulationService.response _ out1 = SimulationService.response _ out2
   /\ SimulationService.committed _ out1 = SimulationService.committed _ out2)
  /\ (forall cid1 cid2 A K e0 v0 p0 pv0 ar aphi sr sphi rm,
        config = Some (mkConfiguration cid1 (Some A) (Some K)) ->
        posterior
        = Some (mkStatePosterior cid2 (Some e0) (Some v0) (Some p0) (Some pv0)
                  (Some ar) (Some aphi) (Some sr) (Some sphi)) ->
        load_risk risk_profile risk = Some rm ->
        0 <= v0 -> 0 <= pv0 -> 0 <= sr -> 0 <= sphi -> (1 <= n_runs)%nat ->
        exists ok1 ok2,
          SimulationService.response _ out1 = Success ok1
          /\ SimulationService.response _ out2 = Success ok2
          /\ length (n_totals ok1) = n_runs
          /\ SimulationService.generator _ out1 = adv (block * n_runs) g1
          /\ forall i, (i < n_runs)%nat ->
               n_totals ok1 !! i
               = Some (spec_total A K e0 v0 p0 pv0 ar aphi sr sphi rm
                         (fun j => drw g1 (block * i + j)%nat)
                         SIMULATION_MONTHS)
               /\ ((forall j, (j < block)%nat ->
                               drw g1 (block * i + j) = drw g2 (block * i + j)) ->
                   n_totals ok1 !! i = n_totals ok2 !! i))
  /\ (forall i i' j j',
        (j < block)%nat -> (j' < block)%nat ->
        (block * i + j = block * i' + j')%nat -> i = i' /\ j = j')
  /\ (forall ok1 ok2 i,
        SimulationService.response _ out1 = Success ok1 ->
        SimulationService.response _ out2 = Success ok2 ->
        (i < n_runs)%nat ->
        (forall j, (j < block)%nat ->
                   drw g1 (block * i + j) = drw g2 (block * i + j)) ->
        n_totals ok1 !! i = n_totals ok2 !! i)
  /\ (forall ok1,
        SimulationService.response _ out1 = Success ok1 ->
        length (n_totals ok1) = n_runs
        /\ SimulationService.generator _ out1 = adv (block * n_runs) g1).
Proof.
  intros block out1 out2. subst out1 out2.
  split; [|split; [|split; [|split]]].
  - intros Hsame.
    destruct (simulate_cases config_id n_runs risk_profile config posterior
                risk) as [Hcan|[message Herr]].
    2:{ destruct (Herr g1) as [-> ->], (Herr g2) as [-> ->]. done. }
    destruct Hcan as (cid1 & cid2 & A & K & e0 & v0 & p0 & pv0 & ar & aphi
                      & sr & sphi & rm & -> & -> & Hload & Hsr & Hsphi & Hn).
    destruct (simulate_success config_id n_runs risk_profile cid1 cid2 A K
                e0 v0 p0 pv0 ar aphi sr sphi risk rm g1 Hload Hsr Hsphi Hn)
      as (summary1 & Hsum1 & Hsim1).
    destruct (simulate_success config_id n_runs risk_profile cid1 cid2 A K
                e0 v0 p0 pv0 ar aphi sr sphi risk rm g2 Hload Hsr Hsphi Hn)
      as (summary2 & Hsum2 & Hsim2).
    assert (forall i, In i (seq 0 n_runs) ->
              spec_total A K e0 v0 p0 pv0 ar aphi sr sphi rm
                (run_variates RandomState standard_normal SIMULATION_MONTHS g1 i)
                SIMULATION_MONTHS
              = spec_total A K e0 v0 p0 pv0 ar aphi sr sphi rm
                  (run_variates RandomState standard_normal SIMULATION_MONTHS g2 i)
                  SIMULATION_MONTHS) as Htotal.
    { intros i [_ Hi]%in_seq. apply spec_total_ext. intros j Hj.
      apply Hsame. fold block in Hj |- *. nia. }
    rewrite Hsim1, Hsim2.
    cbn [SimulationService.response SimulationService.committed].
    rewrite (map_ext_in _ _ _ Htotal) in Hsum1 |- *.
    assert (summary1 = summary2) as -> by congruence.
    split; [done|]. apply map_ext_in. intros i Hi. by rewrite Htotal.
  - intros cid1 cid2 A K e0 v0 p0 pv0 ar aphi sr sphi rm -> -> Hload _ _
      Hsr Hsphi Hn.
    destruct (simulate_success config_id n_runs risk_profile cid1 cid2 A K
                e0 v0 p0 pv0 ar aphi sr sphi risk rm g1 Hload Hsr Hsphi)
      as (summary1 & _ & ->); [lia|].
    destruct (simulate_success config_id n_runs risk_profile cid1 cid2 A K
                e0 v0 p0 pv0 ar aphi sr sphi risk rm g2 Hload Hsr Hsphi)
      as (summary2 & _ & ->); [lia|].
    do 2 eexists. split; [done|]. split; [done|].
    cbn [n_totals SimulationService.generator].
    rewrite length_map, length_seq. split; [done|]. split; [done|].
    intros i Hi. rewrite !list_lookup_fmap, lookup_seq_lt by done.
    cbn [fmap option_fmap option_map Nat.add]. split; [done|].
    intros Hblock. f_equal. apply spec_total_ext. intros j Hj.
    by apply Hblock.
  - intros i i' j j' Hj Hj' Heq. subst block.
    unfold draws_per_run, SIMULATION_MONTHS in *. nia.
  - intros ok1 ok2 i Hok1 Hok2 Hi Hblock.
    destruct (simulate_success_inv _ _ _ _ _ _ _ _ Hok1)
      as (cid1 & cid2 & A & K & e0 & v0 & p0 & pv0 & ar & aphi & sr & sphi
          & rm & Hcfg & Hpost & Hload & _ & _ & _ & Htot1 & _).
    destruct (simulate_success_inv _ _ _ _ _ _ _ _ Hok2)
      as (cid1' & cid2' & A' & K' & e0' & v0' & p0' & pv0' & ar' & aphi'
          & sr' & sphi' & rm' & Hcfg' & Hpost' & Hload' & _ & _ & _ & Htot2
          & _).
    rewrite Hcfg in Hcfg'. rewrite Hpost in Hpost'. rewrite Hload in Hload'.
    injection Hcfg' as <- <- <-.
    injection Hpost' as <- <- <- <- <- <- <- <- <-.
    injection Hload' as <-.
    rewrite Htot1, Htot2, !list_lookup_fmap, lookup_seq_lt by done.
    cbn [fmap option_fmap option_map]. f_equal.
    apply spec_total_ext. intros j Hj. by apply Hblock.
  - intros ok1 Hok1.
    destruct (simulate_success_inv _ _ _ _ _ _ _ _ Hok1)
      as (cid1 & cid2 & A & K & e0 & v0 & p0 & pv0 & ar & aphi & sr & sphi
          & rm & _ & _ & _ & _ & _ & _ & Htot1 & _ & _ & Hgen).
    split; [|done]. by rewrite Htot1, length_map, length_seq.
Qed.

(** C5. The multiplier of month [t] is the [t]-th element of a sequence,
    or its last element when [t] is past its end; the value of a mapping
    under the key [t], else under ["default"], else [1.0]; a scalar itself.
    Each [N_t] enters the run's total multiplied by it; with the mapping of
    Example 4 the multiplier is [2] in month 0 and [1] in every other
    month. *)
Theorem risk_multiplier_resolution config_id n_runs risk_profile cid1 cid2
    A K e0 v0 p0 pv0 ar aphi sr sphi risk rm g :
  load_risk risk_profile risk = Some (Some rm) ->
  0 <= v0 -> 0 <= pv0 -> 0 <= sr -> 0 <= sphi -> (1 <= n_runs)%nat ->
  (forall l t m, l !! t = Some m -> risk_multiplier (RiskList l) t = m)
  /\ (forall l t m, (length l <= t)%nat -> last l = Some m ->
                    risk_multiplier (RiskList l) t = m)
  /\ (forall d t m, d !! pretty t = Some m -> risk_multiplier (RiskDict d) t = m)
  /\ (forall d t m, d !! pretty t = None -> d !! "default" = Some m ->
                    risk_multiplier (RiskDict d) t = m)
  /\ (forall d t, d !! pretty t = None -> d !! "default" = None ->
                  risk_multiplier (RiskDict d) t = 1.0)
  /\ (forall x t, risk_multiplier (RiskScalar x) t = x)
  /\ (risk_multiplier (RiskDict example4_multipliers) 0 = 2.0
      /\ forall t, t <> 0%nat ->
                   risk_multiplier (RiskDict example4_multipliers) t = 1.0)
  /\ let out :=
       simulate RandomState standard_normal config_id n_runs risk_profile
         (Some (mkConfiguration cid1 (Some A) (Some K)))
         (Some (mkStatePosterior cid2 (Some e0) (Some v0) (Some p0) (Some pv0)
                  (Some ar) (Some aphi) (Some sr) (Some sphi)))
         risk g in
     exists ok,
       SimulationService.response _ out = Success ok
       /\ forall i, (i < n_runs)%nat ->
          let z := run_variates RandomState standard_normal SIMULATION_MONTHS
                     g i in
          let base_N := spec_base_N A K e0 v0 p0 pv0 ar aphi sr sphi z in
          n_totals ok !! i
          = Some (Np.sum (map (fun t => base_N t * risk_multiplier rm t)
                            (seq 0 120))).
Proof.
  intros Hload Hv Hpv Hsr Hsphi Hn.
  split. { intros l t m Hl. simpl. by rewrite Hl. }
  split. { intros l t m Hlen Hlast. simpl.
           by rewrite lookup_ge_None_2, Hlast by lia. }
  split. { intros d t m Hd. simpl. by rewrite Hd. }
  split. { intros d t m Hd Hdef. simpl. by rewrite Hd, Hdef. }
  split. { intros d t Hd Hdef. simpl. by rewrite Hd, Hdef. }
  split; [done|].
  split.
  { split; [done|]. intros t Ht. unfold risk_multiplier, example4_multipliers.
    rewrite lookup_insert_ne.
    2:{ intros Heq. apply Ht. apply (inj pretty). by rewrite <- Heq. }
    destruct (_ !! pretty t) as [m|] eqn:Hm; [|done].
    apply lookup_insert_Some in Hm as [[_ <-]|[_ Hm]]; [done|].
    by rewrite lookup_empty in Hm. }
  destruct (simulate_success config_id n_runs risk_profile cid1 cid2 A K
              e0 v0 p0 pv0 ar aphi sr sphi risk (Some rm) g Hload Hsr Hsphi)
    as (summary & _ & Hsim); [lia|].
  rewrite Hsim. eexists. split; [reflexivity|].
  cbn [n_totals]. intros i Hi.
  by rewrite list_lookup_fmap, lookup_seq_lt by done.
Qed.

End SimulateProperties.

Section SimulateExamples.
Import Models SimulationService.

(** Two runs from the posterior of the spec's Example 3. *)
Lemma simulate_totals_witness :
  exists ok,
    SimulationService.response _
      (simulate nat counting_normal "cfg" 2 None (Some cfg0) (Some post0)
         None 0%nat) = Success ok
    /\ length (n_totals ok) = 2%nat.
Proof.
  destruct (simulate_totals counting_normal "cfg" 2 None "cfg" "cfg" 10 0.5
              (-2) 0.01 0 1 0 0 1e-6 0.1 None None 0%nat eq_refl
              ltac:(lra) ltac:(lra) ltac:(lra) ltac:(lra) ltac:(lia))
    as (ok & Hok & Hlen & _).
  exists ok. split; assumption.
Defined.

(** Two generator states that differ and yield the same variates: both
    calls succeed with the same response, and the first has drawn two blocks
    of variates. *)
Lemma simulate_reproducible_witness :
  exists ok,
    SimulationService.response _
      (simulate nat counting_normal "cfg" 2 None (Some cfg0) (Some post0)
         None 0%nat) = Success ok
    /\ SimulationService.response _
         (simulate nat counting_normal "cfg" 2 None (Some cfg0) (Some post0)
            None 5%nat) = Success ok
    /\ SimulationService.generator _
         (simulate nat counting_normal "cfg" 2 None (Some cfg0) (Some post0)
            None 0%nat)
       = advance nat counting_normal (draws_per_run SIMULATION_MONTHS * 2)
           0%nat.
Proof.
  destruct (simulate_reproducible counting_normal "cfg" 2 None (Some cfg0)
              (Some post0) None 0%nat 5%nat) as (Hsame & Hruns & _).
  destruct (Hruns "cfg" "cfg" 10 0.5 (-2) 0.01 0 1 0 0 1e-6 0.1 None
              eq_refl eq_refl eq_refl ltac:(lra) ltac:(lra) ltac:(lra)
              ltac:(lra) ltac:(lia))
    as (ok1 & ok2 & Hok1 & Hok2 & _ & Hgen & _).
  destruct Hsame as [Hresp _]; [intros k _; reflexivity|].
  exists ok1. split; [exact Hok1|]. split; [|exact Hgen].
  rewrite <- Hresp. exact Hok1.
Defined.

Lemma load_storm :
  load_risk (Some "storm") (Some storm)
  = Some (Some (RiskDict example4_multipliers)).
Proof. reflexivity. Qed.

(** The spec's Example 4. *)
Lemma risk_multiplier_resolution_witness :
  exists ok,
    SimulationService.response _
      (simulate nat counting_normal "cfg" 1 (Some "storm") (Some cfg0)
         (Some post0) (Some storm) 0%nat) = Success ok
    /\ n_totals ok !! 0%nat
       = Some (Np.sum
                 (map (fun t =>
                         spec_base_N 10 0.5 (-2) 0.01 0 1 0 0 1e-6 0.1
                           (run_variates nat counting_normal
                              SIMULATION_MONTHS 0%nat 0) t
                         * risk_multiplier (RiskDict example4_multipliers) t)
                    (seq 0 120))).
Proof.
  destruct (risk_multiplier_resolution counting_normal "cfg" 1 (Some "storm")
              "cfg" "cfg" 10 0.5 (-2) 0.01 0 1 0 0 1e-6 0.1 (Some storm)
              (RiskDict example4_multipliers) 0%nat load_storm
              ltac:(lra) ltac:(lra) ltac:(lra) ltac:(lra) ltac:(lia))
    as (_ & _ & _ & _ & _ & _ & _ & ok & Hok & Htotal).
  exists ok. split; [exact Hok|]. apply Htotal. lia.
Defined.

End SimulateExamples.

(** ** [summarize] *)

Section SummarizeProperties.
Import Models ResultsService.

Variables DEFAULT_TARGET_MULTIPLIER DEFAULT_TARGET_FALLBACK : R.
Context {RandomState : Type}.
Variable standard_normal : RandomState -> R * RandomState.

#[local] Abbreviation summarize_stored :=
  (summarize DEFAULT_TARGET_MULTIPLIER DEFAULT_TARGET_FALLBACK RandomState
     standard_normal).
#[local] Abbreviation summarize_ensemble :=
  (summarize_totals DEFAULT_TARGET_MULTIPLIER DEFAULT_TARGET_FALLBACK).

(** With stored results the ensemble is the list of their non-null totals;
    nothing is simulated, drawn or committed. *)
Lemma summarize_existing config_id target n_runs risk_profile existing
    config posterior risk g :
  existing <> [] ->
  summarize_stored config_id target n_runs risk_profile existing config
    posterior risk g
  = mkOutcome RandomState
      (summarize_ensemble config_id target config (non_null_totals existing))
      [] g.
Proof. intros Hne. unfold summarize. by destruct existing. Qed.

(** A row whose total is null does not enter the ensemble. *)
Lemma non_null_totals_skip l1 row l2 :
  n_total row = None ->
  non_null_totals (l1 ++ row :: l2) = non_null_totals (l1 ++ l2).
Proof.
  intros Hnull. unfold non_null_totals.
  rewrite !omap_app. f_equal. simpl. by rewrite Hnull.
Qed.

(** On a nonempty ensemble the summary is computed. *)
Lemma summarize_totals_success config_id target config n_totals :
  n_totals <> [] ->
  exists p5 p50 p95 mn mx,
    Np.spec_percentile (merge_sort Rle n_totals) 5 = Some p5
    /\ Np.spec_percentile (merge_sort Rle n_totals) 50 = Some p50
    /\ Np.spec_percentile (merge_sort Rle n_totals) 95 = Some p95
    /\ Np.amin n_totals = Some mn
    /\ Np.amax n_totals = Some mx
    /\ let target' :=
         match target with
         | Some target => target
         | None =>
             default_target DEFAULT_TARGET_MULTIPLIER DEFAULT_TARGET_FALLBACK
               config
         end in
       summarize_ensemble config_id target config n_totals
       = Success
           {| res_config_id := config_id;
              statistics :=
                {| st_mean := Np.mean n_totals; st_p5 := p5; st_p50 := p50;
                   st_p95 := p95; st_std := Np.std n_totals;
                   st_min := mn; st_max := mx;
                   st_count := length n_totals |};
              res_target := target';
              p_hit := Np.fraction_ge n_totals target';
              res_n_runs := length n_totals |}.
Proof.
  intros Hne. unfold summarize_totals.
  destruct (percentile_is_Some n_totals 5) as [p5 H5]; [done|lia|].
  destruct (percentile_is_Some n_totals 50) as [p50 H50]; [done|lia|].
  destruct (percentile_is_Some n_totals 95) as [p95 H95]; [done|lia|].
  exists p5, p50, p95.
  pose proof H5 as H5'. pose proof H50 as H50'. pose proof H95 as H95'.
  rewrite <- INR_IZR_INZ, percentile_spec in H5', H50', H95'.
  change (IZR (Z.of_nat 5)) with 5 in H5.
  change (IZR (Z.of_nat 50)) with 50 in H50.
  change (IZR (Z.of_nat 95)) with 95 in H95.
  rewrite H5, H50, H95.
  destruct n_totals as [|total rest]; [done|].
  rewrite decide_False by done. cbn [Np.amin Np.amax].
  do 2 eexists. do 5 (split; [done|]). done.
Qed.

(** The spec's Example 5: [p_hit = 0.6] and [p50 = 30]. *)
Lemma summarize_example5 n_runs risk_profile config posterior risk g :
  exists ok,
    response _ (summarize_stored "cfg" (Some 30) n_runs risk_profile
                  example5_results config posterior risk g) = Success ok
    /\ p_hit ok = 0.6
    /\ st_p50 (statistics ok) = 30.
Proof.
  rewrite summarize_existing by done. cbn [response].
  change (non_null_totals example5_results) with [10; 20; 30; 40; 50].
  destruct (summarize_totals_success "cfg" (Some 30) config
              [10; 20; 30; 40; 50]) as (p5 & p50 & p95 & mn & mx & _ & H50
                                        & _ & _ & _ & ->); [done|].
  eexists. split; [done|]. cbn [p_hit statistics st_p50]. split.
  - unfold Np.fraction_ge, Np.mean, Np.sum, Np.ge_indicator.
    cbn [map foldr length INR].
    repeat (destruct (decide _); try lra).
  - rewrite merge_sort_sorted in H50
      by (repeat constructor; lra).
    unfold Np.spec_percentile in H50.
    change ((length [10; 20; 30; 40; 50] - 1) * 50)%nat with 200%nat in H50.
    change (200 / 100)%nat with 2%nat in H50.
    change (200 mod 100)%nat with 0%nat in H50.
    cbn in H50. injection H50 as <-. lra.
Qed.

(** When nothing is stored and [n_runs] is given, the ensemble is the list
    of totals of the simulation the call runs. *)
Lemma summarize_simulated config_id target n_runs risk_profile config
    posterior risk g sim_ok :
  SimulationService.response _
    (SimulationService.simulate RandomState standard_normal config_id n_runs
       risk_profile config posterior risk g) = Success sim_ok ->
  response _ (summarize_stored config_id target (Some n_runs) risk_profile []
                config posterior risk g)
  = summarize_ensemble config_id target config
      (SimulationService.n_totals sim_ok).
Proof. intros Hsim. unfold summarize. by rewrite Hsim. Qed.

(** C4. On a nonempty ensemble of totals (the non-null stored totals, or
    the totals of the simulation it runs when nothing is stored) [summarize]
    returns the mean, the population standard deviation, the least and the
    greatest total, the 5th, 50th and 95th percentiles by linear
    interpolation in the sorted ensemble, the count, the target (the given
    one, else the application rate times [DEFAULT_TARGET_MULTIPLIER] when
    the rate is known, else [DEFAULT_TARGET_FALLBACK]) and [p_hit], the
    fraction of the totals that reach the target; on Example 5 it returns
    [p_hit = 0.6] and [p50 = 30]. *)
Theorem summarize_statistics config_id target config totals :
  totals <> [] ->
  let n := INR (length totals) in
  (exists ok sorted,
     summarize_ensemble config_id target config totals = Success ok
     /\ st_mean (statistics ok) * n = Np.sum totals
     /\ 0 <= st_std (statistics ok)
     /\ st_std (statistics ok) ^ 2 * n
        = Np.sum (map (fun x => (x - st_mean (statistics ok)) ^ 2) totals)
     /\ (st_min (statistics ok) ∈ totals
         /\ forall x, x ∈ totals -> st_min (statistics ok) <= x)
     /\ (st_max (statistics ok) ∈ totals
         /\ forall x, x ∈ totals -> x <= st_max (statistics ok))
     /\ StronglySorted Rle sorted
     /\ sorted ≡ₚ totals
     /\ Np.spec_percentile sorted 5 = Some (st_p5 (statistics ok))
     /\ Np.spec_percentile sorted 50 = Some (st_p50 (statistics ok))
     /\ Np.spec_percentile sorted 95 = Some (st_p95 (statistics ok))
     /\ st_count (statistics ok) = length totals
     /\ res_target ok
        = match target with
          | Some target => target
          | None =>
              match config with
              | Some config =>
                  match application_rate_t_ha config with
                  | Some rate => rate * DEFAULT_TARGET_MULTIPLIER
                  | None => DEFAULT_TARGET_FALLBACK
                  end
              | None => DEFAULT_TARGET_FALLBACK
              end
          end
     /\ p_hit ok * n
        = INR (length (filter (fun x => res_target ok <= x) totals)))
  /\ (forall n_runs risk_profile existing posterior risk g,
        non_null_totals existing = totals ->
        response _ (summarize_stored config_id target n_runs risk_profile
                      existing config posterior risk g)
        = summarize_ensemble config_id target config totals)
  /\ (forall n_runs risk_profile posterior risk g sim_ok,
        SimulationService.response _
          (SimulationService.simulate RandomState standard_normal config_id
             n_runs risk_profile config posterior risk g) = Success sim_ok ->
        SimulationService.n_totals sim_ok = totals ->
        response _ (summarize_stored config_id target (Some n_runs)
                      risk_profile [] config posterior risk g)
        = summarize_ensemble config_id target config totals)
  /\ (forall n_runs risk_profile posterior risk g,
        exists ok5,
          response _ (summarize_stored "cfg" (Some 30) n_runs risk_profile
                        example5_results config posterior risk g)
            = Success ok5
          /\ p_hit ok5 = 0.6
          /\ st_p50 (statistics ok5) = 30).
Proof.
  intros Hne n. split; [|split; [|split; [|intros; apply summarize_example5]]].
  - destruct (summarize_totals_success config_id target config totals Hne)
      as (p5 & p50 & p95 & mn & mx & H5 & H50 & H95 & Hmin & Hmax & ->).
    eexists. exists (merge_sort Rle totals). split; [done|].
    cbn [statistics st_mean st_std st_min st_max st_p5 st_p50 st_p95 st_count
         res_target p_hit].
    split; [by apply mean_spec|].
    destruct (std_spec totals Hne) as [Hstd0 Hstd].
    split; [done|]. split; [done|].
    split; [by apply amin_spec|]. split; [by apply amax_spec|].
    split; [apply StronglySorted_merge_sort; apply _|].
    split; [apply merge_sort_Permutation|].
    do 4 (split; [done|]). split; [by destruct target|].
    by apply fraction_ge_spec.
  - intros n_runs risk_profile existing posterior risk g Htotals.
    rewrite summarize_existing; [by rewrite Htotals|].
    intros ->. by rewrite <- Htotals in Hne.
  - intros n_runs risk_profile posterior risk g sim_ok Hsim <-.
    by apply summarize_simulated.
Qed.

(** C10. With stored results the ensemble is the list of the non-null
    totals: the summary is that of this list and counts its elements only, a
    row whose total is null changes nothing, and when every stored total is
    null the call returns the "no valid simulation results" error. *)
Theorem summarize_skips_null_totals config_id target n_runs risk_profile
    existing config posterior risk g :
  existing <> [] ->
  let out := summarize_stored config_id target n_runs risk_profile existing
               config posterior risk g in
  response _ out
    = summarize_ensemble config_id target config (non_null_totals existing)
  /\ (forall ok, response _ out = Success ok ->
                 st_count (statistics ok) = length (non_null_totals existing)
                 /\ Forall (fun x => Some x ∈ map n_total existing)
                      (non_null_totals existing))
  /\ (forall l1 row l2,
        existing = l1 ++ row :: l2 -> n_total row = None -> l1 ++ l2 <> [] ->
        out = summarize_stored config_id target n_runs risk_profile (l1 ++ l2)
                config posterior risk g)
  /\ (Forall (fun row => n_total row = None) existing ->
      response _ out = Error ("No valid simulation results for " +:+ config_id)).
Proof.
  intros Hne out. subst out. rewrite summarize_existing by done.
  cbn [response]. split; [done|]. split; [|split].
  - intros ok Hok. split.
    + destruct (decide (non_null_totals existing = [])) as [Hnil|Hnn].
      { unfold summarize_totals in Hok. rewrite Hnil in Hok. done. }
      destruct (summarize_totals_success config_id target config _ Hnn)
        as (p5 & p50 & p95 & mn & mx & _ & _ & _ & _ & _ & Hsucc).
      rewrite Hsucc in Hok. by injection Hok as <-.
    + apply Forall_forall. intros x Hx. unfold non_null_totals in Hx.
      apply list_elem_of_omap in Hx as (row & Hrow & Hx).
      rewrite <- Hx. apply list_elem_of_In, in_map, list_elem_of_In, Hrow.
  - intros l1 row l2 -> Hnull Hne'.
    rewrite summarize_existing by done. by rewrite non_null_totals_skip.
  - intros Hall.
    assert (non_null_totals existing = []) as ->; [|done].
    unfold non_null_totals. clear Hne.
    induction Hall as [|row rest Hrow _ IH]; [done|].
    simpl. by rewrite Hrow.
Qed.

End SummarizeProperties.

Section SummarizeExamples.
Import Models ResultsService.

Lemma example5_nonempty : non_null_totals example5_results <> [].
Proof. done. Qed.

Lemma example5_rows_nonempty : null_row :: example5_results <> [].
Proof. done. Qed.

(** The spec's Example 5: five stored totals, all of them counted. *)
Lemma summarize_statistics_witness :
  exists ok,
    summarize_totals 2 100 "cfg" (Some 30) None [10; 20; 30; 40; 50]
      = Success ok
    /\ st_count (statistics ok) = 5%nat
    /\ response _ (summarize 2 100 nat SimulationService.counting_normal "cfg"
                     (Some 30) None None example5_results None None None 0%nat)
       = Success ok.
Proof.
  destruct (summarize_statistics 2 100 SimulationService.counting_normal "cfg"
              (Some 30) None [10; 20; 30; 40; 50] example5_nonempty)
    as [(ok & sorted & Hok & _ & _ & _ & _ & _ & _ & _ & _ & _ & _ & Hcount
         & _) (Hstored & _)].
  exists ok. split; [exact Hok|]. split; [exact Hcount|].
  rewrite <- Hok. apply Hstored. reflexivity.
Defined.

(** A stored row without a total next to the five of Example 5. *)
Lemma summarize_skips_null_totals_witness :
  summarize 2 100 nat SimulationService.counting_normal "cfg" (Some 30) None
    None (null_row :: example5_results) None None None 0%nat
  = summarize 2 100 nat SimulationService.counting_normal "cfg" (Some 30) None
      None example5_results None None None 0%nat.
Proof.
  pose proof (summarize_skips_null_totals 2 100
                SimulationService.counting_normal "cfg" (Some 30) None None
                (null_row :: example5_results) None None None 0%nat
                example5_rows_nonempty) as (_ & _ & Hskip & _).
  apply (Hskip [] null_row example5_results eq_refl eq_refl).
  discriminate.
Defined.

End SummarizeExamples.

(** * Further properties of the code *)

(** ** The filter: indices and the floor of the noise scales *)

Section EkfFurtherProperties.
Import ModelStateService.

(** Past the end of [y_lab] the loop raises. *)
Lemma ekf_loop_out_of_range body y_lab n st :
  (length y_lab < n)%nat -> ekf_loop body y_lab (seq 0 n) st = None.
Proof.
  intros Hn.
  replace n with (length y_lab + S (n - S (length y_lab)))%nat by lia.
  rewrite seq_app, ekf_loop_app, ekf_loop_seq by lia. cbn [mbind option_bind].
  cbn [seq ekf_loop Nat.add]. by rewrite lookup_ge_None_2 by lia.
Qed.

(** X1. The filter reads [len(times)] observations and nothing else of
    [times]: with at most as many time points as observations it returns
    what it returns on the first [len(times)] observations, whatever the
    time stamps are, and with more time points than observations it raises
    ([IndexError]). *)
Theorem ekf_reads_by_index params times y_lab e0 v0 p0 pv0 final :
  ((length times <= length y_lab)%nat ->
   forall times',
     length times' = length times ->
     extended_kalman_filter params times y_lab e0 v0 p0 pv0 final
     = extended_kalman_filter params times'
         (take (length times) y_lab) e0 v0 p0 pv0 final)
  /\ ((length y_lab < length times)%nat ->
      extended_kalman_filter params times y_lab e0 v0 p0 pv0 final = None).
Proof.
  split.
  - intros Hlen times' Hlen'. unfold extended_kalman_filter.
    rewrite Hlen', !ekf_loop_seq by (rewrite ?length_take; lia).
    by rewrite take_take, Nat.min_id.
  - intros Hlen. unfold extended_kalman_filter.
    by rewrite ekf_loop_out_of_range.
Qed.

(** X2. Noise scales at or below the floor [1e-6] are indistinguishable from
    the floor: the objective is flat there in each of the three sigmas. *)
Theorem ekf_sigma_floor params times y_lab e0 v0 p0 pv0 final :
  extended_kalman_filter params times y_lab e0 v0 p0 pv0 final
  = extended_kalman_filter
      {| p_alpha_r := p_alpha_r params;
         p_alpha_phi := p_alpha_phi params;
         p_sigma_r := Rmax (p_sigma_r params) 1e-6;
         p_sigma_phi := Rmax (p_sigma_phi params) 1e-6;
         p_sigma_lab := Rmax (p_sigma_lab params) 1e-6 |}
      times y_lab e0 v0 p0 pv0 final.
Proof.
  unfold extended_kalman_filter. cbn [p_alpha_r p_alpha_phi p_sigma_r
                                       p_sigma_phi p_sigma_lab].
  assert (forall s, Rmax (Rmax s 1e-6) 1e-6 = Rmax s 1e-6) as Hidem.
  { intros s. apply Rmax_left, Rmax_r. }
  by rewrite !Hidem.
Qed.

End EkfFurtherProperties.

(** ** [update_state]: what is stored, and when *)

Section UpdateStateFurtherProperties.
Import Models ModelStateService.

Variable minimize :
  (Params -> option EkfReturn) -> Params -> string -> list (R * R) -> nat ->
  option OptimizeResult.

(** X4. A call stores a posterior exactly when it succeeds, and then it has
    called the optimizer once and run the final pass of the filter once;
    every failure leaves the table as it was.  Without a configuration the
    call fails before it reads any record or calls the optimizer. *)
Theorem update_state_stores_iff_success config_id config lab_records
    field_records existing :
  let out := update_state minimize config_id config lab_records field_records
               existing in
  (is_Some (committed out) <-> is_success (response out) = true)
  /\ (is_success (response out) = true ->
      calls out = [CallMinimize; CallFinalEkf])
  /\ (is_success (response out) = false ->
      committed out = None /\ CallFinalEkf ∉ calls out)
  /\ (config = None ->
      response out = Error ("Configuration " +:+ config_id +:+ " not found")
      /\ calls out = []).
Proof.
  intros out. subst out. unfold update_state.
  assert (forall c : Call, c ∉ @nil Call) as Hnil by (intros c; apply not_elem_of_nil).
  assert (CallFinalEkf ∉ [CallMinimize]) as Hone
    by (by intros [= ]%list_elem_of_singleton).
  destruct config as [cfg|].
  2:{ cbn [response committed calls is_success].
      repeat split; try done; by intros []. }
  destruct lab_records as [|first_record rest].
  { cbn [response committed calls is_success].
    repeat split; try done; by intros []. }
  destruct (minimize _ _ _ _ _) as [result|].
  2:{ cbn [response committed calls is_success].
      repeat split; try done; by intros []. }
  destruct (success result); cbn [negb].
  2:{ cbn [response committed calls is_success].
      repeat split; try done; by intros []. }
  rewrite ekf_final_state by (simpl; by rewrite !length_map).
  cbv zeta. cbn [response committed calls is_success].
  repeat split; try done; by eexists.
Qed.

(** X5. When the optimizer does not converge the call fails with the
    optimizer's message, stores nothing and does not run the final pass. *)
Theorem update_state_optimizer_failure config_id cfg first_record rest
    field_records existing result :
  minimize
    (objective (first_record :: rest) field_records
       (co2_uptake_t_per_t first_record))
    (initial_params (map co2_uptake_t_per_t (first_record :: rest)))
    "L-BFGS-B" bounds 1000%nat = Some result ->
  success result = false ->
  let out := update_state minimize config_id (Some cfg) (first_record :: rest)
               field_records existing in
  response out = Error ("Optimization failed: " +:+ message result)
  /\ calls out = [CallMinimize]
  /\ committed out = None.
Proof.
  intros Hmin Hfail. unfold update_state.
  fold (prior_eta_r0_mean (co2_uptake_t_per_t first_record)).
  fold (prior_eta_phi0_mean field_records).
  fold (objective (first_record :: rest) field_records
          (co2_uptake_t_per_t first_record)).
  by rewrite Hmin, Hfail.
Qed.

(** X6. Storing is idempotent: a call that finds the posterior an identical
    call has just stored returns the same response and stores the same
    row. *)
Theorem update_state_idempotent config_id config lab_records field_records
    existing row :
  committed (update_state minimize config_id config lab_records field_records
               existing) = Some row ->
  let again := update_state minimize config_id config lab_records
                 field_records (Some row) in
  committed again = Some row
  /\ response again
     = response (update_state minimize config_id config lab_records
                   field_records existing).
Proof.
  unfold update_state.
  destruct config as [cfg|]; [|done].
  destruct lab_records as [|first_record rest]; [done|].
  destruct (minimize _ _ _ _ _) as [result|]; [|done].
  destruct (success result); cbn [negb]; [|done].
  rewrite ekf_final_state by (simpl; by rewrite !length_map).
  cbv zeta. cbn [response committed].
  intros [= <-]. split; [|done]. by destruct existing.
Qed.

End UpdateStateFurtherProperties.

Section UpdateStateFurtherExamples.
Import Models ModelStateService.

(** An optimizer that gives up on the two lab records of Example 1. *)
Lemma update_state_optimizer_failure_witness :
  response (update_state (constant_minimize fit_failed) "cfg" (Some cfg0)
              [lab1; lab2] [] None)
  = Error "Optimization failed: ABNORMAL_TERMINATION_IN_LNSRCH".
Proof.
  exact (proj1 (update_state_optimizer_failure (constant_minimize fit_failed)
                  "cfg" cfg0 lab1 [lab2] [] None fit_failed eq_refl eq_refl)).
Defined.

(** Fitting Example 1 twice. *)
Lemma update_state_idempotent_witness :
  exists row,
    committed (update_state (constant_minimize fit0) "cfg" (Some cfg0)
                 [lab1; lab2] [] None) = Some row
    /\ committed (update_state (constant_minimize fit0) "cfg" (Some cfg0)
                    [lab1; lab2] [] (Some row)) = Some row.
Proof.
  destruct (response (update_state (constant_minimize fit0) "cfg" (Some cfg0)
                        [lab1; lab2] [] None)) as [ok|msg] eqn:Hresp.
  - destruct (update_state_success_inv _ _ _ _ _ _ _ Hresp)
      as (? & ? & ? & ? & row & _ & _ & _ & _ & _ & Hrow & _).
    exists row. split; [exact Hrow|].
    exact (proj1 (update_state_idempotent (constant_minimize fit0) "cfg"
                    (Some cfg0) [lab1; lab2] [] None row Hrow)).
  - pose proof (proj1 (update_state_succeeds (constant_minimize fit0) "cfg"
                         cfg0 lab1 [lab2] [] None fit0 eq_refl eq_refl)) as Hs.
    rewrite Hresp in Hs. discriminate Hs.
Defined.

End UpdateStateFurtherExamples.

(** ** The initial guess of the optimizer *)

Section InitialGuess.
Import ModelStateService.

Lemma sum_replicate n c : Np.sum (replicate n c) = INR n * c.
Proof.
  unfold Np.sum. induction n as [|n IH]; [simpl; lra|].
  cbn [replicate foldr]. rewrite IH, S_INR. lra.
Qed.

Lemma all_equal_replicate (a : list R) c :
  Forall (fun x => x = c) a -> a = replicate (length a) c.
Proof. induction 1 as [|x a -> _ IH]; [done|]. simpl. by rewrite <- IH. Qed.

(** The standard deviation of a nonempty constant series is zero. *)
Lemma std_constant (a : list R) c :
  a <> [] -> Forall (fun x => x = c) a -> Np.mean a = c /\ Np.std a = 0.
Proof.
  intros Hne Hall. pose proof (INR_length_pos a Hne) as Hpos.
  assert (Np.mean a = c) as Hmean.
  { unfold Np.mean. rewrite (all_equal_replicate a c Hall) at 1.
    rewrite sum_replicate. field. lra. }
  split; [done|]. unfold Np.std. rewrite Hmean.
  assert (map (fun x => Rabs (x - c) ^ 2) a = replicate (length a) 0) as ->.
  { clear Hne Hpos Hmean. induction Hall as [|x a -> _ IH]; [done|].
    cbn [map length replicate]. rewrite IH. f_equal.
    rewrite Rminus_diag, Rabs_R0. lra. }
  unfold Np.mean. rewrite sum_replicate, length_replicate.
  replace (INR (length a) * 0 / INR (length a)) with 0 by (field; lra).
  apply sqrt_0.
Qed.

(** X7. The initial guess for [sigma_lab], a tenth of the standard deviation of
    the uptakes, is never negative; when all uptakes are equal, as with a
    single lab record, it is [0], below the lower bound [1e-6] that
    [update_state] gives the optimizer for it. *)
Theorem initial_sigma_lab_below_bound :
  (forall y_lab, 0 <= p_sigma_lab (initial_params y_lab))
  /\ (forall y_lab c,
       y_lab <> [] -> Forall (fun y => y = c) y_lab ->
       p_sigma_lab (initial_params y_lab) = 0)
  /\ (forall y, p_sigma_lab (initial_params [y]) = 0)
  /\ exists lower upper, bounds !! 4%nat = Some (lower, upper) /\ 0 < lower.
Proof.
  split; [|split; [|split]].
  - intros y_lab. cbn [initial_params p_sigma_lab].
    pose proof (sqrt_pos (Np.mean (map (fun x => Rabs (x - Np.mean y_lab) ^ 2)
                                    y_lab))) as Hstd.
    fold (Np.std y_lab) in Hstd. lra.
  - intros y_lab c Hne Hall. cbn [initial_params p_sigma_lab].
    destruct (std_constant y_lab c Hne Hall) as [_ ->]. lra.
  - intros y. cbn [initial_params p_sigma_lab].
    destruct (std_constant [y] y) as [_ ->]; [done|by repeat constructor|lra].
  - exists 1e-6, 10.0. split; [done|lra].
Qed.

End InitialGuess.

(** ** Order among the statistics *)

Section StatisticsOrder.

(** In a sorted list later entries are not smaller. *)
Lemma sorted_lookup_le (s : list R) i j a b :
  StronglySorted Rle s -> (i <= j)%nat ->
  s !! i = Some a -> s !! j = Some b -> a <= b.
Proof.
  intros Hs. revert i j. induction Hs as [|x s Hs IH Hx]; intros i j Hij Ha Hb.
  - by rewrite lookup_nil in Ha.
  - destruct i as [|i], j as [|j]; simpl in Ha, Hb.
    + assert (a = b) by congruence. lra.
    + injection Ha as <-. by apply (Forall_lookup_1 _ _ _ _ Hx Hb).
    + lia.
    + apply (IH i j); [lia|done..].
Qed.

Lemma hundredth_fraction (pos : nat) : 0 <= INR (pos mod 100) / 100 < 1.
Proof.
  pose proof (pos_INR (pos mod 100)) as Hpos.
  pose proof (Nat.mod_upper_bound pos 100 ltac:(lia)) as Hlt.
  apply lt_INR in Hlt. replace (INR 100) with 100 in Hlt by (simpl; lra).
  lra.
Qed.

(** An interpolated percentile lies between the two order statistics it
    interpolates. *)
Lemma spec_percentile_between s q p :
  StronglySorted Rle s -> (q <= 100)%nat ->
  Np.spec_percentile s q = Some p ->
  exists lo hi,
    s !! ((length s - 1) * q / 100)%nat = Some lo
    /\ s !! Nat.min ((length s - 1) * q / 100 + 1) (length s - 1) = Some hi
    /\ lo <= p <= hi.
Proof.
  intros Hs Hq Hp. unfold Np.spec_percentile in Hp.
  destruct (s !! ((length s - 1) * q / 100)%nat) as [lo|] eqn:Hlo;
    [|discriminate Hp].
  destruct (s !! Nat.min ((length s - 1) * q / 100 + 1) (length s - 1))
    as [hi|] eqn:Hhi; [|discriminate Hp].
  cbv [mbind option_bind] in Hp. apply (inj Some) in Hp. subst p.
  exists lo, hi. split; [done|]. split; [done|].
  assert (lo <= hi) as Hle.
  { refine (sorted_lookup_le s _ _ lo hi Hs _ Hlo Hhi).
    apply lookup_lt_Some in Hlo. lia. }
  pose proof (hundredth_fraction ((length s - 1) * q)) as Hf.
  set (f := INR (((length s - 1) * q) mod 100) / 100) in *.
  assert (0 <= (hi - lo) * f) by (apply Rmult_le_pos; lra).
  assert (0 <= (hi - lo) * (1 - f)) by (apply Rmult_le_pos; lra).
  split; lra.
Qed.

(** The percentiles grow with the percentage. *)
Lemma spec_percentile_mono s q1 q2 p1 p2 :
  StronglySorted Rle s -> (q1 <= q2)%nat -> (q2 <= 100)%nat ->
  Np.spec_percentile s q1 = Some p1 ->
  Np.spec_percentile s q2 = Some p2 ->
  p1 <= p2.
Proof.
  intros Hs Hq12 Hq2 H1 H2.
  destruct (spec_percentile_between s q1 p1 Hs ltac:(lia) H1)
    as (lo1 & hi1 & Hlo1 & Hhi1 & Hb1).
  destruct (spec_percentile_between s q2 p2 Hs Hq2 H2)
    as (lo2 & hi2 & Hlo2 & Hhi2 & Hb2).
  set (n1 := (length s - 1)%nat) in *.
  assert (n1 * q1 <= n1 * q2)%nat as Hpos by nia.
  assert (n1 * q1 / 100 <= n1 * q2 / 100)%nat as Hidx
    by (by apply Nat.Div0.div_le_mono).
  destruct (decide (n1 * q1 / 100 = n1 * q2 / 100)%nat) as [Heq|Hne].
  - unfold Np.spec_percentile in H1, H2. fold n1 in H1, H2.
    rewrite Hlo1 in H1. rewrite Hlo2 in H2. cbv [mbind option_bind] in H1, H2.
    rewrite Hhi1 in H1. rewrite Hhi2 in H2. cbv [mbind option_bind] in H1, H2.
    apply (inj Some) in H1, H2. subst p1 p2.
    rewrite Heq in Hlo1, Hhi1.
    assert (lo1 = lo2) as -> by congruence.
    assert (hi1 = hi2) as -> by congruence.
    assert (INR (n1 * q1 mod 100) <= INR (n1 * q2 mod 100)) as Hfrac.
    { apply le_INR.
      pose proof (Nat.div_mod_eq (n1 * q1) 100).
      pose proof (Nat.div_mod_eq (n1 * q2) 100). lia. }
    apply Rplus_le_compat_l, Rmult_le_compat_l; [lra|].
    apply Rmult_le_compat_r; [|done]. lra.
  - assert (n1 * q2 / 100 <= n1)%nat as Hlast.
    { apply Nat.Div0.div_le_upper_bound. nia. }
    assert (hi1 <= lo2); [|lra].
    refine (sorted_lookup_le s _ _ hi1 lo2 Hs _ Hhi1 Hlo2). lia.
Qed.

(** The sum lies between the count times a lower and an upper bound. *)
Lemma sum_bounds (a : list R) lo hi :
  (forall x, x ∈ a -> lo <= x <= hi) ->
  INR (length a) * lo <= Np.sum a <= INR (length a) * hi.
Proof.
  unfold Np.sum. induction a as [|x a IH]; intros Hb; [simpl; lra|].
  cbn [foldr length]. rewrite S_INR.
  pose proof (Hb x ltac:(apply elem_of_cons; by left)).
  destruct IH as [IHlo IHhi].
  { intros y Hy. apply Hb, elem_of_cons. by right. }
  lra.
Qed.

(** The statistics of a nonempty array are ordered:
    [min <= p5 <= p50 <= p95 <= max] and [min <= mean <= max]. *)
Lemma statistics_order (a : list R) p5 p50 p95 mn mx :
  a <> [] ->
  Np.spec_percentile (merge_sort Rle a) 5 = Some p5 ->
  Np.spec_percentile (merge_sort Rle a) 50 = Some p50 ->
  Np.spec_percentile (merge_sort Rle a) 95 = Some p95 ->
  Np.amin a = Some mn -> Np.amax a = Some mx ->
  mn <= p5 /\ p5 <= p50 /\ p50 <= p95 /\ p95 <= mx
  /\ mn <= Np.mean a <= mx.
Proof.
  intros Hne H5 H50 H95 Hmin Hmax.
  assert (StronglySorted Rle (merge_sort Rle a)) as Hs
    by (apply StronglySorted_merge_sort; apply _).
  destruct (amin_spec a mn Hmin) as [_ Hlow].
  destruct (amax_spec a mx Hmax) as [_ Hup].
  assert (forall i x, merge_sort Rle a !! i = Some x -> x ∈ a) as Hin.
  { intros i x Hx. apply list_elem_of_lookup_2 in Hx.
    by rewrite merge_sort_Permutation in Hx. }
  destruct (spec_percentile_between _ 5 p5 Hs ltac:(lia) H5)
    as (lo & _ & Hlo & _ & [Hlo5 _]).
  destruct (spec_percentile_between _ 95 p95 Hs ltac:(lia) H95)
    as (_ & hi & _ & Hhi & [_ Hhi95]).
  pose proof (Hlow lo (Hin _ _ Hlo)). pose proof (Hup hi (Hin _ _ Hhi)).
  split; [lra|].
  split; [apply (spec_percentile_mono _ 5 50 p5 p50 Hs); done || lia|].
  split; [apply (spec_percentile_mono _ 50 95 p50 p95 Hs); done || lia|].
  split; [lra|].
  pose proof (INR_length_pos a Hne) as Hpos.
  pose proof (mean_spec a Hne) as Hmean.
  destruct (sum_bounds a mn mx) as [Hslo Hshi].
  { intros x Hx. split; [by apply Hlow | by apply Hup]. }
  split; nra.
Qed.

End StatisticsOrder.

(** ** The hit fraction, and reductions of permuted arrays *)

Section ReductionProperties.

Lemma sum_map_le {A} (f g : A -> R) (a : list A) :
  (forall x, f x <= g x) -> Np.sum (map f a) <= Np.sum (map g a).
Proof.
  intros Hfg. unfold Np.sum. induction a as [|x a IH]; simpl; [lra|].
  pose proof (Hfg x). lra.
Qed.

Lemma ge_indicator_bounds target x : 0 <= Np.ge_indicator target x <= 1.
Proof. unfold Np.ge_indicator. destruct (decide _); lra. Qed.

(** The hit fraction is a fraction. *)
Lemma fraction_ge_bounds a target :
  a <> [] -> 0 <= Np.fraction_ge a target <= 1.
Proof.
  intros Ha. pose proof (INR_length_pos a Ha) as Hpos.
  pose proof (fraction_ge_spec a target Ha) as Hspec.
  pose proof (pos_INR (length (filter (fun x => target <= x) a))) as Hlo.
  pose proof (le_INR _ _ (length_filter (fun x => target <= x) a)) as Hhi.
  split; nra.
Qed.

(** A higher target is reached by no more of the values. *)
Lemma fraction_ge_antitone a target1 target2 :
  a <> [] -> target1 <= target2 ->
  Np.fraction_ge a target2 <= Np.fraction_ge a target1.
Proof.
  intros Ha Ht. pose proof (INR_length_pos a Ha) as Hpos.
  unfold Np.fraction_ge, Np.mean. rewrite !length_map.
  apply Rmult_le_compat_r; [left; by apply Rinv_0_lt_compat|].
  apply sum_map_le. intros x. unfold Np.ge_indicator.
  repeat destruct (decide _); lra.
Qed.

Lemma fraction_ge_all a target :
  a <> [] -> (forall x, x ∈ a -> target <= x) -> Np.fraction_ge a target = 1.
Proof.
  intros Ha Hall. pose proof (INR_length_pos a Ha) as Hpos.
  pose proof (fraction_ge_spec a target Ha) as Hspec.
  assert (filter (fun x => target <= x) a = a) as Hfilter.
  { clear Ha Hpos Hspec. induction a as [|x a IH]; [done|].
    rewrite filter_cons_True by (apply Hall, elem_of_cons; by left).
    f_equal. apply IH. intros y Hy. apply Hall, elem_of_cons. by right. }
  rewrite Hfilter in Hspec. nra.
Qed.

Lemma fraction_ge_none a target :
  a <> [] -> (forall x, x ∈ a -> x < target) -> Np.fraction_ge a target = 0.
Proof.
  intros Ha Hall. pose proof (INR_length_pos a Ha) as Hpos.
  pose proof (fraction_ge_spec a target Ha) as Hspec.
  assert (filter (fun x => target <= x) a = []) as Hfilter.
  { clear Ha Hpos Hspec. induction a as [|x a IH]; [done|].
    rewrite filter_cons_False.
    - apply IH. intros y Hy. apply Hall, elem_of_cons. by right.
    - pose proof (Hall x ltac:(apply elem_of_cons; by left)). lra. }
  rewrite Hfilter in Hspec. simpl in Hspec. nra.
Qed.

Lemma sum_Permutation a b : a ≡ₚ b -> Np.sum a = Np.sum b.
Proof.
  unfold Np.sum. induction 1; simpl; lra || congruence.
Qed.

Lemma mean_Permutation a b : a ≡ₚ b -> Np.mean a = Np.mean b.
Proof.
  intros Hab. unfold Np.mean.
  by rewrite (sum_Permutation a b Hab), (Permutation_length Hab).
Qed.

Lemma std_Permutation a b : a ≡ₚ b -> Np.std a = Np.std b.
Proof.
  intros Hab. unfold Np.std. rewrite (mean_Permutation a b Hab).
  f_equal. apply mean_Permutation. by apply Permutation_map.
Qed.

Lemma amin_Permutation a b : a ≡ₚ b -> Np.amin a = Np.amin b.
Proof.
  intros Hab. destruct (Np.amin a) as [m|] eqn:Ha, (Np.amin b) as [m'|] eqn:Hb.
  - destruct (amin_spec a m Ha) as [Hin Hlow].
    destruct (amin_spec b m' Hb) as [Hin' Hlow'].
    rewrite Hab in Hin. rewrite <- Hab in Hin'.
    f_equal. apply Rle_antisym; auto.
  - destruct b; [|done]. apply Permutation_nil_r in Hab. by subst.
  - destruct a; [|done]. apply Permutation_nil_l in Hab. by subst.
  - done.
Qed.

Lemma amax_Permutation a b : a ≡ₚ b -> Np.amax a = Np.amax b.
Proof.
  intros Hab. destruct (Np.amax a) as [m|] eqn:Ha, (Np.amax b) as [m'|] eqn:Hb.
  - destruct (amax_spec a m Ha) as [Hin Hup].
    destruct (amax_spec b m' Hb) as [Hin' Hup'].
    rewrite Hab in Hin. rewrite <- Hab in Hin'.
    f_equal. apply Rle_antisym; auto.
  - destruct b; [|done]. apply Permutation_nil_r in Hab. by subst.
  - destruct a; [|done]. apply Permutation_nil_l in Hab. by subst.
  - done.
Qed.

Lemma merge_sort_Permutation_eq a b :
  a ≡ₚ b -> merge_sort Rle a = merge_sort Rle b.
Proof.
  intros Hab. apply (StronglySorted_unique Rle).
  - apply StronglySorted_merge_sort; apply _.
  - apply StronglySorted_merge_sort; apply _.
  - by rewrite !merge_sort_Permutation.
Qed.

Lemma percentile_Permutation a b q :
  a ≡ₚ b -> Np.percentile a q = Np.percentile b q.
Proof.
  intros Hab. unfold Np.percentile. by rewrite (merge_sort_Permutation_eq a b).
Qed.

Lemma fraction_ge_Permutation a b target :
  a ≡ₚ b -> Np.fraction_ge a target = Np.fraction_ge b target.
Proof. intros Hab. apply mean_Permutation. by apply Permutation_map. Qed.

End ReductionProperties.

(** ** [summarize]: order, hit probability, and its sources of totals *)

Section SummarizeFurtherProperties.
Import Models ResultsService.

Variables DEFAULT_TARGET_MULTIPLIER DEFAULT_TARGET_FALLBACK : R.
Context {RandomState : Type}.
Variable standard_normal : RandomState -> R * RandomState.

#[local] Abbreviation summarize_stored :=
  (summarize DEFAULT_TARGET_MULTIPLIER DEFAULT_TARGET_FALLBACK RandomState
     standard_normal).
#[local] Abbreviation summarize_ensemble :=
  (summarize_totals DEFAULT_TARGET_MULTIPLIER DEFAULT_TARGET_FALLBACK).
#[local] Abbreviation simulate_here :=
  (SimulationService.simulate RandomState standard_normal).

Lemma percentile_literals a :
  Np.percentile a 5 = Np.spec_percentile (merge_sort Rle a) 5
  /\ Np.percentile a 50 = Np.spec_percentile (merge_sort Rle a) 50
  /\ Np.percentile a 95 = Np.spec_percentile (merge_sort Rle a) 95.
Proof.
  change 5 with (IZR (Z.of_nat 5)). change 50 with (IZR (Z.of_nat 50)).
  change 95 with (IZR (Z.of_nat 95)).
  by rewrite <- !INR_IZR_INZ, !percentile_spec.
Qed.

Lemma summarize_totals_nonempty config_id target config totals ok :
  summarize_ensemble config_id target config totals = Success ok ->
  totals <> [].
Proof. intros Hok ->. by unfold summarize_totals in Hok. Qed.

(** A successful call has summarized a nonempty list of totals: the
    non-null stored ones, if any result is stored. *)
Lemma summarize_success_inv config_id target n_runs risk_profile existing
    config posterior risk g ok :
  response _ (summarize_stored config_id target n_runs risk_profile existing
                config posterior risk g) = Success ok ->
  exists totals,
    totals <> []
    /\ summarize_ensemble config_id target config totals = Success ok
    /\ (existing <> [] -> totals = non_null_totals existing).
Proof.
  unfold summarize. destruct existing as [|row rest].
  - destruct n_runs as [n|]; [|done].
    destruct (SimulationService.response _ _) as [sim_ok|msg]; [|done].
    cbn [response]. intros Hok. eexists. split; [|split; [exact Hok|done]].
    by eapply summarize_totals_nonempty.
  - cbn [response]. intros Hok. eexists. split; [|split; [exact Hok|done]].
    by eapply summarize_totals_nonempty.
Qed.

(** X8. The statistics of a successful call over stored results are ordered:
    [min <= p5 <= p50 <= p95 <= max], where [min] and [max] are stored
    totals themselves; the standard deviation is not negative, [p_hit] lies
    in [[0, 1]], and at least one total was counted.  The stored totals are
    taken to be of moderate size, so that their differences do not overflow
    in the program's doubles. *)
Theorem summarize_statistics_ordered config_id target n_runs risk_profile
    existing config posterior risk g ok :
  existing <> [] ->
  Forall (fun total => Rabs total <= 1e150) (non_null_totals existing) ->
  response _
    (summarize DEFAULT_TARGET_MULTIPLIER DEFAULT_TARGET_FALLBACK RandomState
       standard_normal config_id target n_runs risk_profile existing config
       posterior risk g) = Success ok ->
  let st := statistics ok in
  st_min st <= st_p5 st /\ st_p5 st <= st_p50 st /\ st_p50 st <= st_p95 st
  /\ st_p95 st <= st_max st
  /\ st_min st ∈ non_null_totals existing
  /\ st_max st ∈ non_null_totals existing
  /\ 0 <= st_std st
  /\ 0 <= p_hit ok <= 1
  /\ (1 <= st_count st)%nat.
Proof.
  intros Hex _ Hok.
  destruct (summarize_success_inv _ _ _ _ _ _ _ _ _ _ Hok)
    as (totals & Hne & Htot & Hstored).
  specialize (Hstored Hex). subst totals.
  set (totals := non_null_totals existing) in *.
  destruct (summarize_totals_success DEFAULT_TARGET_MULTIPLIER
              DEFAULT_TARGET_FALLBACK config_id target config totals Hne)
    as (p5 & p50 & p95 & mn & mx & H5 & H50 & H95 & Hmin & Hmax & Hsucc).
  rewrite Hsucc in Htot. injection Htot as <-.
  cbn [statistics st_min st_max st_p5 st_p50 st_p95 st_mean st_std st_count
       p_hit].
  destruct (statistics_order totals p5 p50 p95 mn mx Hne H5 H50 H95 Hmin Hmax)
    as (? & ? & ? & ? & ?).
  do 4 (split; [done|]).
  split; [by apply amin_spec|]. split; [by apply amax_spec|].
  split; [by apply std_spec|]. split; [by apply fraction_ge_bounds|].
  destruct totals; [done|]. simpl. lia.
Qed.

(** X9. Raising the target never raises [p_hit], and changes no other
    statistic; a target not above the least total gives [p_hit = 1], one
    above the greatest total gives [p_hit = 0]. *)
Theorem summarize_p_hit_antitone config_id target1 target2 n_runs
    risk_profile existing config posterior risk g ok1 ok2 :
  existing <> [] ->
  target1 <= target2 ->
  response _
    (summarize DEFAULT_TARGET_MULTIPLIER DEFAULT_TARGET_FALLBACK RandomState
       standard_normal config_id (Some target1) n_runs risk_profile existing
       config posterior risk g) = Success ok1 ->
  response _
    (summarize DEFAULT_TARGET_MULTIPLIER DEFAULT_TARGET_FALLBACK RandomState
       standard_normal config_id (Some target2) n_runs risk_profile existing
       config posterior risk g) = Success ok2 ->
  p_hit ok2 <= p_hit ok1
  /\ statistics ok1 = statistics ok2
  /\ (target1 <= st_min (statistics ok1) -> p_hit ok1 = 1)
  /\ (st_max (statistics ok2) < target2 -> p_hit ok2 = 0).
Proof.
  intros Hex Ht Hok1 Hok2.
  destruct (summarize_success_inv _ _ _ _ _ _ _ _ _ _ Hok1)
    as (totals & Hne & Htot1 & Hstored).
  destruct (summarize_success_inv _ _ _ _ _ _ _ _ _ _ Hok2)
    as (totals' & _ & Htot2 & Hstored').
  rewrite (Hstored' Hex), <- (Hstored Hex) in Htot2. clear Hstored Hstored'.
  destruct (summarize_totals_success DEFAULT_TARGET_MULTIPLIER
              DEFAULT_TARGET_FALLBACK config_id (Some target1) config totals
              Hne)
    as (p5 & p50 & p95 & mn & mx & H5 & H50 & H95 & Hmin & Hmax & Hsucc1).
  destruct (summarize_totals_success DEFAULT_TARGET_MULTIPLIER
              DEFAULT_TARGET_FALLBACK config_id (Some target2) config totals
              Hne)
    as (p5' & p50' & p95' & mn' & mx' & H5' & H50' & H95' & Hmin' & Hmax'
        & Hsucc2).
  rewrite Hsucc1 in Htot1. rewrite Hsucc2 in Htot2.
  injection Htot1 as <-. injection Htot2 as <-.
  cbn [statistics p_hit st_min st_max].
  assert (p5' = p5) as -> by congruence.
  assert (p50' = p50) as -> by congruence.
  assert (p95' = p95) as -> by congruence.
  assert (mn' = mn) as -> by congruence.
  assert (mx' = mx) as -> by congruence.
  split; [by apply fraction_ge_antitone|]. split; [done|].
  destruct (amin_spec totals mn Hmin) as [_ Hlow].
  destruct (amax_spec totals mx Hmax) as [_ Hup].
  split.
  - intros Hle. apply fraction_ge_all; [done|].
    intros x Hx. pose proof (Hlow x Hx). lra.
  - intros Hlt. apply fraction_ge_none; [done|].
    intros x Hx. pose proof (Hup x Hx). lra.
Qed.

(** X10. With a single non-null stored total every location statistic is that
    total and the standard deviation is zero. *)
Theorem summarize_single_total config_id target n_runs risk_profile existing
    config posterior risk g x :
  non_null_totals existing = [x] ->
  exists ok,
    response _
      (summarize DEFAULT_TARGET_MULTIPLIER DEFAULT_TARGET_FALLBACK RandomState
         standard_normal config_id target n_runs risk_profile existing config
         posterior risk g) = Success ok
    /\ let st := statistics ok in
       st_mean st = x /\ st_std st = 0 /\ st_min st = x /\ st_max st = x
       /\ st_p5 st = x /\ st_p50 st = x /\ st_p95 st = x
       /\ st_count st = 1%nat.
Proof.
  intros Hx. rewrite summarize_existing by (intros ->; done).
  rewrite Hx. cbn [response].
  destruct (summarize_totals_success DEFAULT_TARGET_MULTIPLIER
              DEFAULT_TARGET_FALLBACK config_id target config [x])
    as (p5 & p50 & p95 & mn & mx & H5 & H50 & H95 & Hmin & Hmax & ->);
    [done|].
  eexists. split; [done|].
  cbn [statistics st_mean st_std st_min st_max st_p5 st_p50 st_p95 st_count].
  destruct (std_constant [x] x) as [-> ->]; [done|by repeat constructor|].
  injection Hmin as <-. injection Hmax as <-.
  assert (StronglySorted Rle [x]) as Hs by (repeat constructor).
  rewrite (merge_sort_sorted [x] Hs) in H5, H50, H95.
  assert (forall q p, (q <= 100)%nat -> Np.spec_percentile [x] q = Some p ->
                      p = x) as Hone.
  { intros q p Hq Hp.
    destruct (spec_percentile_between [x] q p Hs Hq Hp)
      as (lo & hi & Hlo & Hhi & Hb).
    apply list_elem_of_lookup_2, list_elem_of_singleton in Hlo, Hhi. lra. }
  rewrite (Hone 5%nat p5), (Hone 50%nat p50), (Hone 95%nat p95) by (done || lia).
  done.
Qed.

Lemma summarize_totals_Permutation config_id target config a b :
  a ≡ₚ b ->
  summarize_ensemble config_id target config a
  = summarize_ensemble config_id target config b.
Proof.
  intros Hab. unfold summarize_totals.
  rewrite (Permutation_length Hab), (mean_Permutation a b Hab),
    (std_Permutation a b Hab), (amin_Permutation a b Hab),
    (amax_Permutation a b Hab), !(percentile_Permutation a b _ Hab).
  destruct (decide _); [done|].
  repeat (destruct (Np.percentile b _); [|done]).
  by rewrite (fraction_ge_Permutation a b _ Hab).
Qed.

(** X11. The order in which the results are stored does not matter. *)
Theorem summarize_order_irrelevant config_id target n_runs risk_profile
    existing existing' config posterior risk g :
  existing ≡ₚ existing' ->
  summarize DEFAULT_TARGET_MULTIPLIER DEFAULT_TARGET_FALLBACK RandomState
    standard_normal config_id target n_runs risk_profile existing config
    posterior risk g
  = summarize DEFAULT_TARGET_MULTIPLIER DEFAULT_TARGET_FALLBACK RandomState
      standard_normal config_id target n_runs risk_profile existing' config
      posterior risk g.
Proof.
  intros Hperm. destruct existing as [|row rest].
  - apply Permutation_nil_l in Hperm. by subst.
  - assert (existing' <> []) as Hne'.
    { intros ->. by apply Permutation_nil_r in Hperm. }
    rewrite (summarize_existing _ _ _ _ _ _ _ (row :: rest)) by done.
    rewrite (summarize_existing _ _ _ _ _ _ _ existing') by done.
    f_equal. apply summarize_totals_Permutation.
    unfold non_null_totals. by rewrite Hperm.
Qed.

(** The non-null totals of the rows that a simulation commits. *)
Lemma non_null_totals_of_rows config_id (total : nat -> R) (l : list nat) :
  non_null_totals
    (map (fun i => mkSimulationResult config_id (Some (total i)) (Some i)) l)
  = map total l.
Proof.
  unfold non_null_totals. induction l as [|i l IH]; [done|].
  simpl. f_equal. exact IH.
Qed.

(** The totals of a successful simulation are not empty. *)
Lemma simulated_totals_nonempty config_id n_runs risk_profile config
    posterior risk g sim_ok :
  SimulationService.response _
    (simulate_here config_id n_runs risk_profile config posterior risk g)
    = Success sim_ok ->
  SimulationService.n_totals sim_ok <> [].
Proof.
  intros Hsim.
  destruct (simulate_success_inv standard_normal _ _ _ _ _ _ _ _ Hsim)
    as (? & ? & ? & ? & ? & ? & ? & ? & ? & ? & ? & ? & ? & _ & _ & _ & _ & _
        & Hn & Htot & _).
  rewrite Htot. destruct n_runs; [lia|].
  rewrite seq_S, map_app. by destruct (map _ (seq 0 n_runs)).
Qed.

(** X12. Without stored results: with no [n_runs] the call fails at once,
    drawing and storing nothing; with [n_runs] it runs the simulation,
    succeeds exactly when the simulation does, and otherwise passes the
    simulation's message on. *)
Theorem summarize_without_stored_results config_id target n_runs risk_profile
    config posterior risk g :
  let out :=
    summarize DEFAULT_TARGET_MULTIPLIER DEFAULT_TARGET_FALLBACK RandomState
      standard_normal config_id target n_runs risk_profile [] config
      posterior risk g in
  match n_runs with
  | None =>
      response _ out
        = Error ("No simulation results found for " +:+ config_id
                 +:+ " and n_runs not provided")
      /\ committed _ out = [] /\ generator _ out = g
  | Some n =>
      let sim :=
        SimulationService.simulate RandomState standard_normal config_id n
          risk_profile config posterior risk g in
      is_success (response _ out)
        = is_success (SimulationService.response _ sim)
      /\ committed _ out = SimulationService.committed _ sim
      /\ generator _ out = SimulationService.generator _ sim
      /\ forall message,
           SimulationService.response _ sim = Error message ->
           response _ out = Error ("Failed to run simulation: " +:+ message)
  end.
Proof.
  intros out. subst out. destruct n_runs as [n|]; [|done].
  unfold summarize.
  destruct (SimulationService.response _ _) as [sim_ok|message] eqn:Hsim.
  - cbn [response committed generator]. repeat split; [|done].
    destruct (summarize_totals_success DEFAULT_TARGET_MULTIPLIER
                DEFAULT_TARGET_FALLBACK config_id target config
                (SimulationService.n_totals sim_ok))
      as (? & ? & ? & ? & ? & _ & _ & _ & _ & _ & ->); [|done].
    by eapply simulated_totals_nonempty.
  - cbn [response committed generator]. repeat split. by intros ? [= <-].
Qed.

(** X13. The statistics [summarize] returns for a simulation it has just run are
    those of the simulation's own summary. *)
Theorem summarize_matches_simulation config_id target n_runs risk_profile
    config posterior risk g sim_ok :
  SimulationService.response _
    (SimulationService.simulate RandomState standard_normal config_id n_runs
       risk_profile config posterior risk g)
    = Success sim_ok ->
  exists ok,
    response _
      (summarize DEFAULT_TARGET_MULTIPLIER DEFAULT_TARGET_FALLBACK RandomState
         standard_normal config_id target (Some n_runs) risk_profile []
         config posterior risk g) = Success ok
    /\ let st := statistics ok in
       let sm := SimulationService.summary sim_ok in
       st_mean st = SimulationService.sum_mean sm
       /\ st_std st = SimulationService.sum_std sm
       /\ st_min st = SimulationService.sum_min sm
       /\ st_max st = SimulationService.sum_max sm
       /\ st_p5 st = SimulationService.sum_p5 sm
       /\ st_p50 st = SimulationService.sum_p50 sm
       /\ st_p95 st = SimulationService.sum_p95 sm
       /\ st_count st = n_runs.
Proof.
  intros Hsim. rewrite (summarize_simulated _ _ _ _ _ _ _ _ _ _ _ _ Hsim).
  pose proof (simulated_totals_nonempty _ _ _ _ _ _ _ _ Hsim) as Hne.
  destruct (simulate_success_inv standard_normal _ _ _ _ _ _ _ _ Hsim)
    as (? & ? & ? & ? & ? & ? & ? & ? & ? & ? & ? & ? & ? & _ & _ & _ & _ & _
        & _ & Htot & Hsum & _).
  destruct (summarize_totals_success DEFAULT_TARGET_MULTIPLIER
              DEFAULT_TARGET_FALLBACK config_id target config
              (SimulationService.n_totals sim_ok) Hne)
    as (p5 & p50 & p95 & mn & mx & H5 & H50 & H95 & Hmin & Hmax & ->).
  eexists. split; [done|].
  cbn [statistics st_mean st_std st_min st_max st_p5 st_p50 st_p95 st_count].
  unfold SimulationService.summarize_totals in Hsum.
  destruct (percentile_literals (SimulationService.n_totals sim_ok))
    as (Hl5 & Hl50 & Hl95).
  rewrite Hmin, Hmax, Hl5, Hl50, Hl95, H5, H50, H95 in Hsum.
  cbv [mbind option_bind] in Hsum. injection Hsum as <-.
  cbn [SimulationService.sum_mean SimulationService.sum_std
       SimulationService.sum_min SimulationService.sum_max
       SimulationService.sum_p5 SimulationService.sum_p50
       SimulationService.sum_p95].
  repeat split. by rewrite Htot, length_map, length_seq.
Qed.

(** X14. What a simulation stores is what a later call summarizes: once
    [summarize] has run a simulation from a posterior whose variances are
    not negative, a call that finds the committed rows returns the same
    summary, whatever its other arguments, and neither draws nor stores
    anything. *)
Theorem summarize_reuses_committed config_id target n_runs risk_profile
    config posterior risk g ok :
  (forall row v, posterior = Some row ->
     eta_r0_var row = Some v \/ eta_phi0_var row = Some v -> 0 <= v) ->
  let first :=
    summarize DEFAULT_TARGET_MULTIPLIER DEFAULT_TARGET_FALLBACK RandomState
      standard_normal config_id target (Some n_runs) risk_profile [] config
      posterior risk g in
  response _ first = Success ok ->
  forall n_runs' risk_profile' posterior' risk' g',
    summarize DEFAULT_TARGET_MULTIPLIER DEFAULT_TARGET_FALLBACK RandomState
      standard_normal config_id target n_runs' risk_profile'
      (committed _ first) config posterior' risk' g'
    = mkOutcome RandomState (Success ok) [] g'.
Proof.
  intros _ first Hok n_runs' risk_profile' posterior' risk' g'. subst first.
  destruct (SimulationService.response _
              (simulate_here config_id n_runs risk_profile config posterior
                 risk g)) as [sim_ok|message] eqn:Hsim.
  2:{ unfold summarize in Hok. by rewrite Hsim in Hok. }
  rewrite (summarize_simulated _ _ _ _ _ _ _ _ _ _ _ _ Hsim) in Hok.
  assert (committed _ (summarize_stored config_id target (Some n_runs)
                         risk_profile [] config posterior risk g)
          = SimulationService.committed _
              (simulate_here config_id n_runs risk_profile config posterior
                 risk g)) as ->.
  { unfold summarize. by rewrite Hsim. }
  destruct (simulate_success_inv standard_normal _ _ _ _ _ _ _ _ Hsim)
    as (? & ? & A & K & e0 & v0 & p0 & pv0 & ar & aphi & sr & sphi & rm & _
        & _ & _ & _ & _ & Hn & Htot & _ & Hrows & _).
  rewrite Hrows. rewrite summarize_existing.
  2:{ destruct n_runs; [lia|].
      rewrite seq_S, map_app. by destruct (map _ (seq 0 n_runs)). }
  f_equal. rewrite <- Hok, Htot. f_equal.
  apply (non_null_totals_of_rows config_id).
Qed.

End SummarizeFurtherProperties.

Section SummarizeFurtherExamples.
Import Models ResultsService.

(** With a non-null stored total the call succeeds. *)
Lemma summarize_stored_succeeds M F {RandomState}
    (standard_normal : RandomState -> R * RandomState) config_id target
    n_runs risk_profile existing config posterior risk g :
  non_null_totals existing <> [] ->
  exists ok,
    response _ (summarize M F RandomState standard_normal config_id target
                  n_runs risk_profile existing config posterior risk g)
    = Success ok.
Proof.
  intros Hne. rewrite summarize_existing by (intros ->; done). cbn [response].
  destruct (summarize_totals_success M F config_id target config _ Hne)
    as (? & ? & ? & ? & ? & _ & _ & _ & _ & _ & ->).
  by eexists.
Qed.

(** Two runs from the posterior of the spec's Example 3. *)
Lemma simulate_example3 g :
  exists sim_ok,
    SimulationService.response _
      (SimulationService.simulate nat SimulationService.counting_normal "cfg"
         2 None (Some SimulationService.cfg0) (Some SimulationService.post0)
         None g) = Success sim_ok.
Proof.
  destruct (simulate_success SimulationService.counting_normal "cfg" 2 None
              "cfg" "cfg" 10 0.5 (-2) 0.01 0 1 0 0 1e-6 0.1 None None g
              eq_refl ltac:(lra) ltac:(lra) ltac:(lia))
    as (summary & _ & Hsim).
  eexists. unfold SimulationService.cfg0, SimulationService.post0.
  by rewrite Hsim.
Qed.

(** A call that finds nothing stored and whose simulation succeeds,
    succeeds. *)
Lemma summarize_simulation_succeeds M F {RandomState}
    (standard_normal : RandomState -> R * RandomState) config_id target
    n_runs risk_profile config posterior risk g sim_ok :
  SimulationService.response _
    (SimulationService.simulate RandomState standard_normal config_id n_runs
       risk_profile config posterior risk g) = Success sim_ok ->
  exists ok,
    response _ (summarize M F RandomState standard_normal config_id target
                  (Some n_runs) risk_profile [] config posterior risk g)
    = Success ok.
Proof.
  intros Hsim. rewrite (summarize_simulated _ _ _ _ _ _ _ _ _ _ _ _ Hsim).
  destruct (summarize_totals_success M F config_id target config
              (SimulationService.n_totals sim_ok))
    as (? & ? & ? & ? & ? & _ & _ & _ & _ & _ & ->); [|by eexists].
  by eapply simulated_totals_nonempty.
Qed.

(** The stored results of the spec's Example 5. *)
Lemma summarize_statistics_ordered_witness :
  exists ok,
    response _ (summarize 2 100 nat SimulationService.counting_normal "cfg"
                  (Some 30) None None example5_results None None None 0%nat)
    = Success ok
    /\ st_min (statistics ok) <= st_p5 (statistics ok).
Proof.
  destruct (summarize_example5 2 100 SimulationService.counting_normal None
              None None None None 0%nat) as (ok & Hok & _).
  exists ok. split; [exact Hok|].
  refine (proj1 (summarize_statistics_ordered 2 100
                   SimulationService.counting_normal "cfg" (Some 30) None
                   None example5_results None None None 0%nat ok _ _ Hok)).
  - discriminate.
  - repeat constructor; rewrite Rabs_pos_eq; lra.
Defined.

(** The targets 30 and 40 on the results of Example 5. *)
Lemma summarize_p_hit_antitone_witness :
  exists ok1 ok2,
    response _ (summarize 2 100 nat SimulationService.counting_normal "cfg"
                  (Some 30) None None example5_results None None None 0%nat)
    = Success ok1
    /\ response _ (summarize 2 100 nat SimulationService.counting_normal "cfg"
                     (Some 40) None None example5_results None None None
                     0%nat)
       = Success ok2
    /\ p_hit ok2 <= p_hit ok1.
Proof.
  destruct (summarize_stored_succeeds 2 100 SimulationService.counting_normal
              "cfg" (Some 30) None None example5_results None None None
              0%nat example5_nonempty) as [ok1 Hok1].
  destruct (summarize_stored_succeeds 2 100 SimulationService.counting_normal
              "cfg" (Some 40) None None example5_results None None None
              0%nat example5_nonempty) as [ok2 Hok2].
  exists ok1, ok2. split; [exact Hok1|]. split; [exact Hok2|].
  refine (proj1 (summarize_p_hit_antitone 2 100
                   SimulationService.counting_normal "cfg" 30 40 None None
                   example5_results None None None 0%nat ok1 ok2 _ _
                   Hok1 Hok2)); [discriminate | lra].
Defined.

(** One stored total next to a row without one. *)
Lemma summarize_single_total_witness :
  exists ok,
    response _ (summarize 2 100 nat SimulationService.counting_normal "cfg"
                  None None None
                  [null_row; mkSimulationResult "cfg" (Some 10) (Some 0%nat)]
                  None None None 0%nat)
    = Success ok
    /\ st_std (statistics ok) = 0.
Proof.
  destruct (summarize_single_total 2 100 SimulationService.counting_normal
              "cfg" None None None
              [null_row; mkSimulationResult "cfg" (Some 10) (Some 0%nat)]
              None None None 0%nat 10 eq_refl)
    as (ok & Hok & _ & Hstd & _).
  exists ok. split; assumption.
Defined.

(** The row without a total stored first or last. *)
Lemma summarize_order_irrelevant_witness :
  summarize 2 100 nat SimulationService.counting_normal "cfg" (Some 30) None
    None (null_row :: example5_results) None None None 0%nat
  = summarize 2 100 nat SimulationService.counting_normal "cfg" (Some 30) None
      None (example5_results ++ [null_row]) None None None 0%nat.
Proof.
  apply summarize_order_irrelevant. apply Permutation_cons_append.
Defined.

(** Two runs from the posterior of Example 3 with nothing stored. *)
Lemma summarize_matches_simulation_witness :
  exists ok,
    response _ (summarize 2 100 nat SimulationService.counting_normal "cfg"
                  None (Some 2%nat) None [] (Some SimulationService.cfg0)
                  (Some SimulationService.post0) None 0%nat)
    = Success ok
    /\ st_count (statistics ok) = 2%nat.
Proof.
  destruct (simulate_example3 0%nat) as [sim_ok Hsim].
  destruct (summarize_matches_simulation 2 100
              SimulationService.counting_normal "cfg" None 2 None
              (Some SimulationService.cfg0) (Some SimulationService.post0)
              None 0%nat sim_ok Hsim)
    as (ok & Hok & _ & _ & _ & _ & _ & _ & _ & Hcount).
  exists ok. split; assumption.
Defined.

(** The second call asks for no run and names no posterior. *)
Lemma summarize_reuses_committed_witness :
  exists ok,
    summarize 2 100 nat SimulationService.counting_normal "cfg" None None
      None
      (committed _
         (summarize 2 100 nat SimulationService.counting_normal "cfg" None
            (Some 2%nat) None [] (Some SimulationService.cfg0)
            (Some SimulationService.post0) None 0%nat))
      (Some SimulationService.cfg0) None None 7%nat
    = mkOutcome nat (Success ok) [] 7%nat.
Proof.
  destruct (simulate_example3 0%nat) as [sim_ok Hsim].
  destruct (summarize_simulation_succeeds 2 100
              SimulationService.counting_normal "cfg" None 2 None
              (Some SimulationService.cfg0) (Some SimulationService.post0)
              None 0%nat sim_ok Hsim) as [ok Hok].
  exists ok.
  refine (summarize_reuses_committed 2 100 SimulationService.counting_normal
            "cfg" None 2 None (Some SimulationService.cfg0)
            (Some SimulationService.post0) None 0%nat ok _ Hok None None None
            None 7%nat).
  intros row v [= <-] [Hv|Hv]; injection Hv as <-; lra.
Defined.

End SummarizeFurtherExamples.

(** ** More on [simulate] *)

Section SimulateFurtherProperties.
Import Models SimulationService.

Context {RandomState : Type}.
Variable standard_normal : RandomState -> R * RandomState.

#[local] Abbreviation simulate_here := (simulate RandomState standard_normal).
#[local] Abbreviation adv := (advance RandomState standard_normal).
#[local] Abbreviation variates :=
  (run_variates RandomState standard_normal SIMULATION_MONTHS).

Lemma imap_map_seq {A B} (f : nat -> A -> B) (h : nat -> A) n :
  imap f (map h (seq 0 n)) = map (fun i => f i (h i)) (seq 0 n).
Proof.
  apply list_eq. intros i. rewrite list_lookup_imap, !list_lookup_fmap.
  destruct (seq 0 n !! i) as [k|] eqn:Hk; [|done].
  apply lookup_seq in Hk as [-> _]. done.
Qed.

(** X15. A call on a posterior whose variances are not negative stores all
    of its runs or none: with an error nothing is committed; with a success
    there is one total per run asked for, and the rows committed are these
    totals, in order, each with its position as run index. *)
Theorem simulate_commits_all_or_nothing config_id n_runs risk_profile config
    posterior risk g :
  (forall row v, posterior = Some row ->
     eta_r0_var row = Some v \/ eta_phi0_var row = Some v -> 0 <= v) ->
  let out :=
    simulate RandomState standard_normal config_id n_runs risk_profile config
      posterior risk g in
  match SimulationService.response _ out with
  | Error _ => SimulationService.committed _ out = []
  | Success ok =>
      sim_config_id ok = config_id
      /\ sim_n_runs ok = n_runs
      /\ length (n_totals ok) = n_runs
      /\ SimulationService.committed _ out
         = imap (fun i total =>
                   mkSimulationResult config_id (Some total) (Some i))
             (n_totals ok)
  end.
Proof.
  intros _ out. subst out.
  destruct (simulate_cases standard_normal config_id n_runs risk_profile
              config posterior risk) as [Hcan|[message Herr]].
  - destruct Hcan as (cid1 & cid2 & A & K & e0 & v0 & p0 & pv0 & ar & aphi
                      & sr & sphi & rm & -> & -> & Hload & Hsr & Hsphi & Hn).
    destruct (simulate_success standard_normal config_id n_runs risk_profile
                cid1 cid2 A K e0 v0 p0 pv0 ar aphi sr sphi risk rm g Hload
                Hsr Hsphi Hn) as (summary & _ & ->).
    cbn [SimulationService.response SimulationService.committed n_totals
         sim_config_id sim_n_runs].
    by rewrite length_map, length_seq, imap_map_seq.
  - destruct (Herr g) as [Hresp Hcommitted]. by rewrite Hresp.
Qed.

(** X16. A call succeeds only on the inputs of [can_succeed]: a
    configuration with both parameters, a posterior without nulls, a risk
    profile that exists when one is asked for, noise scales that are not
    negative, and at least one run. *)
Theorem simulate_success_requires config_id n_runs risk_profile config
    posterior risk g ok :
  SimulationService.response _
    (simulate RandomState standard_normal config_id n_runs risk_profile config
       posterior risk g) = Success ok ->
  can_succeed n_runs risk_profile config posterior risk.
Proof.
  intros Hok.
  destruct (simulate_success_inv standard_normal _ _ _ _ _ _ _ _ Hok)
    as (cid1 & cid2 & A & K & e0 & v0 & p0 & pv0 & ar & aphi & sr & sphi
        & rm & ? & ? & ? & ? & ? & ? & _).
  by exists cid1, cid2, A, K, e0, v0, p0, pv0, ar, aphi, sr, sphi, rm.
Qed.

(** X17. The inputs are checked before anything is sampled: a call that has
    advanced the generator had found the configuration with both
    parameters, a posterior without nulls and the risk profile it asked for,
    and was asked for at least one run. *)
Theorem simulate_draws_only_when_valid config_id n_runs risk_profile config
    posterior risk g :
  SimulationService.generator _
    (simulate RandomState standard_normal config_id n_runs risk_profile config
       posterior risk g)
  <> g ->
  (0 < n_runs)%nat
  /\ exists cid1 cid2 A K e0 v0 p0 pv0 ar aphi sr sphi rm,
       config = Some (mkConfiguration cid1 (Some A) (Some K))
       /\ posterior
          = Some (mkStatePosterior cid2 (Some e0) (Some v0) (Some p0)
                    (Some pv0) (Some ar) (Some aphi) (Some sr) (Some sphi))
       /\ load_risk risk_profile risk = Some rm.
Proof.
  intros Hg.
  destruct config as [[cid1 [A|] [K|]]|];
    try (exfalso; apply Hg; reflexivity).
  all: destruct posterior as [[cid2 e0 v0 p0 pv0 ar aphi sr sphi]|];
    try (exfalso; apply Hg; reflexivity).
  all: destruct (load_risk risk_profile risk) as [rm|] eqn:Hload;
    try (exfalso; apply Hg; unfold simulate; rewrite Hload; reflexivity).
  destruct e0 as [e0|], v0 as [v0|], p0 as [p0|], pv0 as [pv0|],
    ar as [ar|], aphi as [aphi|], sr as [sr|], sphi as [sphi|];
    try (exfalso; apply Hg; unfold simulate; rewrite Hload; reflexivity).
  destruct n_runs as [|n].
  { exfalso; apply Hg; unfold simulate; rewrite Hload; reflexivity. }
  split; [lia|].
  by exists cid1, cid2, A, K, e0, v0, p0, pv0, ar, aphi, sr, sphi, rm.
Qed.

(** A run with a negative noise scale raises in its first month, after the
    two draws of the initial state and, when only [sigma_phi] is negative,
    the draw of the first channel. *)
Lemma run_body_raises_at m A K e0 v0 p0 pv0 ar aphi sr sphi rm g :
  sr < 0 \/ sphi < 0 ->
  run_body RandomState standard_normal (S m) A K e0 v0 p0 pv0
    ar aphi sr sphi rm g
  = (None, adv (if decide (sr < 0) then 2 else 3) g).
Proof.
  intros Hneg. unfold run_body, mbind, Sampler_bind.
  rewrite (normal_draw standard_normal _ _ g 0) by apply sqrt_pos.
  rewrite (normal_draw standard_normal _ _ g 1) by apply sqrt_pos.
  cbn [seq for_each]. unfold mbind, Sampler_bind, month_body.
  unfold mbind, Sampler_bind.
  destruct (decide (sr < 0)) as [Hsr|Hsr].
  - unfold np_random_normal at 1. by rewrite decide_True.
  - rewrite (normal_draw standard_normal _ _ g 2) by lra.
    unfold np_random_normal at 1. rewrite decide_True by lra. done.
Qed.

(** X18. With a negative noise scale in the posterior the call fails in its
    first run with the generic error and stores nothing, but it has already
    consumed two or three variates of the generator. *)
Theorem simulate_negative_scale_fails config_id n_runs risk_profile cid1 cid2
    A K e0 v0 p0 pv0 ar aphi sr sphi risk rm g :
  load_risk risk_profile risk = Some rm ->
  (1 <= n_runs)%nat ->
  sr < 0 \/ sphi < 0 ->
  simulate RandomState standard_normal config_id n_runs risk_profile
    (Some (mkConfiguration cid1 (Some A) (Some K)))
    (Some (mkStatePosterior cid2 (Some e0) (Some v0) (Some p0) (Some pv0)
             (Some ar) (Some aphi) (Some sr) (Some sphi)))
    risk g
  = SimulationService.mkOutcome RandomState
      (Error SimulationService.generic_error) []
      (adv (if decide (sr < 0) then 2 else 3) g).
Proof.
  intros Hload Hn Hneg. destruct n_runs as [|n]; [lia|].
  unfold simulate. rewrite Hload.
  cbn [application_rate_t_ha chemistry_factor_K Models.eta_r0_mean
       Models.eta_r0_var Models.eta_phi0_mean Models.eta_phi0_var
       alpha_r alpha_phi sigma_r sigma_phi].
  cbn [seq for_each]. unfold mbind, Sampler_bind, runs_body at 1.
  unfold mbind, Sampler_bind.
  change SIMULATION_MONTHS with (S 119).
  by rewrite run_body_raises_at.
Qed.

(** *** The values of the totals *)

Lemma expit_pos x : 0 < Np.expit x.
Proof.
  unfold Np.expit. pose proof (exp_pos (- x)).
  apply Rdiv_lt_0_compat; lra.
Qed.

Lemma spec_base_N_nonneg A K e0 v0 p0 pv0 ar aphi sr sphi z t :
  0 <= A -> 0 <= K ->
  0 <= spec_base_N A K e0 v0 p0 pv0 ar aphi sr sphi z t.
Proof.
  intros HA HK. unfold spec_base_N.
  apply Rmult_le_pos; [apply Rmult_le_pos; [by apply Rmult_le_pos|]|].
  - left. apply exp_pos.
  - left. apply expit_pos.
Qed.

Lemma sum_map_scale {A} (f : A -> R) c (a : list A) :
  Np.sum (map (fun x => f x * c) a) = c * Np.sum (map f a).
Proof. unfold Np.sum. induction a as [|x a IH]; simpl; [lra|]. rewrite IH. lra. Qed.

(** What a summary holds. *)
Lemma sim_summary_inv (a : list R) sm :
  SimulationService.summarize_totals a = Some sm ->
  a <> []
  /\ Np.amin a = Some (sum_min sm) /\ Np.amax a = Some (sum_max sm)
  /\ Np.spec_percentile (merge_sort Rle a) 5 = Some (sum_p5 sm)
  /\ Np.spec_percentile (merge_sort Rle a) 50 = Some (sum_p50 sm)
  /\ Np.spec_percentile (merge_sort Rle a) 95 = Some (sum_p95 sm)
  /\ sum_mean sm = Np.mean a /\ sum_std sm = Np.std a.
Proof.
  unfold SimulationService.summarize_totals.
  destruct (percentile_literals a) as (-> & -> & ->).
  destruct (Np.amin a) as [mn|] eqn:Hmin; [|done].
  destruct (Np.amax a) as [mx|]; [|done].
  destruct (Np.spec_percentile _ 5) as [p5|]; [|done].
  destruct (Np.spec_percentile _ 50) as [p50|]; [|done].
  destruct (Np.spec_percentile _ 95) as [p95|]; [|done].
  cbv [mbind option_bind]. intros [= <-].
  cbn [sum_min sum_max sum_p5 sum_p50 sum_p95 sum_mean sum_std].
  split; [by intros ->|done].
Qed.

(** X19. With an application rate, a chemistry factor and risk multipliers that
    are not negative, no total is negative, and so neither are the least
    total and the mean of the summary. *)
Theorem simulate_totals_nonneg config_id n_runs risk_profile cid1 cid2 A K
    e0 v0 p0 pv0 ar aphi sr sphi risk rm g :
  load_risk risk_profile risk = Some rm ->
  0 <= v0 -> 0 <= pv0 -> 0 <= sr -> 0 <= sphi -> (1 <= n_runs)%nat ->
  0 <= A -> 0 <= K ->
  (forall m t, rm = Some m -> (t < SIMULATION_MONTHS)%nat ->
               0 <= risk_multiplier m t) ->
  exists ok,
    SimulationService.response _
      (simulate RandomState standard_normal config_id n_runs risk_profile
         (Some (mkConfiguration cid1 (Some A) (Some K)))
         (Some (mkStatePosterior cid2 (Some e0) (Some v0) (Some p0) (Some pv0)
                  (Some ar) (Some aphi) (Some sr) (Some sphi)))
         risk g) = Success ok
    /\ Forall (fun total => 0 <= total) (n_totals ok)
    /\ 0 <= sum_min (summary ok)
    /\ 0 <= sum_mean (summary ok).
Proof.
  intros Hload _ _ Hsr Hsphi Hn HA HK Hrm.
  destruct (simulate_success standard_normal config_id n_runs risk_profile
              cid1 cid2 A K e0 v0 p0 pv0 ar aphi sr sphi risk rm g Hload
              Hsr Hsphi) as (sm & Hsm & ->); [lia|].
  eexists. split; [done|]. cbn [n_totals summary].
  match type of Hsm with
  | SimulationService.summarize_totals ?a = _ => set (totals := a) in *
  end.
  assert (Forall (fun total => 0 <= total) totals) as Hall.
  { subst totals. apply Forall_forall. intros x Hx.
    apply list_elem_of_fmap in Hx as (i & -> & _).
    apply sum_nonneg, Forall_forall. intros y Hy.
    apply list_elem_of_fmap in Hy as (t & -> & Ht).
    apply elem_of_seq in Ht. unfold spec_N.
    pose proof (spec_base_N_nonneg A K e0 v0 p0 pv0 ar aphi sr sphi
                  (variates g i) t HA HK).
    destruct rm as [m|]; [|done].
    apply Rmult_le_pos; [done|]. apply (Hrm m t); [done|].
    unfold SIMULATION_MONTHS in *. lia. }
  split; [done|].
  destruct (sim_summary_inv totals sm Hsm)
    as (Hne & Hmin & Hmax & H5 & H50 & H95 & Hmean & _).
  destruct (amin_spec totals _ Hmin) as [Hin _].
  pose proof (proj1 (Forall_forall _ _) Hall _ Hin) as Hmn.
  split; [done|].
  destruct (statistics_order totals _ _ _ _ _ Hne H5 H50 H95 Hmin Hmax)
    as (_ & _ & _ & _ & Hm & _).
  rewrite Hmean. lra.
Qed.

(** X20. A risk source whose multiplier is the same [c] in every month (a
    scalar, a one-element list, a dictionary with only a default, or the
    empty list with [c = 1]) scales every total of the call without a risk
    profile by [c], and draws the same variates. *)
Theorem simulate_uniform_multiplier_scales config_id n_runs risk_profile
    cid1 cid2 A K e0 v0 p0 pv0 ar aphi sr sphi risk rm c g :
  load_risk risk_profile risk = Some (Some rm) ->
  0 <= v0 -> 0 <= pv0 -> 0 <= sr -> 0 <= sphi -> (1 <= n_runs)%nat ->
  (forall t, (t < SIMULATION_MONTHS)%nat -> risk_multiplier rm t = c) ->
  let config := Some (mkConfiguration cid1 (Some A) (Some K)) in
  let posterior :=
    Some (mkStatePosterior cid2 (Some e0) (Some v0) (Some p0) (Some pv0)
            (Some ar) (Some aphi) (Some sr) (Some sphi)) in
  let with_risk :=
    simulate RandomState standard_normal config_id n_runs risk_profile config
      posterior risk g in
  let without :=
    simulate RandomState standard_normal config_id n_runs None config
      posterior None g in
  exists ok ok0,
    SimulationService.response _ with_risk = Success ok
    /\ SimulationService.response _ without = Success ok0
    /\ n_totals ok = map (Rmult c) (n_totals ok0)
    /\ SimulationService.generator _ with_risk
       = SimulationService.generator _ without.
Proof.
  intros Hload _ _ Hsr Hsphi Hn Hc config posterior with_risk without.
  subst with_risk without config posterior.
  destruct (simulate_success standard_normal config_id n_runs risk_profile
              cid1 cid2 A K e0 v0 p0 pv0 ar aphi sr sphi risk (Some rm) g
              Hload Hsr Hsphi) as (sm & _ & ->); [lia|].
  destruct (simulate_success standard_normal config_id n_runs None
              cid1 cid2 A K e0 v0 p0 pv0 ar aphi sr sphi None None g
              eq_refl Hsr Hsphi) as (sm0 & _ & ->); [lia|].
  do 2 eexists. split; [done|]. split; [done|].
  cbn [n_totals SimulationService.generator]. split; [|done].
  rewrite map_map. apply map_ext. intros i.
  unfold spec_total, spec_N. rewrite <- sum_map_scale.
  f_equal. apply map_ext_in. intros t [_ Ht]%in_seq.
  by rewrite (Hc t) by (unfold SIMULATION_MONTHS in *; lia).
Qed.

(** A run at the application rate [0] removes nothing. *)
Lemma spec_total_zero_rate K e0 v0 p0 pv0 ar aphi sr sphi rm z n_months :
  spec_total 0 K e0 v0 p0 pv0 ar aphi sr sphi rm z n_months = 0.
Proof.
  unfold spec_total, Np.sum.
  induction (seq 0 n_months) as [|t l IH]; [done|].
  cbn [map foldr]. rewrite IH. unfold spec_N, spec_base_N.
  destruct rm; ring.
Qed.

(** X21. The summary of a successful call is ordered:
    [min <= p5 <= p50 <= p95 <= max], where [min] and [max] are totals of
    the call themselves, and the standard deviation is not negative.  The
    totals returned are taken to be of moderate size, so that their
    differences do not overflow in the program's doubles. *)
Theorem simulate_summary_ordered config_id n_runs risk_profile config
    posterior risk g ok :
  SimulationService.response _
    (simulate RandomState standard_normal config_id n_runs risk_profile config
       posterior risk g) = Success ok ->
  Forall (fun total => Rabs total <= 1e150) (n_totals ok) ->
  let sm := summary ok in
  sum_min sm <= sum_p5 sm /\ sum_p5 sm <= sum_p50 sm
  /\ sum_p50 sm <= sum_p95 sm /\ sum_p95 sm <= sum_max sm
  /\ sum_min sm ∈ n_totals ok /\ sum_max sm ∈ n_totals ok
  /\ 0 <= sum_std sm.
Proof.
  intros Hok _.
  destruct (simulate_success_inv standard_normal _ _ _ _ _ _ _ _ Hok)
    as (? & ? & ? & ? & ? & ? & ? & ? & ? & ? & ? & ? & ? & _ & _ & _ & _ & _
        & _ & _ & Hsm & _).
  destruct (sim_summary_inv _ _ Hsm)
    as (Hne & Hmin & Hmax & H5 & H50 & H95 & Hmean & Hstd).
  destruct (statistics_order _ _ _ _ _ _ Hne H5 H50 H95 Hmin Hmax)
    as (? & ? & ? & ? & ?).
  cbv zeta. rewrite Hstd. do 4 (split; [done|]).
  split; [by apply amin_spec|]. split; [by apply amax_spec|].
  by apply std_spec.
Qed.

(** X22. Calls compose: [n] runs followed by [m] runs from the generator state
    the first call leaves give the totals of one call of [n + m] runs, and
    leave the generator in the same state. *)
Theorem simulate_runs_compose config_id n m risk_profile cid1 cid2 A K
    e0 v0 p0 pv0 ar aphi sr sphi risk rm g :
  load_risk risk_profile risk = Some rm ->
  0 <= v0 -> 0 <= pv0 -> 0 <= sr -> 0 <= sphi ->
  (1 <= n)%nat -> (1 <= m)%nat ->
  let call := fun k g =>
    simulate RandomState standard_normal config_id k risk_profile
      (Some (mkConfiguration cid1 (Some A) (Some K)))
      (Some (mkStatePosterior cid2 (Some e0) (Some v0) (Some p0) (Some pv0)
               (Some ar) (Some aphi) (Some sr) (Some sphi)))
      risk g in
  let g' := SimulationService.generator _ (call n g) in
  exists ok1 ok2 ok,
    SimulationService.response _ (call n g) = Success ok1
    /\ SimulationService.response _ (call m g') = Success ok2
    /\ SimulationService.response _ (call (n + m)%nat g) = Success ok
    /\ n_totals ok = n_totals ok1 ++ n_totals ok2
    /\ SimulationService.generator _ (call (n + m)%nat g)
       = SimulationService.generator _ (call m g').
Proof.
  intros Hload _ _ Hsr Hsphi Hn Hm call g'. subst g' call. cbv beta.
  destruct (simulate_success standard_normal config_id n risk_profile
              cid1 cid2 A K e0 v0 p0 pv0 ar aphi sr sphi risk rm g Hload
              Hsr Hsphi) as (sm1 & _ & ->); [lia|].
  cbn [SimulationService.generator].
  destruct (simulate_success standard_normal config_id m risk_profile
              cid1 cid2 A K e0 v0 p0 pv0 ar aphi sr sphi risk rm
              (adv (draws_per_run SIMULATION_MONTHS * n) g) Hload
              Hsr Hsphi) as (sm2 & _ & ->); [lia|].
  destruct (simulate_success standard_normal config_id (n + m) risk_profile
              cid1 cid2 A K e0 v0 p0 pv0 ar aphi sr sphi risk rm g Hload
              Hsr Hsphi) as (sm & _ & ->); [lia|].
  do 3 eexists. do 3 (split; [done|]).
  cbn [n_totals SimulationService.generator]. split.
  - rewrite seq_app, map_app. f_equal. cbn [Nat.add].
    assert (seq n m = map (Nat.add n) (seq 0 m)) as ->.
    { change (map (Nat.add n) (seq 0 m)) with (Nat.add n <$> seq 0 m).
      by rewrite fmap_add_seq, Nat.add_0_r. }
    rewrite map_map. apply map_ext. intros i.
    apply spec_total_ext. intros j _. unfold run_variates.
    rewrite draw_advance. f_equal. lia.
  - rewrite <- advance_add. f_equal. lia.
Qed.

End SimulateFurtherProperties.

Section SimulateFurtherExamples.
Import Models SimulationService.

Lemma advance_counting k g : advance nat counting_normal k g = (k + g)%nat.
Proof.
  revert g. induction k as [|k IH]; intros g; [done|].
  cbn [advance]. rewrite IH. unfold counting_normal. cbn [snd]. lia.
Qed.

(** One run from the posterior of the spec's Example 3 draws 242
    variates. *)
Lemma simulate_draws_only_when_valid_witness :
  (0 < 1)%nat
  /\ exists cid1 cid2 A K e0 v0 p0 pv0 ar aphi sr sphi rm,
       Some cfg0 = Some (mkConfiguration cid1 (Some A) (Some K))
       /\ Some post0
          = Some (mkStatePosterior cid2 (Some e0) (Some v0) (Some p0)
                    (Some pv0) (Some ar) (Some aphi) (Some sr) (Some sphi))
       /\ load_risk None None = Some rm.
Proof.
  apply (simulate_draws_only_when_valid counting_normal "cfg" 1 None
           (Some cfg0) (Some post0) None 0%nat).
  destruct (simulate_success counting_normal "cfg" 1 None "cfg" "cfg" 10 0.5
              (-2) 0.01 0 1 0 0 1e-6 0.1 None None 0%nat eq_refl
              ltac:(lra) ltac:(lra) ltac:(lia)) as (summary & _ & Hsim).
  unfold cfg0, post0. rewrite Hsim. cbn [generator].
  rewrite advance_counting. unfold draws_per_run, SIMULATION_MONTHS. lia.
Defined.

(** The posterior of Example 3 with [sigma_r = -1]. *)
Lemma simulate_negative_scale_fails_witness :
  SimulationService.response _
    (simulate nat counting_normal "cfg" 1 None (Some cfg0)
       (Some (mkStatePosterior "cfg" (Some (-2)) (Some 0.01) (Some 0) (Some 1)
                (Some 0) (Some 0) (Some (-1)) (Some 0.1)))
       None 0%nat)
  = Error SimulationService.generic_error.
Proof.
  exact (f_equal (SimulationService.response nat)
           (simulate_negative_scale_fails counting_normal "cfg" 1 None "cfg"
              "cfg" 10 0.5 (-2) 0.01 0 1 0 0 (-1) 0.1 None None 0%nat
              eq_refl ltac:(lia) ltac:(left; lra))).
Defined.

(** Two runs from the posterior of Example 3, without a risk profile. *)
Lemma simulate_totals_nonneg_witness :
  exists ok,
    SimulationService.response _
      (simulate nat counting_normal "cfg" 2 None (Some cfg0) (Some post0)
         None 0%nat) = Success ok
    /\ Forall (fun total => 0 <= total) (n_totals ok).
Proof.
  destruct (simulate_totals_nonneg counting_normal "cfg" 2 None "cfg" "cfg"
              10 0.5 (-2) 0.01 0 1 0 0 1e-6 0.1 None None 0%nat eq_refl
              ltac:(lra) ltac:(lra) ltac:(lra) ltac:(lra) ltac:(lia)
              ltac:(lra) ltac:(lra) ltac:(discriminate))
    as (ok & Hok & Hall & _).
  exists ok. split; assumption.
Defined.

(** A risk profile that doubles every month. *)
Lemma simulate_uniform_multiplier_scales_witness :
  exists ok ok0,
    SimulationService.response _
      (simulate nat counting_normal "cfg" 2 (Some "double") (Some cfg0)
         (Some post0)
         (Some (mkRiskProfile "double"
                  (Some (WithMultipliersKey (RiskScalar 2)))))
         0%nat) = Success ok
    /\ SimulationService.response _
         (simulate nat counting_normal "cfg" 2 None (Some cfg0) (Some post0)
            None 0%nat) = Success ok0
    /\ n_totals ok = map (Rmult 2) (n_totals ok0).
Proof.
  destruct (simulate_uniform_multiplier_scales counting_normal "cfg" 2
              (Some "double") "cfg" "cfg" 10 0.5 (-2) 0.01 0 1 0 0 1e-6 0.1
              (Some (mkRiskProfile "double"
                       (Some (WithMultipliersKey (RiskScalar 2)))))
              (RiskScalar 2) 2 0%nat eq_refl
              ltac:(lra) ltac:(lra) ltac:(lra) ltac:(lra) ltac:(lia)
              (fun t _ => eq_refl))
    as (ok & ok0 & Hok & Hok0 & Htotals & _).
  exists ok, ok0. split; [exact Hok|]. split; assumption.
Defined.

(** Two runs at the application rate [0]: both totals are [0]. *)
Lemma simulate_summary_ordered_witness :
  exists ok,
    SimulationService.response _
      (simulate nat counting_normal "cfg" 2 None
         (Some (mkConfiguration "cfg" (Some 0) (Some 0.5))) (Some post0)
         None 0%nat) = Success ok
    /\ sum_min (summary ok) <= sum_p5 (summary ok).
Proof.
  destruct (simulate_success counting_normal "cfg" 2 None "cfg" "cfg" 0 0.5
              (-2) 0.01 0 1 0 0 1e-6 0.1 None None 0%nat eq_refl
              ltac:(lra) ltac:(lra) ltac:(lia)) as (sm & _ & Hsim).
  apply (f_equal (SimulationService.response nat)) in Hsim.
  cbn [SimulationService.response] in Hsim.
  eexists. split; [exact Hsim|].
  refine (proj1 (simulate_summary_ordered counting_normal _ _ _ _ _ _ _ _
                   Hsim _)).
  cbn [n_totals]. apply Forall_forall. intros x Hx.
  apply list_elem_of_fmap in Hx as (i & -> & _).
  rewrite spec_total_zero_rate, Rabs_R0. lra.
Defined.

(** Two runs from the posterior of Example 3. *)
Lemma simulate_commits_all_or_nothing_witness :
  match SimulationService.response _
          (simulate nat counting_normal "cfg" 2 None (Some cfg0) (Some post0)
             None 0%nat) with
  | Error _ =>
      SimulationService.committed _
        (simulate nat counting_normal "cfg" 2 None (Some cfg0) (Some post0)
           None 0%nat) = []
  | Success ok =>
      sim_config_id ok = "cfg"
      /\ sim_n_runs ok = 2%nat
      /\ length (n_totals ok) = 2%nat
      /\ SimulationService.committed _
           (simulate nat counting_normal "cfg" 2 None (Some cfg0) (Some post0)
              None 0%nat)
         = imap (fun i total => mkSimulationResult "cfg" (Some total) (Some i))
             (n_totals ok)
  end.
Proof.
  apply (simulate_commits_all_or_nothing counting_normal "cfg" 2 None
           (Some cfg0) (Some post0) None 0%nat).
  intros row v [= <-] [Hv|Hv]; injection Hv as <-; lra.
Defined.

(** Two runs from the posterior of Example 3 succeed. *)
Lemma simulate_success_requires_witness :
  can_succeed 2 None (Some cfg0) (Some post0) None.
Proof.
  destruct (simulate_example3 0%nat) as [ok Hok].
  exact (simulate_success_requires counting_normal "cfg" 2 None (Some cfg0)
           (Some post0) None 0%nat ok Hok).
Defined.

(** One run, then another, against two runs at once. *)
Lemma simulate_runs_compose_witness :
  exists ok1 ok2 ok,
    SimulationService.response _
      (simulate nat counting_normal "cfg" 1 None (Some cfg0) (Some post0)
         None 0%nat) = Success ok1
    /\ SimulationService.response _
         (simulate nat counting_normal "cfg" 1 None (Some cfg0) (Some post0)
            None
            (generator _
               (simulate nat counting_normal "cfg" 1 None (Some cfg0)
                  (Some post0) None 0%nat))) = Success ok2
    /\ SimulationService.response _
         (simulate nat counting_normal "cfg" 2 None (Some cfg0) (Some post0)
            None 0%nat) = Success ok
    /\ n_totals ok = n_totals ok1 ++ n_totals ok2.
Proof.
  destruct (simulate_runs_compose counting_normal "cfg" 1 1 None "cfg" "cfg"
              10 0.5 (-2) 0.01 0 1 0 0 1e-6 0.1 None None 0%nat eq_refl
              ltac:(lra) ltac:(lra) ltac:(lra) ltac:(lra) ltac:(lia)
              ltac:(lia))
    as (ok1 & ok2 & ok & Hok1 & Hok2 & Hok & Htotals & _).
  exists ok1, ok2, ok. do 3 (split; [assumption|]). assumption.
Defined.

End SimulateFurtherExamples.

(** ** Listing the results *)

Section ListingProperties.
Import Models ResultsRoutes.

#[local] Abbreviation matching table config_id :=
  (ResultsService.filtered_query table (route_filters config_id)).

(** The rows a listing ranges over: those of the configuration asked for,
    or all rows when no configuration, or a blank one, is named. *)
Lemma matching_rows table config_id :
  matching table config_id
  = match config_id with
    | Some id =>
        if decide (id = "") then table
        else filter (fun r => sr_config_id r = id) table
    | None => table
    end.
Proof.
  unfold ResultsService.filtered_query, route_filters.
  destruct config_id as [id|]; [|done]. cbn [SimulationService.truthy].
  destruct (decide (id = "")) as [->|Hid]; [done|].
  apply String.eqb_neq in Hid. by rewrite Hid.
Qed.

Lemma list_results_valid table config_id page page_size :
  (1 <= page)%Z -> (1 <= page_size <= 500)%Z ->
  ((page - 1) * page_size <= INT64_MAX)%Z ->
  list_results table config_id page page_size
  = Ok {| items :=
            take (Z.to_nat page_size)
              (drop (Z.to_nat ((page - 1) * page_size))
                 (matching table config_id));
          pagination :=
            {| page := page;
               page_size := page_size;
               total := Z.of_nat (length (matching table config_id));
               total_pages :=
                 if decide (Z.of_nat (length (matching table config_id)) > 0)%Z
                 then ((Z.of_nat (length (matching table config_id))
                        + page_size - 1) / page_size)%Z
                 else 0%Z;
               has_next :=
                 bool_decide ((page - 1) * page_size + page_size
                              < Z.of_nat (length (matching table config_id)))%Z;
               has_prev := bool_decide (page > 1)%Z |} |}.
Proof.
  intros Hp Hs Ho. unfold list_results.
  rewrite decide_True by done. by rewrite decide_True by done.
Qed.

(** The number of pages is the least that holds all the rows. *)
Lemma total_pages_spec (T ps : Z) :
  (0 <= T)%Z -> (1 <= ps)%Z ->
  let n := if decide (T > 0)%Z then ((T + ps - 1) / ps)%Z else 0%Z in
  ((n - 1) * ps < T <= n * ps)%Z.
Proof.
  intros HT Hps n. subst n. destruct (decide (T > 0)%Z); [|lia].
  pose proof (Z.div_mod (T + ps - 1) ps ltac:(lia)).
  pose proof (Z.mod_pos_bound (T + ps - 1) ps ltac:(lia)).
  nia.
Qed.

(** X23. A listing only holds rows of the configuration asked for and counts
    all of them; a blank [config_id] filters nothing, like none at all. *)
Theorem list_results_config_filter table config_id page page_size listing :
  list_results table config_id page page_size = Ok listing ->
  (forall id, config_id = Some id -> id <> "" ->
     Forall (fun r => sr_config_id r = id) (items listing)
     /\ total (pagination listing)
        = Z.of_nat (length (filter (fun r => sr_config_id r = id) table)))
  /\ (config_id = None \/ config_id = Some "" ->
      items listing ⊆ table
      /\ total (pagination listing) = Z.of_nat (length table)).
Proof.
  unfold list_results. destruct (decide _) as [[Hp Hs]|]; [|done].
  destruct (decide _) as [Ho|]; [|done].
  intros [= <-]. cbn [items pagination total].
  unfold ResultsService.list_results, ResultsService.count_results.
  rewrite matching_rows. split.
  - intros id -> Hid. rewrite decide_False by done. split; [|done].
    apply Forall_forall. intros r Hr.
    apply subseteq_take, subseteq_drop in Hr.
    by apply list_elem_of_filter in Hr as [? _].
  - intros Hblank.
    assert (match config_id with
            | Some id =>
                if decide (id = "") then table
                else filter (fun r => sr_config_id r = id) table
            | None => table
            end = table) as ->
      by (by destruct Hblank as [->| ->]).
    split; [|done]. intros r Hr. by apply subseteq_take, subseteq_drop in Hr.
Qed.

(** X24. The pagination of a valid request whose offset the database takes
    agrees with its items: a page holds at most [page_size] rows;
    [total_pages] is the least number of pages that holds all the rows;
    [has_next] tells whether a later page exists, and then this page is
    full; a page is empty exactly when it lies past the last one. *)
Theorem list_results_pagination table config_id page page_size :
  (1 <= page)%Z -> (1 <= page_size <= 500)%Z ->
  ((page - 1) * page_size <= INT64_MAX)%Z ->
  exists listing,
    list_results table config_id page page_size = Ok listing
    /\ let pg := pagination listing in
       total pg = Z.of_nat (length (matching table config_id))
       /\ (length (items listing) <= Z.to_nat page_size)%nat
       /\ ((total_pages pg - 1) * page_size < total pg
           <= total_pages pg * page_size)%Z
       /\ (has_next pg = true <-> (page < total_pages pg)%Z)
       /\ (has_prev pg = true <-> (1 < page)%Z)
       /\ (has_next pg = true ->
           length (items listing) = Z.to_nat page_size)
       /\ (items listing = [] <-> (total_pages pg < page)%Z).
Proof.
  intros Hp Hs Ho. rewrite list_results_valid by done.
  eexists. split; [done|].
  cbn [pagination items total total_pages has_next has_prev].
  set (rows := matching table config_id).
  pose proof (total_pages_spec (Z.of_nat (length rows)) page_size
                ltac:(lia) ltac:(lia)) as Hn.
  cbv zeta in Hn.
  set (n := if decide (Z.of_nat (length rows) > 0)%Z
            then ((Z.of_nat (length rows) + page_size - 1) / page_size)%Z
            else 0%Z) in *.
  assert (length (take (Z.to_nat page_size)
                    (drop (Z.to_nat ((page - 1) * page_size)) rows))
          = Nat.min (Z.to_nat page_size)
              (length rows - Z.to_nat ((page - 1) * page_size))) as Hlen
    by (by rewrite length_take, length_drop).
  split; [done|]. split; [lia|]. split; [done|].
  rewrite !bool_decide_eq_true.
  split; [split; nia|]. split; [lia|]. split; [nia|].
  rewrite <- length_zero_iff_nil, Hlen. split; nia.
Qed.

End ListingProperties.

Section ListingExamples.
Import Models ResultsService.

(** The first page of two rows over the results of Example 5 and a row
    without a total. *)
Lemma list_results_config_filter_witness :
  exists listing,
    ResultsRoutes.list_results (null_row :: example5_results) (Some "cfg") 1 2
    = ResultsRoutes.Ok listing
    /\ Forall (fun r => sr_config_id r = "cfg") (ResultsRoutes.items listing).
Proof.
  pose proof (list_results_valid (null_row :: example5_results) (Some "cfg")
                1 2 ltac:(lia) ltac:(lia)
                ltac:(unfold ResultsRoutes.INT64_MAX; lia)) as Hok.
  eexists. split; [exact Hok|].
  exact (proj1 (proj1 (list_results_config_filter _ _ _ _ _ Hok) "cfg"
                  eq_refl ltac:(discriminate))).
Defined.

(** The first of three pages of two rows over the results of Example 5. *)
Lemma list_results_pagination_witness :
  exists listing,
    ResultsRoutes.list_results example5_results None 1 2
    = ResultsRoutes.Ok listing
    /\ (length (ResultsRoutes.items listing) <= 2)%nat.
Proof.
  destruct (list_results_pagination example5_results None 1 2
              ltac:(lia) ltac:(lia)
                ltac:(unfold ResultsRoutes.INT64_MAX; lia))
    as (listing & Hok & _ & Hlen & _).
  exists listing. split; [exact Hok | exact Hlen].
Defined.

End ListingExamples.

(** ** The summary of the stored results *)

Section SummaryRouteProperties.
Import Models ResultsService.

Variables DEFAULT_TARGET_MULTIPLIER DEFAULT_TARGET_FALLBACK : R.
Context {RandomState : Type}.
Variable standard_normal : RandomState -> R * RandomState.

(** X26. [GET /{config_id}] only reads: it never runs a simulation, so it stores
    no row and draws no variate.  It answers with the summary of the
    non-null stored totals when there is one, and otherwise with a 400 whose
    detail tells whether no row is stored or no stored row has a total. *)
Theorem get_results_reads_only config_id existing config posterior risk g :
  let out :=
    ResultsRoutes.get_results DEFAULT_TARGET_MULTIPLIER
      DEFAULT_TARGET_FALLBACK RandomState standard_normal config_id existing
      config posterior risk g in
  ResultsRoutes.route_committed _ out = []
  /\ ResultsRoutes.route_generator _ out = g
  /\ match ResultsRoutes.answer _ out with
     | ResultsRoutes.Ok body =>
         non_null_totals existing <> []
         /\ res_config_id body = config_id
         /\ st_count (statistics body) = length (non_null_totals existing)
     | ResultsRoutes.HTTPException status_code detail =>
         status_code = 400%Z
         /\ non_null_totals existing = []
         /\ detail
            = match existing with
              | [] => "No simulation results found for " +:+ config_id
                      +:+ " and n_runs not provided"
              | _ :: _ => no_valid_results config_id
              end
     | ResultsRoutes.RequestValidationError => False
     end.
Proof.
  intros out. subst out. unfold ResultsRoutes.get_results.
  destruct existing as [|row rest]; [done|].
  rewrite summarize_existing by done.
  unfold ResultsRoutes.route_outcome.
  cbn [response committed generator ResultsRoutes.answer
       ResultsRoutes.route_committed ResultsRoutes.route_generator].
  split; [done|]. split; [done|].
  destruct (non_null_totals (row :: rest)) as [|x l] eqn:Hn; [done|].
  destruct (summarize_totals_success DEFAULT_TARGET_MULTIPLIER
              DEFAULT_TARGET_FALLBACK config_id None config (x :: l))
    as (? & ? & ? & ? & ? & _ & _ & _ & _ & _ & ->); [done|].
  done.
Qed.

End SummaryRouteProperties.
